(** * Expense tracker: store, validation, derived views and CSV codec

    A shallow embedding of [src/lib/security.ts], [src/lib/storage.ts],
    [src/lib/expense-utils.ts], [src/lib/csv-utils.ts], of the CSV import
    handler of the settings page and of the logic of three components (the
    month selector, the data of the pie chart and the submit handler of the
    entry form), together with the properties of the specification and
    further properties of the code stated over it.

    Conventions of the embedding
    - a JavaScript string is the list of its UTF-16 code units ([list N]);
    - [amountCents], [limitCents] and the other integral quantities are [Z];
      the fractional numbers produced by [parseFloat] are exact rationals
      ([Q]), which agrees with IEEE doubles on every two-decimal amount in the
      range of the schema;
    - an optional property ([note?: string], a key of a [Partial<...>], a
      property that holds [undefined]) is an [option];
    - [localStorage], the rate limiter's [operationCounts], the clock and the
      source of randomness form the [World] threaded through the store
      operations; exceptions are the [Throw] outcome. *)

From Stdlib Require Import ZArith NArith String Ascii QArith Qround Lia Sorted.
From stdpp Require Import base gmap list.

Open Scope Z_scope.

(** ** JavaScript strings *)

Module JsString.

(** Code units of a literal. *)
Definition js (s : string) : list N :=
  N_of_ascii <$> list_ascii_of_string s.

Definition eqb (a b : list N) : bool := bool_decide (a = b).

(** [WhiteSpace] and [LineTerminator] of ECMAScript: what [trim] removes
    and what the class [\s] matches. *)
Definition isWhiteSpace (c : N) : bool :=
  ((9 <=? c) && (c <=? 13) || (c =? 32) || (c =? 160) || (c =? 5760)
   || (8192 <=? c) && (c <=? 8202) || (c =? 8232) || (c =? 8233)
   || (c =? 8239) || (c =? 8287) || (c =? 12288) || (c =? 65279))%N.

Definition isDigit (c : N) : bool := ((48 <=? c) && (c <=? 57))%N.
Definition isUpper (c : N) : bool := ((65 <=? c) && (c <=? 90))%N.
Definition isLower (c : N) : bool := ((97 <=? c) && (c <=? 122))%N.
Definition isHex (c : N) : bool :=
  isDigit c || ((65 <=? c) && (c <=? 70))%N || ((97 <=? c) && (c <=? 102))%N.

Fixpoint trimStart (s : list N) : list N :=
  match s with
  | c :: r => if isWhiteSpace c then trimStart r else s
  | [] => []
  end.

Definition trimEnd (s : list N) : list N := rev (trimStart (rev s)).

Definition trim (s : list N) : list N := trimEnd (trimStart s).

(** [s.slice(0, n)] for a non-negative [n]. *)
Definition slice0 (n : nat) (s : list N) : list N := take n s.

(** [s.replace(/[class]/g, '')]. *)
Definition removeAll (cls : N -> bool) (s : list N) : list N :=
  List.filter (fun c => negb (cls c)) s.

(** [s.replace(/\s+/g, ' ')]: every maximal run of white space becomes
    one space. [inRun] records that the previous code unit was white. *)
Fixpoint collapseFrom (inRun : bool) (s : list N) : list N :=
  match s with
  | [] => []
  | c :: r =>
      if isWhiteSpace c
      then (if inRun then collapseFrom true r else 32%N :: collapseFrom true r)
      else c :: collapseFrom false r
  end.

Definition collapseSpaces (s : list N) : list N := collapseFrom false s.

(** [s.split(sep)] for a one-unit separator: never the empty array. *)
Fixpoint split (sep : N) (s : list N) : list (list N) :=
  match s with
  | [] => [[]]
  | c :: r =>
      if (c =? sep)%N then [] :: split sep r
      else match split sep r with
           | h :: t => (c :: h) :: t
           | [] => [[c]]
           end
  end.

(** [parts.join(sep)]. *)
Fixpoint join (sep : list N) (parts : list (list N)) : list N :=
  match parts with
  | [] => []
  | [p] => p
  | p :: rest => p ++ sep ++ join sep rest
  end.

(** [arr.includes(x)] on an array of strings. *)
Definition includes (arr : list (list N)) (x : list N) : bool :=
  existsb (eqb x) arr.

(** [s.toLowerCase()], on the ASCII letters. *)
Definition toLowerCase (s : list N) : list N :=
  (fun c => if isUpper c then (c + 32)%N else c) <$> s.

(** [a <= b] on strings: lexicographic on code units. *)
Fixpoint leb (a b : list N) : bool :=
  match a, b with
  | [], _ => true
  | _ :: _, [] => false
  | x :: a', y :: b' =>
      if (x <? y)%N then true
      else if (y <? x)%N then false
      else leb a' b'
  end.

(** Truthiness of a string: only [''] is falsy. *)
Definition truthy (s : list N) : bool :=
  match s with [] => false | _ => true end.

(** Truthiness of a possibly [undefined] string. *)
Definition truthy_opt (o : option (list N)) : bool :=
  match o with Some s => truthy s | None => false end.

(** Decimal digits of a natural number, most significant first. *)
Fixpoint digits_fuel (fuel : nat) (n : N) (acc : list N) : list N :=
  match fuel with
  | O => acc
  | S f =>
      let acc' := (48 + n mod 10)%N :: acc in
      if (n / 10 =? 0)%N then acc' else digits_fuel f (n / 10)%N acc'
  end.

Definition ofN (n : N) : list N :=
  digits_fuel (S (N.to_nat (N.log2 n))) n [].

(** [String(n).padStart(w, '0')] for a natural number. *)
Definition padStart0 (w : nat) (s : list N) : list N :=
  replicate (w - length s) 48%N ++ s.

(** Value of a string of decimal digits; [None] when some unit is not a
    digit. The empty string has value 0, as [Number('')] has. *)
Fixpoint digitsValue (acc : Z) (s : list N) : option Z :=
  match s with
  | [] => Some acc
  | c :: r =>
      if isDigit c then digitsValue (10 * acc + (Z.of_N c - 48)) r
      else None
  end.

End JsString.

Import JsString.

(** ** JavaScript numbers read from and written to text *)

Module JsNumber.

(** The longest prefix of digits, and what follows it. *)
Fixpoint spanDigits (s : list N) : list N * list N :=
  match s with
  | c :: r =>
      if isDigit c then let '(ds, rest) := spanDigits r in (c :: ds, rest)
      else ([], s)
  | [] => ([], [])
  end.

Definition digitsZ (s : list N) : Z := default 0 (digitsValue 0 s).

(** The exponent part [e[+-]?\d+] of a decimal literal, when complete. *)
Definition exponentPart (s : list N) : Z :=
  match s with
  | c :: r =>
      if ((c =? 101) || (c =? 69))%N then
        match r with
        | 45%N :: d => match fst (spanDigits d) with [] => 0 | ds => - digitsZ ds end
        | 43%N :: d => digitsZ (fst (spanDigits d))
        | d => digitsZ (fst (spanDigits d))
        end
      else 0
  | [] => 0
  end.

(** [parseFloat(s)]: the longest prefix of the trimmed input that is a
    decimal literal; [None] is [NaN]. The value is the exact decimal, where
    the code has the double nearest to it. The literal [Infinity] and the
    literals beyond the range of doubles (which the code reads as Infinity
    or 0) are outside the embedding: the first reads as [NaN], the others
    as their exact value. *)
Definition parseFloat (s : list N) : option Q :=
  let s0 := trimStart s in
  let '(neg, s1) :=
    match s0 with
    | 45%N :: r => (true, r)
    | 43%N :: r => (false, r)
    | _ => (false, s0)
    end in
  let '(ip, s2) := spanDigits s1 in
  let '(fp, s3) :=
    match s2 with
    | 46%N :: r => spanDigits r
    | _ => ([], s2)
    end in
  match ip ++ fp with
  | [] => None
  | ds =>
      let mant := inject_Z (digitsZ ds) in
      let e := exponentPart s3 - Z.of_nat (length fp) in
      let v := (mant * Qpower (10 # 1) e)%Q in
      Some (if neg then (- v)%Q else v)
  end.

(** [Math.round(x)]: the nearest integer, halves upwards. *)
Definition Math_round (x : Q) : Z := Qfloor (x + (1 # 2))%Q.

(** [(cents / 100).toFixed(2)]. *)
Definition toFixed2_of_cents (cents : Z) : list N :=
  let a := Z.to_N (Z.abs cents) in
  (if cents <? 0 then js "-" else []) ++
  ofN (a / 100)%N ++ js "." ++ padStart0 2 (ofN (a mod 100)%N).

End JsNumber.

Import JsNumber.

(** ** JavaScript dates *)

Module JsDate.

Definition msPerDay : Z := 86400000.

(** Day number (days since 1970-01-01) of a proleptic Gregorian date, and
    back. *)
Definition days_from_civil (y m d : Z) : Z :=
  let y' := if m <=? 2 then y - 1 else y in
  let era := y' / 400 in
  let yoe := y' - era * 400 in
  let doy := (153 * (if m >? 2 then m - 3 else m + 9) + 2) / 5 + d - 1 in
  let doe := yoe * 365 + yoe / 4 - yoe / 100 + doy in
  era * 146097 + doe - 719468.

Definition civil_from_days (z : Z) : Z * Z * Z :=
  let z' := z + 719468 in
  let era := z' / 146097 in
  let doe := z' - era * 146097 in
  let yoe := (doe - doe / 1460 + doe / 36524 - doe / 146096) / 365 in
  let doy := doe - (365 * yoe + yoe / 4 - yoe / 100) in
  let mp := (5 * doy + 2) / 153 in
  let d := doy - (153 * mp + 2) / 5 + 1 in
  let m := if mp <? 10 then mp + 3 else mp - 9 in
  let y := yoe + era * 400 in
  (if m <=? 2 then y + 1 else y, m, d).

Definition isLeapYear (y : Z) : bool :=
  (y mod 4 =? 0) && (negb (y mod 100 =? 0) || (y mod 400 =? 0)).

Definition daysInMonth (y m : Z) : Z :=
  if m =? 2 then (if isLeapYear y then 29 else 28)
  else if (m =? 4) || (m =? 6) || (m =? 9) || (m =? 11) then 30
  else 31.

(** [MakeDay(year, month, date)] of ECMAScript, [month] counted from 0
    and normalised into the year. *)
Definition MakeDay (year month date : Z) : Z :=
  days_from_civil (year + month / 12) (month mod 12 + 1) 1 + date - 1.

(** [TimeClip]: a time value is at most 8.64e15 ms from the epoch. *)
Definition TimeClip (t : Z) : option Z :=
  if Z.abs t <=? 8640000000000000 then Some t else None.

(** What the host adds to ECMAScript: the local time zone (minutes east
    of UTC, taken as constant) and the parsing of date strings outside
    the ISO format, which the standard leaves to the implementation. *)
Class Host := {
  tzOffsetMinutes : Z;
  parseFallback : list N -> option Z
}.

Definition LocalTZA `{Host} : Z := tzOffsetMinutes * 60000.

(** [new Date(year, monthIndex, day)]: local midnight; a year from 0 to
    99 means 1900 + year. [None] is the invalid date. *)
Definition Date_local `{Host} (year monthIndex day : Z) : option Z :=
  let yr := if (0 <=? year) && (year <=? 99) then 1900 + year else year in
  TimeClip (MakeDay yr monthIndex day * msPerDay - LocalTZA).

Definition pad (w : nat) (n : Z) : list N := padStart0 w (ofN (Z.to_N n)).

(** The date and the time of day of [toISOString], from the day number
    and the milliseconds into the day; years outside 0..9999 are written
    with a sign and six digits. *)
Definition isoDate (day : Z) : list N :=
  let '(y, m, d) := civil_from_days day in
  let year :=
    if (0 <=? y) && (y <=? 9999) then pad 4 y
    else (if y <? 0 then js "-" else js "+") ++ pad 6 (Z.abs y) in
  year ++ js "-" ++ pad 2 m ++ js "-" ++ pad 2 d.

Definition isoTime (ms : Z) : list N :=
  pad 2 (ms / 3600000) ++ js ":" ++ pad 2 (ms / 60000 mod 60) ++ js ":" ++
  pad 2 (ms / 1000 mod 60) ++ js "." ++ pad 3 (ms mod 1000) ++ js "Z".

(** [d.toISOString()] for a valid time value. *)
Definition toISOString (t : Z) : list N :=
  isoDate (t / msPerDay) ++ js "T" ++ isoTime (t mod msPerDay).

Definition num2 (a b : N) : Z := default 0 (digitsValue 0 [a; b]).
Definition num3 (a b c : N) : Z := default 0 (digitsValue 0 [a; b; c]).
Definition num4 (a b c d : N) : Z := default 0 (digitsValue 0 [a; b; c; d]).

Definition utcDate (y m d : Z) : option Z :=
  if (1 <=? m) && (m <=? 12) && (1 <=? d) && (d <=? daysInMonth y m)
  then Some (days_from_civil y m d * msPerDay) else None.

(** The ISO forms of [Date.parse]: [YYYY], [YYYY-MM], [YYYY-MM-DD] (all
    UTC) and [YYYY-MM-DDTHH:mm:ss.sssZ]; [None] when the string has
    another shape or a field is out of range. *)
Definition parseISO (s : list N) : option Z :=
  match s with
  | [y1; y2; y3; y4] =>
      if forallb isDigit s then utcDate (num4 y1 y2 y3 y4) 1 1 else None
  | [y1; y2; y3; y4; 45%N; m1; m2] =>
      if forallb isDigit [y1; y2; y3; y4; m1; m2]
      then utcDate (num4 y1 y2 y3 y4) (num2 m1 m2) 1 else None
  | [y1; y2; y3; y4; 45%N; m1; m2; 45%N; d1; d2] =>
      if forallb isDigit [y1; y2; y3; y4; m1; m2; d1; d2]
      then utcDate (num4 y1 y2 y3 y4) (num2 m1 m2) (num2 d1 d2) else None
  | [y1; y2; y3; y4; 45%N; m1; m2; 45%N; d1; d2; 84%N;
     h1; h2; 58%N; i1; i2; 58%N; s1; s2; 46%N; f1; f2; f3; 90%N] =>
      if forallb isDigit [y1; y2; y3; y4; m1; m2; d1; d2;
                          h1; h2; i1; i2; s1; s2; f1; f2; f3]
         && (num2 h1 h2 <=? 23) && (num2 i1 i2 <=? 59) && (num2 s1 s2 <=? 59)
      then
        t ← utcDate (num4 y1 y2 y3 y4) (num2 m1 m2) (num2 d1 d2);
        Some (t + num2 h1 h2 * 3600000 + num2 i1 i2 * 60000
              + num2 s1 s2 * 1000 + num3 f1 f2 f3)
      else None
  | _ => None
  end.

(** [new Date(s)] for a string: the ISO forms first, whatever the host
    makes of the string otherwise. *)
Definition Date_parse `{Host} (s : list N) : option Z :=
  match parseISO s with
  | Some t => Some t
  | None => parseFallback s
  end.

(** [a > b] and [a < b] on dates; comparisons with the invalid date are
    false. *)
Definition date_gt (a b : option Z) : bool :=
  match a, b with Some x, Some y => x >? y | _, _ => false end.

Definition date_lt (a b : option Z) : bool :=
  match a, b with Some x, Some y => x <? y | _, _ => false end.

(** [d.setHours(23, 59, 59, 999)]: the last millisecond of [d]'s local
    day. *)
Definition endOfLocalDay `{Host} (t : Z) : Z :=
  (t + LocalTZA) / msPerDay * msPerDay + 86399999 - LocalTZA.

(** [d.setFullYear(d.getFullYear() - n)]: same local month, day and time
    of day, [n] years earlier. *)
Definition minusYears `{Host} (n : Z) (t : Z) : Z :=
  let lt := t + LocalTZA in
  let '(y, m, d) := civil_from_days (lt / msPerDay) in
  MakeDay (y - n) (m - 1) d * msPerDay + lt mod msPerDay - LocalTZA.

End JsDate.

Import JsDate.

(** ** Data model ([types/expense.ts], [lib/storage.ts]) *)

(** The interface declares [category: string]; [updateExpense] can store
    [undefined] there, so the record carries what an object holds at run
    time. *)
Module Expense.
Record t := mk {
  id : list N;
  amountCents : Z;
  currency : list N;
  category : option (list N);
  note : option (list N);
  paidAt : list N;
  paymentMethod : option (list N);
  createdAt : list N;
  updatedAt : list N
}.
End Expense.

(** [Partial<Expense>]: [None] is an absent key. *)
Module ExpensePartial.
Record t := mk {
  id : option (list N);
  amountCents : option Z;
  currency : option (list N);
  category : option (list N);
  note : option (list N);
  paidAt : option (list N);
  paymentMethod : option (list N);
  createdAt : option (list N);
  updatedAt : option (list N)
}.

Definition empty : t := mk None None None None None None None None None.
End ExpensePartial.

(** [Omit<Expense, 'id' | 'createdAt' | 'updatedAt'>]. *)
Module NewExpense.
Record t := mk {
  amountCents : Z;
  currency : list N;
  category : list N;
  note : option (list N);
  paidAt : list N;
  paymentMethod : option (list N)
}.
End NewExpense.

Module Budget.
Record t := mk {
  id : list N;
  yearMonth : list N;
  category : option (list N);
  limitCents : Z
}.
End Budget.

Module CategoryTotal.
Record t := mk {
  category : option (list N);
  totalCents : Z;
  expenseCount : Z
}.
End CategoryTotal.

(** A settings object as it exists at run time: [saveSettings] can produce
    one whose [categories] is [undefined]. *)
Module Settings.
Record t := mk {
  currency : list N;
  categories : option (list (list N));
  monthlyBudget : option Z;
  theme : option (list N)
}.
End Settings.

(** [Partial<Settings>], also the shape of a persisted settings blob. *)
Module SettingsPartial.
Record t := mk {
  currency : option (list N);
  categories : option (list (list N));
  monthlyBudget : option Z;
  theme : option (list N)
}.
End SettingsPartial.

Definition defaultSettings : Settings.t :=
  Settings.mk (js "EUR")
    (Some [js "Food"; js "Groceries"; js "Transport"; js "Bills";
           js "Entertainment"; js "Health"; js "Shopping"; js "Other"])
    None (Some (js "system")).

(** ** The world of the store *)

(** What [localStorage.getItem] and [JSON.parse] give for one key. *)
Inductive Blob (A : Type) :=
| Missing                (* no item under the key *)
| Corrupt                (* an item that is not JSON, or JSON of another shape *)
| Stored (v : A).
Arguments Missing {A}.
Arguments Corrupt {A}.
Arguments Stored {A} v.

Record RateEntry := { count : Z; resetTime : Z }.

Record World := {
  ls_expenses : Blob (list Expense.t);
  ls_budgets : Blob (list Budget.t);
  ls_settings : Blob SettingsPartial.t;
  ls_quotaExceeded : bool;            (* [setItem] throws *)
  operationCounts : gmap (list N) RateEntry;
  clock : Z;                          (* [Date.now()] *)
  entropy : nat -> N;                 (* what [crypto] draws *)
  drawn : nat
}.

Inductive Outcome (A : Type) :=
| Return (a : A)
| Throw (message : list N).
Arguments Return {A} a.
Arguments Throw {A} message.

Definition M (A : Type) : Type := World -> Outcome A * World.

Definition ret {A} (a : A) : M A := fun w => (Return a, w).
Definition throw {A} (message : list N) : M A := fun w => (Throw message, w).
Definition bind {A B} (m : M A) (k : A -> M B) : M B :=
  fun w =>
    match m w with
    | (Return a, w') => k a w'
    | (Throw e, w') => (Throw e, w')
    end.

Notation "'do' x <- m ; k" := (bind m (fun x => k))
  (at level 10, x name, m at level 100, k at level 200).
Notation "'run' m ; k" := (bind m (fun _ => k))
  (at level 10, m at level 100, k at level 200).

(** [arr.findIndex(p)]; [None] is -1. *)
Fixpoint findIndex {A} (p : A -> bool) (l : list A) : option nat :=
  match l with
  | [] => None
  | x :: r => if p x then Some O else S <$> findIndex p r
  end.

(** [crypto.randomUUID()]: a version-4 UUID from 128 drawn bits. *)
Definition hexDigit (n : N) : N :=
  let d := (n mod 16)%N in if (d <? 10)%N then (48 + d)%N else (87 + d)%N.

Definition formatUUID (r : N) : list N :=
  let h (i : N) := hexDigit (N.shiftr r (4 * i)) in
  [h 31; h 30; h 29; h 28; h 27; h 26; h 25; h 24; 45;
   h 23; h 22; h 21; h 20; 45;
   52; h 18; h 17; h 16; 45;
   hexDigit (8 + N.shiftr r 60 mod 4); h 14; h 13; h 12; 45;
   h 11; h 10; h 9; h 8; h 7; h 6; h 5; h 4; h 3; h 2; h 1; h 0]%N.

Definition set_drawn (w : World) (n : nat) : World :=
  {| ls_expenses := ls_expenses w; ls_budgets := ls_budgets w;
     ls_settings := ls_settings w; ls_quotaExceeded := ls_quotaExceeded w;
     operationCounts := operationCounts w; clock := clock w;
     entropy := entropy w; drawn := n |}.

Definition randomUUID : M (list N) :=
  fun w => (Return (formatUUID (entropy w (drawn w))), set_drawn w (S (drawn w))).

(** [new Date()] as a time value; the clock stands still while one
    operation runs. *)
Definition Date_now : M Z := fun w => (Return (clock w), w).

(** ** [lib/security.ts] *)

Definition isXssChar (c : N) : bool :=
  ((c =? 60) || (c =? 62) || (c =? 34) || (c =? 39) || (c =? 38))%N.

Definition sanitizeText (input : list N) (maxLength : nat) : list N :=
  collapseSpaces (removeAll isXssChar (slice0 maxLength (trim input))).

Definition isCategoryChar (c : N) : bool :=
  isLower c || isUpper c || isDigit c || isWhiteSpace c
  || (c =? 45)%N || (c =? 95)%N.

Definition sanitizeCategory (category : list N) : list N :=
  collapseSpaces
    (removeAll (fun c => negb (isCategoryChar c)) (slice0 50 (trim category))).

Definition sanitizeAmount (input : list N) : list N :=
  slice0 20
    (removeAll (fun c => negb (isDigit c || (c =? 46)%N || (c =? 44)%N)) input).

(** [z.string().uuid()]: five groups of 8, 4, 4, 4 and 12 hexadecimal
    digits. *)
Definition is_uuid (s : list N) : bool :=
  match s with
  | [a1; a2; a3; a4; a5; a6; a7; a8; 45%N; b1; b2; b3; b4; 45%N;
     c1; c2; c3; c4; 45%N; d1; d2; d3; d4; 45%N;
     e1; e2; e3; e4; e5; e6; e7; e8; e9; e10; e11; e12] =>
      forallb isHex [a1; a2; a3; a4; a5; a6; a7; a8; b1; b2; b3; b4;
                     c1; c2; c3; c4; d1; d2; d3; d4;
                     e1; e2; e3; e4; e5; e6; e7; e8; e9; e10; e11; e12]
  | _ => false
  end.

(** [/^\d{4}-\d{2}-\d{2}$/]. *)
Definition is_dateOnly (s : list N) : bool :=
  match s with
  | [y1; y2; y3; y4; 45%N; m1; m2; 45%N; d1; d2] =>
      forallb isDigit [y1; y2; y3; y4; m1; m2; d1; d2]
  | _ => false
  end.

(** [/^\d{4}-\d{2}$/]. *)
Definition is_yearMonth (s : list N) : bool :=
  match s with
  | [y1; y2; y3; y4; 45%N; m1; m2] => forallb isDigit [y1; y2; y3; y4; m1; m2]
  | _ => false
  end.

(** [/^[A-Z]{3}$/] on a string of length 3. *)
Definition is_currencyCode (s : list N) : bool :=
  match s with
  | [a; b; c] => forallb isUpper s
  | _ => false
  end.

(** [z.string().datetime()]: a UTC instant
    [\d{4}-\d{2}-\d{2}T\d{2}:\d{2}:\d{2}(\.\d+)?Z]. *)
Definition is_datetime (s : list N) : bool :=
  match s with
  | y1 :: y2 :: y3 :: y4 :: 45%N :: m1 :: m2 :: 45%N :: d1 :: d2 :: 84%N ::
    h1 :: h2 :: 58%N :: i1 :: i2 :: 58%N :: s1 :: s2 :: rest =>
      forallb isDigit [y1; y2; y3; y4; m1; m2; d1; d2; h1; h2; i1; i2; s1; s2]
      && match rest with
         | [90%N] => true
         | 46%N :: f :: frac =>
             match spanDigits (f :: frac) with
             | (_ :: _, [90%N]) => true
             | _ => false
             end
         | _ => false
         end
  | _ => false
  end.

Definition maxLen (n : nat) (s : list N) : bool := (length s <=? n)%nat.

Definition optional {A} (p : A -> bool) (o : option A) : bool :=
  match o with Some a => p a | None => true end.

Definition required {A} (p : A -> bool) (o : option A) : bool :=
  match o with Some a => p a | None => false end.

Definition ExpenseSchema (e : Expense.t) : bool :=
  is_uuid (Expense.id e)
  && (1 <=? Expense.amountCents e) && (Expense.amountCents e <=? 100000000)
  && is_currencyCode (Expense.currency e)
  && required (fun c => truthy c && maxLen 50 c) (Expense.category e)
  && optional (maxLen 500) (Expense.note e)
  && is_dateOnly (Expense.paidAt e)
  && optional (maxLen 50) (Expense.paymentMethod e)
  && is_datetime (Expense.createdAt e)
  && is_datetime (Expense.updatedAt e).

Definition BudgetSchema (b : Budget.t) : bool :=
  is_uuid (Budget.id b)
  && is_yearMonth (Budget.yearMonth b)
  && optional (maxLen 50) (Budget.category b)
  && (0 <=? Budget.limitCents b) && (Budget.limitCents b <=? 100000000).

Definition SettingsSchema (s : Settings.t) : bool :=
  is_currencyCode (Settings.currency s)
  && required (fun cats => forallb (fun c => truthy c && maxLen 50 c) cats
                           && (length cats <=? 20)%nat)
       (Settings.categories s)
  && optional (fun b => (0 <=? b) && (b <=? 100000000)) (Settings.monthlyBudget s).

(** The loop of [validateExpenseData]: [false] at the first record that
    fails the schema. *)
Definition validateExpenseData (data : list Expense.t) : bool :=
  forallb ExpenseSchema data.

Definition validateBudgetData (data : list Budget.t) : bool :=
  forallb BudgetSchema data.

Definition validateSettingsData (data : Settings.t) : bool :=
  SettingsSchema data.

Definition set_operationCounts (w : World) (m : gmap (list N) RateEntry) : World :=
  {| ls_expenses := ls_expenses w; ls_budgets := ls_budgets w;
     ls_settings := ls_settings w; ls_quotaExceeded := ls_quotaExceeded w;
     operationCounts := m; clock := clock w;
     entropy := entropy w; drawn := drawn w |}.

Definition checkRateLimit (operation : list N) (maxOps windowMs : Z)
  : World -> bool * World :=
  fun w =>
    let now := clock w in
    match operationCounts w !! operation with
    | None =>
        (true, set_operationCounts w
                 (<[operation := {| count := 1; resetTime := now + windowMs |}]>
                    (operationCounts w)))
    | Some current =>
        if now >? resetTime current then
          (true, set_operationCounts w
                   (<[operation := {| count := 1; resetTime := now + windowMs |}]>
                      (operationCounts w)))
        else if count current >=? maxOps then (false, w)
        else
          (true, set_operationCounts w
                   (<[operation := {| count := count current + 1;
                                      resetTime := resetTime current |}]>
                      (operationCounts w)))
    end.

(** [secureLocalStorageSet(key, value)]: [write] is the effect of a
    successful [setItem(key, JSON.stringify(value))]. *)
Definition secureLocalStorageSet (write : World -> World) : M bool :=
  fun w =>
    if ls_quotaExceeded w then (Return false, w) else (Return true, write w).

(** ** [lib/storage.ts] *)

Definition put_expenses (v : list Expense.t) (w : World) : World :=
  {| ls_expenses := Stored v; ls_budgets := ls_budgets w;
     ls_settings := ls_settings w; ls_quotaExceeded := ls_quotaExceeded w;
     operationCounts := operationCounts w; clock := clock w;
     entropy := entropy w; drawn := drawn w |}.

Definition put_budgets (v : list Budget.t) (w : World) : World :=
  {| ls_expenses := ls_expenses w; ls_budgets := Stored v;
     ls_settings := ls_settings w; ls_quotaExceeded := ls_quotaExceeded w;
     operationCounts := operationCounts w; clock := clock w;
     entropy := entropy w; drawn := drawn w |}.

Definition put_settings (v : SettingsPartial.t) (w : World) : World :=
  {| ls_expenses := ls_expenses w; ls_budgets := ls_budgets w;
     ls_settings := Stored v; ls_quotaExceeded := ls_quotaExceeded w;
     operationCounts := operationCounts w; clock := clock w;
     entropy := entropy w; drawn := drawn w |}.

(** The three keys of [localStorage]: the persisted state. *)
Definition persisted (w : World)
  : Blob (list Expense.t) * Blob (list Budget.t) * Blob SettingsPartial.t :=
  (ls_expenses w, ls_budgets w, ls_settings w).

Definition rateLimited (operation : list N) (maxOps : Z) : M bool :=
  fun w => let '(ok, w') := checkRateLimit operation maxOps 60000 w in
           (Return ok, w').

Definition gets {A} (f : World -> A) : M A := fun w => (Return (f w), w).

Definition TOO_MANY_SAVES := js "Too many save operations, please wait".
Definition TOO_MANY_OPERATIONS := js "Too many operations, please wait".
Definition INVALID_EXPENSE_DATA := js "Invalid expense data cannot be saved".
Definition INVALID_BUDGET_DATA := js "Invalid budget data cannot be saved".
Definition INVALID_SETTINGS_DATA := js "Invalid settings data cannot be saved".
Definition EXPENSES_NOT_SAVED := js "Failed to save expenses - storage may be full".
Definition BUDGETS_NOT_SAVED := js "Failed to save budgets - storage may be full".
Definition SETTINGS_NOT_SAVED := js "Failed to save settings - storage may be full".

Definition getExpenses (w : World) : list Expense.t :=
  match ls_expenses w with
  | Stored stored => if validateExpenseData stored then stored else []
  | _ => []
  end.

Definition saveExpenses (expenses : list Expense.t) : M unit :=
  do ok <- rateLimited (js "saveExpenses") 50;
  if negb ok then throw TOO_MANY_SAVES
  else if negb (validateExpenseData expenses) then throw INVALID_EXPENSE_DATA
  else
    do success <- secureLocalStorageSet (put_expenses expenses);
    if negb success then throw EXPENSES_NOT_SAVED else ret tt.

Definition addExpense (expense : NewExpense.t) : M Expense.t :=
  do ok <- rateLimited (js "addExpense") 100;
  if negb ok then throw TOO_MANY_OPERATIONS
  else
    do expenses <- gets getExpenses;
    do now <- Date_now;
    do id <- randomUUID;
    let newExpense :=
      {| Expense.id := id;
         Expense.amountCents := NewExpense.amountCents expense;
         Expense.currency := NewExpense.currency expense;
         Expense.category := Some (sanitizeCategory (NewExpense.category expense));
         Expense.note :=
           if truthy_opt (NewExpense.note expense)
           then (fun n => sanitizeText n 500) <$> NewExpense.note expense
           else None;
         Expense.paidAt := NewExpense.paidAt expense;
         Expense.paymentMethod :=
           if truthy_opt (NewExpense.paymentMethod expense)
           then (fun n => sanitizeText n 50) <$> NewExpense.paymentMethod expense
           else None;
         Expense.createdAt := toISOString now;
         Expense.updatedAt := toISOString now |} in
    run saveExpenses (expenses ++ [newExpense]);
    ret newExpense.

(** [{ ...existing, ...sanitizedUpdates, updatedAt }]. The keys [category],
    [note] and [paymentMethod] are always own properties of
    [sanitizedUpdates], holding [undefined] when the update has no truthy
    value for them, and so always replace the existing ones; the other keys
    replace only when the update has them. *)
Definition mergeUpdates (existing : Expense.t) (updates : ExpensePartial.t)
    (updatedAt : list N) : Expense.t :=
  {| Expense.id := default (Expense.id existing) (ExpensePartial.id updates);
     Expense.amountCents :=
       default (Expense.amountCents existing) (ExpensePartial.amountCents updates);
     Expense.currency :=
       default (Expense.currency existing) (ExpensePartial.currency updates);
     Expense.category :=
       if truthy_opt (ExpensePartial.category updates)
       then sanitizeCategory <$> ExpensePartial.category updates
       else None;
     Expense.note :=
       if truthy_opt (ExpensePartial.note updates)
       then (fun n => sanitizeText n 500) <$> ExpensePartial.note updates
       else None;
     Expense.paidAt :=
       default (Expense.paidAt existing) (ExpensePartial.paidAt updates);
     Expense.paymentMethod :=
       if truthy_opt (ExpensePartial.paymentMethod updates)
       then (fun n => sanitizeText n 50) <$> ExpensePartial.paymentMethod updates
       else None;
     Expense.createdAt :=
       default (Expense.createdAt existing) (ExpensePartial.createdAt updates);
     Expense.updatedAt := updatedAt |}.

Definition updateExpense (id : list N) (updates : ExpensePartial.t)
  : M (option Expense.t) :=
  do ok <- rateLimited (js "updateExpense") 100;
  if negb ok then throw TOO_MANY_OPERATIONS
  else
    do expenses <- gets getExpenses;
    match findIndex (fun e => eqb (Expense.id e) id) expenses with
    | None => ret None
    | Some index =>
        match expenses !! index with
        | None => ret None
        | Some existing =>
            do now <- Date_now;
            let updatedExpense := mergeUpdates existing updates (toISOString now) in
            run saveExpenses (<[index := updatedExpense]> expenses);
            ret (Some updatedExpense)
        end
    end.

Definition deleteExpense (id : list N) : M bool :=
  do expenses <- gets getExpenses;
  let filtered := List.filter (fun e => negb (eqb (Expense.id e) id)) expenses in
  if (length filtered =? length expenses)%nat then ret false
  else
    run saveExpenses filtered;
    ret true.

Definition getBudgets (w : World) : list Budget.t :=
  match ls_budgets w with
  | Stored stored => if validateBudgetData stored then stored else []
  | _ => []
  end.

Definition saveBudgets (budgets : list Budget.t) : M unit :=
  if negb (validateBudgetData budgets) then throw INVALID_BUDGET_DATA
  else
    do success <- secureLocalStorageSet (put_budgets budgets);
    if negb success then throw BUDGETS_NOT_SAVED else ret tt.

Definition sameBudgetKey (yearMonth : list N) (category : option (list N))
    (b : Budget.t) : bool :=
  eqb (Budget.yearMonth b) yearMonth && bool_decide (Budget.category b = category).

Definition setBudget (yearMonth : list N) (limitCents : Z)
    (category : option (list N)) : M Budget.t :=
  do budgets <- gets getBudgets;
  match findIndex (sameBudgetKey yearMonth category) budgets with
  | Some existingIndex =>
      let budget :=
        {| Budget.id := default [] (Budget.id <$> budgets !! existingIndex);
           Budget.yearMonth := yearMonth;
           Budget.category := category;
           Budget.limitCents := limitCents |} in
      run saveBudgets (<[existingIndex := budget]> budgets);
      ret budget
  | None =>
      do id <- randomUUID;
      let budget :=
        {| Budget.id := id;
           Budget.yearMonth := yearMonth;
           Budget.category := category;
           Budget.limitCents := limitCents |} in
      run saveBudgets (budgets ++ [budget]);
      ret budget
  end.

(** [{ ...base, ...over }] for settings. *)
Definition overlaySettings (base : Settings.t) (over : SettingsPartial.t)
  : Settings.t :=
  {| Settings.currency :=
       default (Settings.currency base) (SettingsPartial.currency over);
     Settings.categories :=
       match SettingsPartial.categories over with
       | Some c => Some c
       | None => Settings.categories base
       end;
     Settings.monthlyBudget :=
       match SettingsPartial.monthlyBudget over with
       | Some b => Some b
       | None => Settings.monthlyBudget base
       end;
     Settings.theme :=
       match SettingsPartial.theme over with
       | Some t => Some t
       | None => Settings.theme base
       end |}.

Definition getSettings (w : World) : Settings.t :=
  match ls_settings w with
  | Stored stored =>
      let merged := overlaySettings defaultSettings stored in
      if validateSettingsData merged then merged else defaultSettings
  | _ => defaultSettings
  end.

(** What [JSON.stringify] keeps of a settings object. *)
Definition settingsJSON (s : Settings.t) : SettingsPartial.t :=
  {| SettingsPartial.currency := Some (Settings.currency s);
     SettingsPartial.categories := Settings.categories s;
     SettingsPartial.monthlyBudget := Settings.monthlyBudget s;
     SettingsPartial.theme := Settings.theme s |}.

(** In [sanitizedSettings] the key [categories] is always an own property
    (of value [undefined] when the argument has none), so it always
    replaces the current list. *)
Definition saveSettings (settings : SettingsPartial.t) : M unit :=
  do current <- gets getSettings;
  let sanitizedCategories :=
    (fun cats => List.filter truthy (sanitizeCategory <$> cats))
      <$> SettingsPartial.categories settings in
  let updated :=
    {| Settings.currency :=
         default (Settings.currency current) (SettingsPartial.currency settings);
       Settings.categories := sanitizedCategories;
       Settings.monthlyBudget :=
         match SettingsPartial.monthlyBudget settings with
         | Some b => Some b
         | None => Settings.monthlyBudget current
         end;
       Settings.theme :=
         match SettingsPartial.theme settings with
         | Some t => Some t
         | None => Settings.theme current
         end |} in
  if negb (validateSettingsData updated) then throw INVALID_SETTINGS_DATA
  else
    do success <- secureLocalStorageSet (put_settings (settingsJSON updated));
    if negb success then throw SETTINGS_NOT_SAVED else ret tt.

(** ** A JavaScript [Map]: insertion-ordered, one entry per key *)

Module JsMap.
Section JsMap.
Context {K V : Type} `{EqDecision K}.

Fixpoint get (m : list (K * V)) (k : K) : option V :=
  match m with
  | [] => None
  | (k', v) :: r => if decide (k' = k) then Some v else get r k
  end.

(** [m.set(k, v)]: an existing key keeps its place. *)
Fixpoint set (m : list (K * V)) (k : K) (v : V) : list (K * V) :=
  match m with
  | [] => [(k, v)]
  | (k', v') :: r =>
      if decide (k' = k) then (k, v) :: r else (k', v') :: set r k v
  end.

Definition entries (m : list (K * V)) : list (K * V) := m.
End JsMap.
End JsMap.

(** [arr.sort(cmp)]: stable, by insertion from the right. *)
Section Sort.
Context {A : Type} (cmp : A -> A -> Z).

Fixpoint sortInsert (x : A) (l : list A) : list A :=
  match l with
  | [] => [x]
  | y :: r => if cmp x y <=? 0 then x :: y :: r else y :: sortInsert x r
  end.

Definition sort (l : list A) : list A := foldr sortInsert [] l.
End Sort.

(** ** [lib/expense-utils.ts] *)

Definition AMOUNT_REQUIRED := js "Amount must be greater than 0".
Definition CATEGORY_REQUIRED := js "Category is required".
Definition DATE_IN_FUTURE := js "Date cannot be in the future".
Definition INVALID_TIME_VALUE := js "Invalid time value".

(** [Number(s)] on the strings a month key splits into: white space
    trimmed, the empty string is 0, a run of digits is its value, and
    anything else is [NaN] ([None]). The signed, fractional, exponent and
    hexadecimal literals that [Number] also reads are outside the
    embedding; the keys YYYY-MM of the properties below have none. *)
Definition Number_ (s : list N) : option Z := digitsValue 0 (trim s).

Section ExpenseUtils.
Context `{Host}.

(** [toISOString] of a possibly invalid date throws a [RangeError]. *)
Definition isoDay (d : option Z) : Outcome (list N) :=
  match d with
  | Some t => Return (hd [] (split 84 (toISOString t)))
  | None => Throw INVALID_TIME_VALUE
  end.

Definition getMonthRange (yearMonth : list N) : Outcome (list N * list N) :=
  let parts := Number_ <$> split 45 yearMonth in
  let year := mjoin (parts !! 0%nat) in
  let month := mjoin (parts !! 1%nat) in
  let startDate := y ← year; m ← month; Date_local y (m - 1) 1 in
  let endDate := y ← year; m ← month; Date_local y m 0 in
  match isoDay startDate with
  | Throw e => Throw e
  | Return start =>
      match isoDay endDate with
      | Throw e => Throw e
      | Return end_ => Return (start, end_)
      end
  end.

Definition getExpensesForMonth (expenses : list Expense.t) (yearMonth : list N)
  : Outcome (list Expense.t) :=
  match getMonthRange yearMonth with
  | Throw e => Throw e
  | Return (start, end_) =>
      Return (List.filter
                (fun expense => leb start (Expense.paidAt expense)
                                && leb (Expense.paidAt expense) end_)
                expenses)
  end.

Definition calculateCategoryTotals (expenses : list Expense.t)
  : list CategoryTotal.t :=
  let totals :=
    foldl (fun totals expense =>
             let '(totalCents, expenseCount) :=
               default (0, 0) (JsMap.get totals (Expense.category expense)) in
             JsMap.set totals (Expense.category expense)
               (totalCents + Expense.amountCents expense, expenseCount + 1))
          [] expenses in
  sort (fun a b => CategoryTotal.totalCents b - CategoryTotal.totalCents a)
    ((fun '(category, (totalCents, expenseCount)) =>
        CategoryTotal.mk category totalCents expenseCount)
       <$> JsMap.entries totals).

Definition validateExpense (expense : ExpensePartial.t) (w : World)
  : list (list N) :=
  let errors := [] in
  let errors :=
    match ExpensePartial.amountCents expense with
    | Some a => if (a =? 0) || (a <=? 0) then errors ++ [AMOUNT_REQUIRED] else errors
    | None => errors ++ [AMOUNT_REQUIRED]
    end in
  let errors :=
    if negb (truthy_opt (ExpensePartial.category expense))
    then errors ++ [CATEGORY_REQUIRED] else errors in
  match ExpensePartial.paidAt expense with
  | Some paidAt =>
      if truthy paidAt then
        let paidDate := Date_parse paidAt in
        let today := Some (endOfLocalDay (clock w)) in
        if date_gt paidDate today then errors ++ [DATE_IN_FUTURE] else errors
      else errors
  | None => errors
  end.

End ExpenseUtils.

(** The variant of [expense-utils.ts] that the repository also carries (the
    copy that imports [sanitizeAmount]): its [validateExpense] checks the
    ranges and lengths of the schema and the age of the date. *)
Module Hardened.
Definition AMOUNT_TOO_LARGE := js "Amount exceeds maximum limit".
Definition CATEGORY_TOO_LONG := js "Category name is too long".
Definition NOTE_TOO_LONG := js "Note is too long (max 500 characters)".
Definition PAYMENT_METHOD_TOO_LONG := js "Payment method name is too long".
Definition INVALID_DATE_FORMAT := js "Invalid date format".
Definition DATE_TOO_OLD := js "Date cannot be older than 10 years".

Definition tooLong (n : nat) (o : option (list N)) : bool :=
  match o with
  | Some s => truthy s && (n <? length s)%nat
  | None => false
  end.

Definition validateExpense `{Host} (expense : ExpensePartial.t) (w : World)
  : list (list N) :=
  let errors := [] in
  let errors :=
    match ExpensePartial.amountCents expense with
    | Some a => if (a =? 0) || (a <=? 0) then errors ++ [AMOUNT_REQUIRED] else errors
    | None => errors ++ [AMOUNT_REQUIRED]
    end in
  let errors :=
    match ExpensePartial.amountCents expense with
    | Some a => if negb (a =? 0) && (a >? 100000000)
                then errors ++ [AMOUNT_TOO_LARGE] else errors
    | None => errors
    end in
  let errors :=
    match ExpensePartial.category expense with
    | Some c => if negb (truthy c) || (length (trim c) =? 0)%nat
                then errors ++ [CATEGORY_REQUIRED] else errors
    | None => errors ++ [CATEGORY_REQUIRED]
    end in
  let errors :=
    if tooLong 50 (ExpensePartial.category expense)
    then errors ++ [CATEGORY_TOO_LONG] else errors in
  let errors :=
    if tooLong 500 (ExpensePartial.note expense)
    then errors ++ [NOTE_TOO_LONG] else errors in
  let errors :=
    if tooLong 50 (ExpensePartial.paymentMethod expense)
    then errors ++ [PAYMENT_METHOD_TOO_LONG] else errors in
  match ExpensePartial.paidAt expense with
  | Some paidAt =>
      if truthy paidAt then
        let paidDate := Date_parse paidAt in
        let today := Some (endOfLocalDay (clock w)) in
        let errors :=
          match paidDate with
          | None => errors ++ [INVALID_DATE_FORMAT]
          | Some _ =>
              if date_gt paidDate today then errors ++ [DATE_IN_FUTURE]
              else errors
          end in
        let tenYearsAgo := Some (minusYears 10 (clock w)) in
        if date_lt paidDate tenYearsAgo then errors ++ [DATE_TOO_OLD]
        else errors
      else errors
  | None => errors
  end.
End Hardened.

(** ** [lib/csv-utils.ts] *)

Record ImportResult := {
  imported : Z;
  skipped : Z;
  errors : list (list N)
}.

Definition NO_EXPENSES_TO_EXPORT := js "No expenses to export".
Definition CSV_FILE_IS_EMPTY := js "CSV file is empty".
Definition MISSING_COLUMNS := js "Missing required columns: ".
Definition UNKNOWN_COLUMNS := js "Unknown columns will be ignored: ".
Definition BOM : list N := [65279%N].

Definition csvHeaders : list (list N) :=
  [js "date"; js "amount"; js "currency"; js "category"; js "note";
   js "payment_method"].

Definition requiredHeaders : list (list N) :=
  [js "date"; js "amount"; js "category"].

(** One exported row; [undefined] joins as the empty string. *)
Definition exportRow (expense : Expense.t) : list (list N) :=
  [hd [] (split 84 (Expense.paidAt expense));
   toFixed2_of_cents (Expense.amountCents expense);
   Expense.currency expense;
   default [] (Expense.category expense);
   default [] (Expense.note expense);
   default [] (Expense.paymentMethod expense)].

Definition exportToCSV (expenses : list Expense.t) : Outcome (list N) :=
  match expenses with
  | [] => Throw NO_EXPENSES_TO_EXPORT
  | _ =>
      let rows := exportRow <$> expenses in
      let csvContent :=
        join (js (String "010" ""))
          (join (js ",") csvHeaders :: (join (js ",") <$> rows)) in
      Return (BOM ++ csvContent)
  end.

(** [headers.forEach((header, index) => row[header] = values[index] || '')]. *)
Definition buildRow (headers values : list (list N)) : gmap (list N) (list N) :=
  foldl (fun row '(index, header) =>
           <[header := default [] (values !! index)]> row)
        ∅ (imap pair headers).

Section CsvUtils.
Context `{Host}.

(** The checks shared by [parseCSV] and [createExpenseFromCSVRow]: the
    parsed date and amount of a row that is kept. *)
Definition rowFields (row : gmap (list N) (list N)) : option (Z * Q) :=
  if negb (truthy_opt (row !! js "date"))
     || negb (truthy_opt (row !! js "amount"))
     || negb (truthy_opt (row !! js "category"))
  then None
  else
    match Date_parse (default [] (row !! js "date")) with
    | None => None
    | Some date =>
        match parseFloat (default [] (row !! js "amount")) with
        | None => None
        | Some amount =>
            if Qle_bool amount 0 then None else Some (date, amount)
        end
    end.

(** The loop of [parseCSV]; nothing in its body can throw on strings, so
    the handler that records a row error is never entered. *)
Fixpoint parseRows (headers : list (list N)) (lines : list (list N))
    (result : ImportResult) : ImportResult :=
  match lines with
  | [] => result
  | line :: rest =>
      let values := trim <$> split 44 line in
      let row := buildRow headers values in
      parseRows headers rest
        match rowFields row with
        | None => {| imported := imported result;
                     skipped := skipped result + 1;
                     errors := errors result |}
        | Some _ => {| imported := imported result + 1;
                       skipped := skipped result;
                       errors := errors result |}
        end
  end.

Definition parseCSV (csvContent : list N) : Outcome ImportResult :=
  let lines := List.filter truthy (trim <$> split 10 csvContent) in
  match lines with
  | [] => Throw CSV_FILE_IS_EMPTY
  | first :: rest =>
      let headers := (fun h => toLowerCase (trim h)) <$> split 44 first in
      let missingHeaders :=
        List.filter (fun h => negb (includes headers h)) requiredHeaders in
      match missingHeaders with
      | _ :: _ => Throw (MISSING_COLUMNS ++ join (js ", ") missingHeaders)
      | [] => Return (parseRows headers rest
                        {| imported := 0; skipped := 0; errors := [] |})
      end
  end.

Definition isDuplicate (row : gmap (list N) (list N)) (amount : Q)
    (exp : Expense.t) : bool :=
  bool_decide (Some (hd [] (split 84 (Expense.paidAt exp))) = row !! js "date")
  && (Expense.amountCents exp =? Math_round (amount * (100 # 1)))
  && bool_decide (Expense.category exp = row !! js "category")
  && bool_decide (Expense.note exp
                  = Some (if truthy_opt (row !! js "note")
                          then default [] (row !! js "note") else [])).

(** [s?.trim() || undefined]. *)
Definition trimmedOrUndefined (o : option (list N)) : option (list N) :=
  match o with
  | Some s => if truthy (trim s) then Some (trim s) else None
  | None => None
  end.

Definition createExpenseFromCSVRow (row : gmap (list N) (list N))
    (defaultCurrency : list N) (existingExpenses : list Expense.t)
    (allowDuplicates : bool) : M (option Expense.t) :=
  match rowFields row with
  | None => ret None
  | Some (date, amount) =>
      if negb allowDuplicates && existsb (isDuplicate row amount) existingExpenses
      then ret None
      else
        do id <- randomUUID;
        do now <- Date_now;
        ret (Some
               {| Expense.id := id;
                  Expense.amountCents := Math_round (amount * (100 # 1));
                  Expense.currency :=
                    if truthy_opt (row !! js "currency")
                    then default [] (row !! js "currency")
                    else defaultCurrency;
                  Expense.category := trim <$> row !! js "category";
                  Expense.note := trimmedOrUndefined (row !! js "note");
                  Expense.paidAt := toISOString date;
                  Expense.paymentMethod :=
                    trimmedOrUndefined (row !! js "payment_method");
                  Expense.createdAt := toISOString now;
                  Expense.updatedAt := toISOString now |})
  end.

Definition validateCSVHeaders (headers : list (list N)) : list (list N) :=
  let missingHeaders :=
    List.filter (fun h => negb (includes headers h)) requiredHeaders in
  let invalidHeaders :=
    List.filter (fun h => negb (includes csvHeaders h)) headers in
  (match missingHeaders with
   | [] => []
   | _ => [MISSING_COLUMNS ++ join (js ", ") missingHeaders]
   end) ++
  (match invalidHeaders with
   | [] => []
   | _ => [UNKNOWN_COLUMNS ++ join (js ", ") invalidHeaders]
   end).

(** ** The import handler of the settings page ([importCSV]) *)

Record ImportReport := {
  importedRows : Z;
  skippedRows : Z;
  newExpenses : list Expense.t
}.

(** The row loop of the handler: blank lines are passed over, every
    other line is offered to [createExpenseFromCSVRow] against the
    expenses read before the loop. *)
Fixpoint importRows (headers : list (list N)) (lines : list (list N))
    (defaultCurrency : list N) (expenses : list Expense.t)
    (allowDuplicates : bool) (report : ImportReport) : M ImportReport :=
  match lines with
  | [] => ret report
  | rawLine :: rest =>
      let line := trim rawLine in
      if negb (truthy line)
      then importRows headers rest defaultCurrency expenses allowDuplicates report
      else
        let values := trim <$> split 44 line in
        let row := buildRow headers values in
        do expense <- createExpenseFromCSVRow row defaultCurrency expenses
                        allowDuplicates;
        importRows headers rest defaultCurrency expenses allowDuplicates
          match expense with
          | Some e => {| importedRows := importedRows report + 1;
                         skippedRows := skippedRows report;
                         newExpenses := newExpenses report ++ [e] |}
          | None => {| importedRows := importedRows report;
                       skippedRows := skippedRows report + 1;
                       newExpenses := newExpenses report |}
          end
  end.

Inductive ImportOutcome :=
| InvalidFormat (headerError : list N)   (* "Invalid CSV format" *)
| Completed (report : ImportReport).     (* "Import completed" *)

(** The handler up to the persisting of the new expenses; an exception
    ([Throw]) is what its [catch] reports as "Import failed". *)
Definition importCSV (csvContent : list N) (defaultCurrency : list N)
    (allowDuplicates : bool) : M ImportOutcome :=
  do expenses <- gets getExpenses;
  let lines := split 10 csvContent in
  let headers := trim <$> split 44 (hd [] lines) in
  match validateCSVHeaders headers with
  | headerError :: _ => ret (InvalidFormat headerError)
  | [] =>
      do report <- importRows headers (tl lines) defaultCurrency expenses
                     allowDuplicates
                     {| importedRows := 0; skippedRows := 0; newExpenses := [] |};
      match newExpenses report with
      | [] => ret (Completed report)
      | _ =>
          run saveExpenses (expenses ++ newExpenses report);
          ret (Completed report)
      end
  end.

End CsvUtils.

(** ** More of [lib/expense-utils.ts]: amounts and month keys *)

(** [s.replace(c, d)] with string arguments of one unit: the first
    occurrence only. *)
Fixpoint replaceFirst (c d : N) (s : list N) : list N :=
  match s with
  | [] => []
  | x :: r => if (x =? c)%N then d :: r else x :: replaceFirst c d r
  end.

(** [parseCurrency]: everything but digits, points and commas is dropped,
    the first comma becomes a point, and [parseFloat(normalized) || 0] (0
    for [NaN]) is rounded to cents. The arithmetic is exact here and binary
    floating point in the code. The two give the same cents on amounts
    written with at most two decimals, up to the 1000000.00 of the schema:
    there the double nearest to the amount, times 100, lies within 0.0000001
    of the whole number of cents. On longer fractions they can differ by a
    cent (1.005 is 101 cents here and 100 in the code), so the properties
    below take amounts with at most two decimals. *)
Definition parseCurrency (input : list N) : Z :=
  let cleaned :=
    removeAll (fun c => negb (isDigit c || (c =? 46)%N || (c =? 44)%N)) input in
  let normalized := replaceFirst 44 46 cleaned in
  let amount := default 0%Q (parseFloat normalized) in
  Math_round (amount * (100 # 1)).

(** [String(n)] for an integer. *)
Definition String_ (n : Z) : list N :=
  (if n <? 0 then js "-" else []) ++ ofN (Z.to_N (Z.abs n)).

Section MonthKeys.
Context `{Host}.

(** The local calendar date of a time value. *)
Definition localCivil (t : Z) : Z * Z * Z :=
  civil_from_days ((t + LocalTZA) / msPerDay).

Definition getFullYear (t : Z) : Z := let '(y, _, _) := localCivil t in y.

(** [getMonth] counts from 0. *)
Definition getMonth (t : Z) : Z := let '(_, m, _) := localCivil t in m - 1.

(** The template
    [`${d.getFullYear()}-${String(d.getMonth() + 1).padStart(2, '0')}`]; the
    fields of the invalid date are [NaN]. *)
Definition yearMonthOf (d : option Z) : list N :=
  match d with
  | Some t =>
      String_ (getFullYear t) ++ js "-" ++ padStart0 2 (String_ (getMonth t + 1))
  | None => js "NaN-NaN"
  end.

(** [getCurrentMonth]: the template on [new Date()]. *)
Definition getCurrentMonth (w : World) : list N := yearMonthOf (Some (clock w)).

End MonthKeys.

(** ** [components/MonthSelector.tsx] *)

Section MonthSelector.
Context `{Host}.

(** The keys that the two handlers hand to [onMonthChange], made with the
    template of [getCurrentMonth]. *)
Definition previousMonth (selectedMonth : list N) : list N :=
  let parts := Number_ <$> split 45 selectedMonth in
  let year := mjoin (parts !! 0%nat) in
  let month := mjoin (parts !! 1%nat) in
  yearMonthOf (y ← year; m ← month; Date_local y (m - 2) 1).

Definition nextMonth (selectedMonth : list N) : list N :=
  let parts := Number_ <$> split 45 selectedMonth in
  let year := mjoin (parts !! 0%nat) in
  let month := mjoin (parts !! 1%nat) in
  yearMonthOf (y ← year; m ← month; Date_local y m 1).

End MonthSelector.

(** ** Quoting of CSV values ([lib/csv-utils.ts]) *)

Definition isQuote (c : N) : bool := ((c =? 34) || (c =? 39))%N.

(** [sanitizeCSVValue] removes a quote (double or single) that starts
    the value and one that ends what is left, then trims. *)
Definition stripQuoteStart (s : list N) : list N :=
  match s with
  | c :: r => if isQuote c then r else s
  | [] => []
  end.

Definition stripQuoteEnd (s : list N) : list N := rev (stripQuoteStart (rev s)).

Definition sanitizeCSVValue (value : list N) : list N :=
  trim (stripQuoteEnd (stripQuoteStart value)).

(** Every double quote is doubled. *)
Definition doubleQuotes (s : list N) : list N :=
  s ≫= (fun c => if (c =? 34)%N then [34%N; 34%N] else [c]).

Definition escapeCSVValue (value : list N) : list N :=
  if existsb (fun c => (c =? 44)%N) value
     || existsb (fun c => (c =? 34)%N) value
     || existsb (fun c => (c =? 10)%N) value
  then [34%N] ++ doubleQuotes value ++ [34%N]
  else value.

(** ** [components/ExpensePieChart.tsx] *)

(** The fields [category], [totalCents] and [expenseCount] of the entries
    of [chartData]: the groups as given when there are at most eight,
    otherwise the first seven followed by one entry named Other that adds
    up the rest. The fields [value] and [percentage], two floating-point
    renderings of [totalCents], are left out. *)
Definition chartData (categoryTotals : list CategoryTotal.t)
  : list CategoryTotal.t :=
  match categoryTotals with
  | [] => []
  | _ =>
      if (8 <? length categoryTotals)%nat then
        let topCategories := take 7 categoryTotals in
        let otherCategories := drop 7 categoryTotals in
        let otherTotal :=
          foldl (fun sum cat => sum + CategoryTotal.totalCents cat) 0
            otherCategories in
        let otherCount :=
          foldl (fun sum cat => sum + CategoryTotal.expenseCount cat) 0
            otherCategories in
        topCategories
        ++ [{| CategoryTotal.category := Some (js "Other");
               CategoryTotal.totalCents := otherTotal;
               CategoryTotal.expenseCount := otherCount |}]
      else categoryTotals
  end.

(** ** [components/AddExpenseDialog.tsx] *)

Module FormData.
Record t := mk {
  amount : list N;
  category : list N;
  note : list N;
  paidAt : list N;
  paymentMethod : list N
}.
End FormData.

(** How a submission ends: with the validation errors shown in the form,
    with the store call returned (the toast of a saved expense follows, its
    amount formatted by the money context, which is taken not to throw), or
    with the message of the exception shown as an error. *)
Inductive Submitted :=
| Rejected (validationErrors : list (list N))
| Saved
| Failed (errorMessage : list N).

(** [value || undefined]. *)
Definition orUndefined (s : list N) : option (list N) :=
  if truthy s then Some s else None.

(** [expenseData] of [handleSubmit]; [settings] is what [getSettings]
    returned when the dialog was rendered. *)
Definition expenseData (settings : Settings.t) (formData : FormData.t)
  : NewExpense.t :=
  {| NewExpense.amountCents := parseCurrency (FormData.amount formData);
     NewExpense.currency := Settings.currency settings;
     NewExpense.category := FormData.category formData;
     NewExpense.note := orUndefined (FormData.note formData);
     NewExpense.paidAt := FormData.paidAt formData;
     NewExpense.paymentMethod := orUndefined (FormData.paymentMethod formData) |}.

(** The same object where a [Partial<Expense>] is expected; the keys
    that hold [undefined] are keys that [updateExpense] sets anew. *)
Definition asPartial (data : NewExpense.t) : ExpensePartial.t :=
  {| ExpensePartial.id := None;
     ExpensePartial.amountCents := Some (NewExpense.amountCents data);
     ExpensePartial.currency := Some (NewExpense.currency data);
     ExpensePartial.category := Some (NewExpense.category data);
     ExpensePartial.note := NewExpense.note data;
     ExpensePartial.paidAt := Some (NewExpense.paidAt data);
     ExpensePartial.paymentMethod := NewExpense.paymentMethod data;
     ExpensePartial.createdAt := None;
     ExpensePartial.updatedAt := None |}.

(** [handleSubmit]: [expense] is the expense being edited, if any. The
    settings are read in the world of the submission: nothing is saved
    between the rendering of the dialog and the submission. *)
Definition handleSubmit `{Host} (expense : option Expense.t)
    (formData : FormData.t) : World -> Submitted * World :=
  fun w =>
    let data := expenseData (getSettings w) formData in
    match validateExpense (asPartial data) w with
    | [] =>
        match expense with
        | Some editing =>
            match updateExpense (Expense.id editing) (asPartial data) w with
            | (Return _, w') => (Saved, w')
            | (Throw message, w') => (Failed message, w')
            end
        | None =>
            match addExpense data w with
            | (Return _, w') => (Saved, w')
            | (Throw message, w') => (Failed message, w')
            end
        end
    | validationErrors => (Rejected validationErrors, w)
    end.

(** ** Vocabulary of the properties *)

Definition sumZ {A} (f : A -> Z) (l : list A) : Z :=
  foldr (fun x acc => f x + acc) 0 l.

(** The limit of an operation kind is exceeded: its window is open and its
    count has reached the maximum. *)
Definition limitExceeded (operation : list N) (maxOps : Z) (w : World) : Prop :=
  exists entry, operationCounts w !! operation = Some entry
                /\ clock w <= resetTime entry /\ maxOps <= count entry.

(** [n] calls of [checkRateLimit] in a row, the clock standing still. *)
Fixpoint repeatCheck (n : nat) (operation : list N) (maxOps windowMs : Z)
    (w : World) : list bool * World :=
  match n with
  | O => ([], w)
  | S k =>
      let '(ok, w1) := checkRateLimit operation maxOps windowMs w in
      let '(rest, w2) := repeatCheck k operation maxOps windowMs w1 in
      (ok :: rest, w2)
  end.

(** The key of a month, as [getCurrentMonth] writes it for a four-digit
    year. *)
Definition monthKey (y m : Z) : list N := pad 4 y ++ js "-" ++ pad 2 m.

(** The dates of a month as strings: first and last day. *)
Definition firstDayOf (y m : Z) : list N := monthKey y m ++ js "-01".
Definition lastDayOf (y m : Z) : list N :=
  monthKey y m ++ js "-" ++ pad 2 (daysInMonth y m).

(** [paidAt] lies between the first and the last day of the month. *)
Definition paidInMonth (y m : Z) (e : Expense.t) : bool :=
  leb (firstDayOf y m) (Expense.paidAt e) && leb (Expense.paidAt e) (lastDayOf y m).

(** The integers from [lo], [len] of them. *)
Definition zrange (lo len : Z) : list Z :=
  (fun k => lo + Z.of_nat k) <$> seq 0 (Z.to_nat len).

(** [Number] reads a padded number back. *)
Definition padOk (w : nat) (n : Z) : bool :=
  bool_decide (digitsValue 0 (pad w n) = Some n).

(** The calendar facts that are checked by evaluation on one 400-year
    cycle of the Gregorian calendar: the first day of a month, its last
    day and the day before that, read back from their day numbers. *)
Definition civilOk (y m : Z) : bool :=
  bool_decide (civil_from_days (MakeDay y (m - 1) 1) = (y, m, 1))
  && bool_decide (civil_from_days (MakeDay y m 0) = (y, m, daysInMonth y m))
  && bool_decide (civil_from_days (MakeDay y m 0 - 1) = (y, m, daysInMonth y m - 1))
  && bool_decide (civil_from_days (MakeDay y (m - 1) 1 - 1)
                  = (if m =? 1 then y - 1 else y,
                     if m =? 1 then 12 else m - 1,
                     if m =? 1 then 31 else daysInMonth y (m - 1))).

Definition civilFacts (y m : Z) : Prop :=
  civil_from_days (MakeDay y (m - 1) 1) = (y, m, 1)
  /\ civil_from_days (MakeDay y m 0) = (y, m, daysInMonth y m)
  /\ civil_from_days (MakeDay y m 0 - 1) = (y, m, daysInMonth y m - 1)
  /\ civil_from_days (MakeDay y (m - 1) 1 - 1)
     = (if m =? 1 then y - 1 else y,
        if m =? 1 then 12 else m - 1,
        if m =? 1 then 31 else daysInMonth y (m - 1)).

(** Groups in descending order of their totals. *)
Definition descending (groups : list CategoryTotal.t) : Prop :=
  Sorted (fun a b => CategoryTotal.totalCents b <= CategoryTotal.totalCents a) groups.

Definition budgetKey (b : Budget.t) : list N * option (list N) :=
  (Budget.yearMonth b, Budget.category b).

(** At most one budget per [(yearMonth, category)] pair. *)
Definition uniqueKeys (bs : list Budget.t) : Prop := NoDup (budgetKey <$> bs).

Definition uniqueStored (w : World) : Prop :=
  match ls_budgets w with
  | Stored bs => uniqueKeys bs
  | _ => True
  end.

(** An operation run from [w] with result [r] leaves the keys [others]
    of [localStorage] as they were, and its [own] key too when it throws. *)
Definition writesOnly {A X Y} (own : World -> X) (others : World -> Y)
    (w : World) (r : Outcome A * World) : Prop :=
  others (snd r) = others w
  /\ match fst r with
     | Throw _ => own (snd r) = own w
     | Return _ => True
     end.

(** A digit, a point or a comma: what [sanitizeAmount] keeps. *)
Definition isAmountChar (c : N) : bool := isDigit c || (c =? 46)%N || (c =? 44)%N.

(** A fraction of two digits, checked by evaluation for the hundred
    values it can take. *)
Definition centsOk (r : Z) : bool :=
  match padStart0 2 (ofN (Z.to_N r)) with
  | [d1; d2] =>
      isDigit d1 && isDigit d2 && ((Z.of_N d1 - 48) * 10 + (Z.of_N d2 - 48) =? r)
  | _ => false
  end.

(** [p] holds for the [n] integers from [lo]. *)
Fixpoint allFrom (p : Z -> bool) (lo : Z) (n : nat) : bool :=
  match n with
  | O => true
  | S k => p lo && allFrom p (lo + 1) k
  end.

(** [pad w n] has exactly [w] units. *)
Definition padShape (w : nat) (n : Z) : bool := (length (pad w n) =? w)%nat.

(** An amount as the entry form is made for: digits, then at most a point
    or a comma and up to two digits. *)
Definition plainAmount (s : list N) : bool :=
  match spanDigits s with
  | ([], _) => false
  | (_, []) => true
  | (_, sep :: fraction) =>
      ((sep =? 46) || (sep =? 44))%N
      && forallb isDigit fraction && (length fraction <=? 2)%nat
  end.

(** The budget collection of the store: the collection stored under the
    key, and the empty collection when the key is missing (a store never
    written to) or holds something else. *)
Definition budgetsOf (w : World) : list Budget.t :=
  match ls_budgets w with
  | Stored bs => bs
  | _ => []
  end.

(** The limiter admits a call of the kind now. *)
Definition admitted (operation : list N) (maxOps : Z) (w : World) : bool :=
  fst (checkRateLimit operation maxOps 60000 w).

(** The last millisecond of the year 9999. *)
Definition endOf9999 : Z := 253402300799999.

(** A comma or a line feed: what breaks a row of the export apart. *)
Definition isCsvBreak (c : N) : bool := ((c =? 44) || (c =? 10))%N.

Definition unbroken (s : list N) : bool := forallb (fun c => negb (isCsvBreak c)) s.

(** An expense whose exported row reads back as one row: a record of the
    schema with a calendar date, texts without comma or line feed, and a
    category that is not blank. *)
Definition exportable (e : Expense.t) : bool :=
  ExpenseSchema e
  && bool_decide (is_Some (parseISO (Expense.paidAt e)))
  && unbroken (default [] (Expense.category e))
  && truthy (trim (default [] (Expense.category e)))
  && unbroken (default [] (Expense.note e))
  && unbroken (default [] (Expense.paymentMethod e)).

(** An exportable expense that carries a note, its category and note
    without white space around them. *)
Definition recognisable (e : Expense.t) : bool :=
  exportable e
  && match Expense.category e with Some c => eqb (trim c) c | None => false end
  && match Expense.note e with Some n => eqb (trim n) n | None => false end.

(** The month after and the month before a month of a year. *)
Definition monthAfter (y m : Z) : Z * Z := if m =? 12 then (y + 1, 1) else (y, m + 1).
Definition monthBefore (y m : Z) : Z * Z := if m =? 1 then (y - 1, 12) else (y, m - 1).

(** A four-digit year is written the same with and without padding. *)
Definition yearOk (y : Z) : bool := eqb (String_ y) (pad 4 y).

(** The record that [addExpense] stores for an entry, with the id it
    draws and the instant it reads. *)
Definition newRecord (expense : NewExpense.t) (id now : list N) : Expense.t :=
  {| Expense.id := id;
     Expense.amountCents := NewExpense.amountCents expense;
     Expense.currency := NewExpense.currency expense;
     Expense.category := Some (sanitizeCategory (NewExpense.category expense));
     Expense.note :=
       if truthy_opt (NewExpense.note expense)
       then (fun n => sanitizeText n 500) <$> NewExpense.note expense
       else None;
     Expense.paidAt := NewExpense.paidAt expense;
     Expense.paymentMethod :=
       if truthy_opt (NewExpense.paymentMethod expense)
       then (fun n => sanitizeText n 50) <$> NewExpense.paymentMethod expense
       else None;
     Expense.createdAt := now;
     Expense.updatedAt := now |}.

(** ** Sample data *)

Module Sample.

Definition utc : Host :=
  {| tzOffsetMinutes := 0; parseFallback := fun _ => None |}.

(** Central European Time, one hour east of UTC. *)
Definition cet : Host :=
  {| tzOffsetMinutes := 60; parseFallback := fun _ => None |}.

(** 2024-03-20T12:00:00.000Z. *)
Definition noon : Z := 1710936000000.

Definition coffee : Expense.t :=
  {| Expense.id := js "123e4567-e89b-42d3-a456-426614174000";
     Expense.amountCents := 1599;
     Expense.currency := js "EUR";
     Expense.category := Some (js "Food");
     Expense.note := None;
     Expense.paidAt := js "2024-03-15";
     Expense.paymentMethod := None;
     Expense.createdAt := js "2024-03-15T10:00:00.000Z";
     Expense.updatedAt := js "2024-03-15T10:00:00.000Z" |}.

Definition lunch : Expense.t :=
  {| Expense.id := js "123e4567-e89b-42d3-a456-426614174001";
     Expense.amountCents := 2500;
     Expense.currency := js "EUR";
     Expense.category := Some (js "Food");
     Expense.note := Some (js "lunch");
     Expense.paidAt := js "2024-03-31";
     Expense.paymentMethod := Some (js "Card");
     Expense.createdAt := js "2024-03-31T13:00:00.000Z";
     Expense.updatedAt := js "2024-03-31T13:00:00.000Z" |}.

(** [coffee] with an amount the schema rejects. *)
Definition free : Expense.t :=
  {| Expense.id := Expense.id coffee;
     Expense.amountCents := 0;
     Expense.currency := Expense.currency coffee;
     Expense.category := Expense.category coffee;
     Expense.note := Expense.note coffee;
     Expense.paidAt := Expense.paidAt coffee;
     Expense.paymentMethod := Expense.paymentMethod coffee;
     Expense.createdAt := Expense.createdAt coffee;
     Expense.updatedAt := Expense.updatedAt coffee |}.

Definition march : Budget.t :=
  {| Budget.id := js "123e4567-e89b-42d3-a456-426614174002";
     Budget.yearMonth := js "2024-03";
     Budget.category := None;
     Budget.limitCents := 50000 |}.

(** Two stored expenses, one stored budget, no settings, an idle rate
    limiter. *)
Definition world : World :=
  {| ls_expenses := Stored [coffee; lunch];
     ls_budgets := Stored [march];
     ls_settings := Missing;
     ls_quotaExceeded := false;
     operationCounts := ∅;
     clock := noon;
     entropy := fun n => (N.of_nat n * 1234567891234567 + 99)%N;
     drawn := 0 |}.

Definition spent (n : Z) : RateEntry :=
  {| count := n; resetTime := noon + 30000 |}.

(** The same store when every operation kind has used up its window. *)
Definition busy : World :=
  set_operationCounts world
    (<[js "saveExpenses" := spent 50]>
       (<[js "addExpense" := spent 100]>
          (<[js "updateExpense" := spent 100]>
             (<[js "deleteExpense" := spent 100]>
                (<[js "setBudget" := spent 100]> ∅))))).

(** The store when only kinds named after [deleteExpense] and
    [setBudget] have used up a window. *)
Definition unguarded : World :=
  set_operationCounts world
    (<[js "deleteExpense" := spent 100]> (<[js "setBudget" := spent 100]> ∅)).

(** A store that has never been written to. *)
Definition blank : World :=
  {| ls_expenses := Missing;
     ls_budgets := Missing;
     ls_settings := Missing;
     ls_quotaExceeded := false;
     operationCounts := ∅;
     clock := noon;
     entropy := fun n => (N.of_nat n * 1234567891234567 + 99)%N;
     drawn := 0 |}.

(** The sample store when [localStorage] is full. *)
Definition full : World :=
  {| ls_expenses := ls_expenses world;
     ls_budgets := ls_budgets world;
     ls_settings := ls_settings world;
     ls_quotaExceeded := true;
     operationCounts := operationCounts world;
     clock := clock world;
     entropy := entropy world;
     drawn := drawn world |}.

(** A budget whose month key is not of the form YYYY-MM, and the sample
    store with it next to [march]. *)
Definition crooked : Budget.t :=
  {| Budget.id := js "123e4567-e89b-42d3-a456-426614174004";
     Budget.yearMonth := js "2024-4";
     Budget.category := None;
     Budget.limitCents := 30000 |}.

Definition tainted : World := put_budgets [march; crooked] world.

(** An update of the amount and the category, and one of the amount
    alone. *)
Definition amountAndCategory : ExpensePartial.t :=
  ExpensePartial.mk None (Some 3000) None (Some (js "Food")) None None None None None.

Definition amountOnly : ExpensePartial.t :=
  ExpensePartial.mk None (Some 3000) None None None None None None None.

(** An expense entry dated more than twenty-four years before [noon]. *)
Definition ancient : ExpensePartial.t :=
  ExpensePartial.mk None (Some 2000) None (Some (js "Food")) None
    (Some (js "2000-01-01")) None None None.

(** An expense paid on the last day of February. *)
Definition leapDay : Expense.t :=
  {| Expense.id := js "123e4567-e89b-42d3-a456-426614174003";
     Expense.amountCents := 700;
     Expense.currency := js "EUR";
     Expense.category := Some (js "Transport");
     Expense.note := Some (js "bus");
     Expense.paidAt := js "2024-02-29";
     Expense.paymentMethod := None;
     Expense.createdAt := js "2024-02-29T08:00:00.000Z";
     Expense.updatedAt := js "2024-02-29T08:00:00.000Z" |}.

(** The row of the file [date,amount,category / 2024-01-05,12.50,Travel]. *)
Definition travelRow : gmap (list N) (list N) :=
  buildRow [js "date"; js "amount"; js "category"]
           [js "2024-01-05"; js "12.50"; js "Travel"].

(** Twenty-one well-formed category names. *)
Definition names21 : list (list N) :=
  (fun n => js "Category " ++ ofN n) <$>
    [1; 2; 3; 4; 5; 6; 7; 8; 9; 10; 11; 12; 13; 14; 15; 16; 17; 18; 19; 20; 21]%N.

(** Twenty well-formed names and a name that the sanitiser empties: each
    of the twenty-one has between 1 and 50 units. *)
Definition names20bang : list (list N) := take 20 names21 ++ [js "!"].

(** A budget for April whose id is the one that the generator of the
    sample store returns next, and the sample store with it. *)
Definition april : Budget.t :=
  {| Budget.id := js "00000000-0000-4000-8000-000000000063";
     Budget.yearMonth := js "2024-04";
     Budget.category := None;
     Budget.limitCents := 30000 |}.

Definition repeated : World := put_budgets [march; april] world.

(** The sample store holding only the expense that carries a note. *)
Definition noted : World := put_expenses [lunch] world.

(** The entry form filled in for 15.99 spent on food on 15 March 2024,
    the amount written with a comma. *)
Definition form : FormData.t :=
  FormData.mk (js "15,99") (js "Food") [] (js "2024-03-15") [].

End Sample.

(** * Properties *)

(** ** Category totals conserve amounts and counts *)

Section TotalsConservation.
Context {K : Type} `{EqDecision K}.

Lemma sumZ_cons {A} (f : A -> Z) (x : A) (l : list A) :
  sumZ f (x :: l) = f x + sumZ f l.
Proof. reflexivity. Qed.

Lemma sumZ_app {A} (f : A -> Z) (l1 l2 : list A) :
  sumZ f (l1 ++ l2) = sumZ f l1 + sumZ f l2.
Proof. induction l1 as [|x l1 IH]; simpl; [reflexivity | rewrite IH; lia]. Qed.

(** Replacing or creating the entry of [k] changes a sum over the values
    by the change of that one value. *)
Lemma sumZ_set (g : Z * Z -> Z) (m : list (K * (Z * Z))) (k : K) (v : Z * Z) :
  sumZ (fun e => g (snd e)) (JsMap.set m k v)
  = sumZ (fun e => g (snd e)) m + g v
    - match JsMap.get m k with Some old => g old | None => 0 end.
Proof.
  induction m as [|[k' v'] m IH]; simpl.
  - lia.
  - destruct (decide (k' = k)); simpl; [lia | rewrite IH; lia].
Qed.

Lemma sumZ_sortInsert {A} (cmp : A -> A -> Z) (f : A -> Z) (x : A) (l : list A) :
  sumZ f (sortInsert cmp x l) = f x + sumZ f l.
Proof.
  induction l as [|y l IH]; simpl; [reflexivity |].
  destruct (cmp x y <=? 0); simpl; [reflexivity | rewrite IH; lia].
Qed.

Lemma sumZ_sort {A} (cmp : A -> A -> Z) (f : A -> Z) (l : list A) :
  sumZ f (sort cmp l) = sumZ f l.
Proof.
  induction l as [|x l IH]; simpl; [reflexivity |].
  unfold sort in *; simpl. rewrite sumZ_sortInsert, IH. reflexivity.
Qed.

Lemma sumZ_fmap {A B} (h : A -> B) (f : B -> Z) (l : list A) :
  sumZ f (h <$> l) = sumZ (fun a => f (h a)) l.
Proof. induction l as [|x l IH]; simpl; [reflexivity | f_equal; exact IH]. Qed.

Lemma sumZ_ext {A} (f g : A -> Z) (l : list A) :
  (forall a, f a = g a) -> sumZ f l = sumZ g l.
Proof. intros E. induction l as [|x l IH]; simpl; [reflexivity | rewrite E, IH; reflexivity]. Qed.
End TotalsConservation.

(** The accumulation loop of [calculateCategoryTotals], started from any
    map: totals grow by the amounts, counts by the number of expenses. *)
Lemma totals_loop_sums (expenses : list Expense.t)
    (totals : list (option (list N) * (Z * Z))) :
  let step := fun totals expense =>
    let '(totalCents, expenseCount) :=
      default (0, 0) (JsMap.get totals (Expense.category expense)) in
    JsMap.set totals (Expense.category expense)
      (totalCents + Expense.amountCents expense, expenseCount + 1) in
  sumZ (fun e => fst (snd e)) (foldl step totals expenses)
  = sumZ (fun e => fst (snd e)) totals + sumZ Expense.amountCents expenses
  /\ sumZ (fun e => snd (snd e)) (foldl step totals expenses)
     = sumZ (fun e => snd (snd e)) totals + Z.of_nat (length expenses).
Proof.
  intros step. revert totals.
  induction expenses as [|x expenses IH]; intros totals.
  - simpl. split; lia.
  - cbn [foldl]. destruct (IH (step totals x)) as [IHt IHc].
    rewrite IHt, IHc. unfold step.
    destruct (JsMap.get totals (Expense.category x)) as [[t c]|] eqn:G;
      cbn [default from_option id].
    + rewrite (sumZ_set fst), (sumZ_set snd), G, sumZ_cons.
      cbn [fst snd length]. split; lia.
    + rewrite (sumZ_set fst), (sumZ_set snd), G, sumZ_cons.
      cbn [fst snd length]. split; lia.
Qed.

(** C7. For every expense collection, the [totalCents] of the groups
    returned by [calculateCategoryTotals] add up to the [amountCents] of the
    expenses, and the [expenseCount] of the groups add up to the number of
    expenses. *)
Theorem calculateCategoryTotals_conservation (expenses : list Expense.t) :
  sumZ CategoryTotal.totalCents (calculateCategoryTotals expenses)
  = sumZ Expense.amountCents expenses
  /\ sumZ CategoryTotal.expenseCount (calculateCategoryTotals expenses)
     = Z.of_nat (length expenses).
Proof.
  unfold calculateCategoryTotals, JsMap.entries.
  rewrite !sumZ_sort, !sumZ_fmap.
  destruct (totals_loop_sums expenses []) as [Ht Hc].
  cbn [sumZ foldr] in Ht, Hc.
  split.
  - rewrite <- (Z.add_0_l (sumZ Expense.amountCents expenses)), <- Ht.
    apply sumZ_ext. intros [k [t c]]. reflexivity.
  - rewrite <- (Z.add_0_l (Z.of_nat _)), <- Hc.
    apply sumZ_ext. intros [k [t c]]. reflexivity.
Qed.

Lemma eqb_true (a b : list N) : eqb a b = true <-> a = b.
Proof. unfold eqb. apply bool_decide_eq_true. Qed.

(** ** The rate limiter *)

Lemma checkRateLimit_persisted (operation : list N) (maxOps windowMs : Z) (w : World) :
  persisted (snd (checkRateLimit operation maxOps windowMs w)) = persisted w.
Proof.
  unfold checkRateLimit.
  destruct (operationCounts w !! operation) as [cur|]; [|reflexivity].
  destruct (clock w >? resetTime cur); [reflexivity|].
  destruct (count cur >=? maxOps); reflexivity.
Qed.

Lemma checkRateLimit_exceeded (operation : list N) (maxOps windowMs : Z) (w : World) :
  limitExceeded operation maxOps w ->
  checkRateLimit operation maxOps windowMs w = (false, w).
Proof.
  intros (entry & L & Hclock & Hcount). unfold checkRateLimit. rewrite L.
  destruct (clock w >? resetTime entry) eqn:E1; [lia|].
  destruct (count entry >=? maxOps) eqn:E2; [reflexivity | lia].
Qed.

Lemma checkRateLimit_denies (operation : list N) (maxOps windowMs : Z) (w : World) :
  fst (checkRateLimit operation maxOps windowMs w) = false ->
  limitExceeded operation maxOps w.
Proof.
  unfold checkRateLimit, limitExceeded.
  destruct (operationCounts w !! operation) as [cur|]; [|discriminate].
  destruct (clock w >? resetTime cur) eqn:E1; [discriminate|].
  destruct (count cur >=? maxOps) eqn:E2; [|discriminate].
  intros _. exists cur. repeat split; lia.
Qed.

(** ** Saving expenses *)

Lemma validateExpenseData_invalid (candidate : list Expense.t) (e : Expense.t) :
  In e candidate -> ExpenseSchema e = false -> validateExpenseData candidate = false.
Proof.
  intros Hin Hbad. unfold validateExpenseData.
  destruct (forallb ExpenseSchema candidate) eqn:E; [|reflexivity].
  rewrite forallb_forall in E. rewrite (E e Hin) in Hbad. discriminate.
Qed.

(** C2, as the code has it. For every world and every candidate collection
    with a record that fails the schema, [saveExpenses] throws and leaves
    the three persisted collections as they were; the error is the
    validation error when the rate limiter admits the call and the
    rate-limit error when the limit of 50 saves per window is exceeded. *)
Theorem saveExpenses_invalid_writes_nothing
    (w : World) (candidate : list Expense.t) (e : Expense.t) :
  In e candidate -> ExpenseSchema e = false ->
  exists w',
    saveExpenses candidate w
    = (Throw (if fst (checkRateLimit (js "saveExpenses") 50 60000 w)
              then INVALID_EXPENSE_DATA else TOO_MANY_SAVES), w')
    /\ persisted w' = persisted w.
Proof.
  intros Hin Hbad.
  exists (snd (checkRateLimit (js "saveExpenses") 50 60000 w)).
  split; [|apply checkRateLimit_persisted].
  unfold saveExpenses, bind, rateLimited.
  destruct (checkRateLimit (js "saveExpenses") 50 60000 w) as [ok w1]; cbn [fst snd].
  destruct ok; cbn [negb]; [|reflexivity].
  rewrite (validateExpenseData_invalid candidate e Hin Hbad). reflexivity.
Qed.

Lemma saveExpenses_invalid_writes_nothing_witness :
  exists w',
    saveExpenses [Sample.free] Sample.world = (Throw INVALID_EXPENSE_DATA, w')
    /\ persisted w' = persisted Sample.world.
Proof.
  apply (saveExpenses_invalid_writes_nothing Sample.world [Sample.free] Sample.free).
  - left. reflexivity.
  - vm_compute. reflexivity.
Defined.

(** C2 as the specification states it fails where the limiter is
    exhausted: the invalid candidate is turned away with the rate-limit
    error, which is not the validation error. *)
Lemma saveExpenses_invalid_rate_limited :
  In Sample.free [Sample.free]
  /\ ExpenseSchema Sample.free = false
  /\ saveExpenses [Sample.free] Sample.busy = (Throw TOO_MANY_SAVES, Sample.busy)
  /\ TOO_MANY_SAVES <> INVALID_EXPENSE_DATA.
Proof.
  split; [left; reflexivity|].
  split; [vm_compute; reflexivity|].
  split; [vm_compute; reflexivity|].
  vm_compute. discriminate.
Qed.


(** ** The settings schema *)

Lemma validateSettingsData_over_20 (s : Settings.t) (cats : list (list N)) :
  Settings.categories s = Some cats -> (20 < length cats)%nat ->
  validateSettingsData s = false.
Proof.
  intros Hc Hlen. unfold validateSettingsData, SettingsSchema.
  rewrite Hc. cbn [required].
  replace (length cats <=? 20)%nat with false
    by (symmetry; apply Nat.leb_gt; exact Hlen).
  rewrite !andb_false_r. reflexivity.
Qed.

(** What [saveSettings] does with a list that still has more than twenty
    entries once sanitised and stripped of empty names. *)
Lemma saveSettings_over_20 (settings : SettingsPartial.t) (cats : list (list N))
    (w : World) :
  SettingsPartial.categories settings = Some cats ->
  (20 < length (List.filter truthy (sanitizeCategory <$> cats)))%nat ->
  saveSettings settings w = (Throw INVALID_SETTINGS_DATA, w).
Proof.
  intros Hc Hlen. unfold saveSettings, bind, gets. rewrite Hc. cbn [fmap option_fmap option_map].
  erewrite validateSettingsData_over_20; [reflexivity | reflexivity | exact Hlen].
Qed.

Lemma sanitized_names_kept (cats : list (list N)) :
  Forall (fun c => sanitizeCategory c = c /\ truthy c = true) cats ->
  List.filter truthy (sanitizeCategory <$> cats) = cats.
Proof.
  induction 1 as [|c cats [Hs Ht] _ IH]; [reflexivity|].
  rewrite fmap_cons. cbn [List.filter]. rewrite Hs, Ht, IH. reflexivity.
Qed.

(** C10, as the code has it. The settings schema caps the categories at
    20: a settings object with more than 20 categories fails
    [validateSettingsData]. [saveSettings] validates the list it has
    sanitised and stripped of the names that sanitising empties, so it
    throws the validation error, writing nothing, whenever more than 20
    names are left then; that is so for every list of more than 20 names
    each of which is non-empty and left as it is by the sanitiser. *)
Theorem settings_categories_capped_at_20 (cats : list (list N)) :
  (20 < length cats)%nat ->
  (forall s, Settings.categories s = Some cats -> validateSettingsData s = false)
  /\ (forall settings w,
        SettingsPartial.categories settings = Some cats ->
        (20 < length (List.filter truthy (sanitizeCategory <$> cats)))%nat ->
        saveSettings settings w = (Throw INVALID_SETTINGS_DATA, w))
  /\ (forall settings w,
        SettingsPartial.categories settings = Some cats ->
        Forall (fun c => sanitizeCategory c = c /\ truthy c = true) cats ->
        saveSettings settings w = (Throw INVALID_SETTINGS_DATA, w)).
Proof.
  intros Hlen. split; [|split].
  - intros s Hc. exact (validateSettingsData_over_20 s cats Hc Hlen).
  - intros settings w Hc Hleft. exact (saveSettings_over_20 settings cats w Hc Hleft).
  - intros settings w Hc Hclean.
    apply (saveSettings_over_20 settings cats w Hc).
    rewrite (sanitized_names_kept cats Hclean). exact Hlen.
Qed.

Lemma settings_categories_capped_at_20_witness :
  forallb (fun c => truthy c && maxLen 50 c) Sample.names21 = true
  /\ (20 < length (List.filter truthy (sanitizeCategory <$> Sample.names21)))%nat
  /\ validateSettingsData
       (Settings.mk (js "EUR") (Some Sample.names21) None None) = false
  /\ saveSettings
       (SettingsPartial.mk None (Some Sample.names21) None None) Sample.world
     = (Throw INVALID_SETTINGS_DATA, Sample.world)
  /\ saveSettings
       (SettingsPartial.mk None (Some (take 20 Sample.names21)) None None)
       Sample.world
     = (Return tt,
        put_settings
          (SettingsPartial.mk (Some (js "EUR")) (Some (take 20 Sample.names21))
             None (Some (js "system")))
          Sample.world).
Proof.
  assert (Hlen : (20 < length Sample.names21)%nat) by (vm_compute; lia).
  assert (Hleft : (20 < length (List.filter truthy
                                  (sanitizeCategory <$> Sample.names21)))%nat)
    by (vm_compute; lia).
  destruct (settings_categories_capped_at_20 Sample.names21 Hlen) as (Hv & Hs & _).
  split; [|split; [|split; [|split]]].
  - vm_compute. reflexivity.
  - exact Hleft.
  - apply Hv. reflexivity.
  - apply Hs; [reflexivity | exact Hleft].
  - vm_compute. reflexivity.
Defined.

(** C10 as the claim states it fails for names that are valid one by one
    but do not survive sanitising: of twenty-one names of 1 to 50 units,
    the last of them an exclamation mark, the sanitiser empties the last
    and [saveSettings] drops it, so the call succeeds and stores the other
    twenty, although a settings object with the twenty-one names fails
    [validateSettingsData]. *)
Lemma saveSettings_drops_emptied_name :
  length Sample.names20bang = 21%nat
  /\ forallb (fun c => truthy c && maxLen 50 c) Sample.names20bang = true
  /\ validateSettingsData
       (Settings.mk (js "EUR") (Some Sample.names20bang) None None) = false
  /\ sanitizeCategory (js "!") = []
  /\ saveSettings
       (SettingsPartial.mk None (Some Sample.names20bang) None None) Sample.world
     = (Return tt,
        put_settings
          (SettingsPartial.mk (Some (js "EUR")) (Some (take 20 Sample.names21))
             None (Some (js "system")))
          Sample.world).
Proof. repeat split; vm_compute; reflexivity. Qed.


(** ** Which operations the rate limiter guards *)

Lemma filter_keeps_all {A} (p : A -> bool) (l : list A) :
  length (List.filter p l) = length l -> forall x, In x l -> p x = true.
Proof.
  induction l as [|y l IH]; intros Hlen x Hin; [destruct Hin|].
  cbn [List.filter] in Hlen.
  assert (Hle : (length (List.filter p l) <= length l)%nat) by apply filter_length_le.
  destruct (p y) eqn:Hy; cbn [length] in Hlen.
  - destruct Hin as [->|Hin]; [exact Hy|]. apply IH; [lia | exact Hin].
  - lia.
Qed.

Lemma filter_all_kept {A} (p : A -> bool) (l : list A) :
  (forall x, In x l -> p x = true) -> List.filter p l = l.
Proof.
  induction l as [|y l IH]; intros Hall; [reflexivity|].
  cbn [List.filter]. rewrite (Hall y (or_introl eq_refl)).
  f_equal. apply IH. intros x Hx. apply Hall. right. exact Hx.
Qed.

Lemma deleteExpense_present (id : list N) (w : World) :
  In id (Expense.id <$> getExpenses w) ->
  deleteExpense id w
  = bind (saveExpenses
            (List.filter (fun e => negb (eqb (Expense.id e) id)) (getExpenses w)))
         (fun _ => ret true) w.
Proof.
  intros Hin. unfold deleteExpense, bind at 1, gets.
  destruct (length (List.filter _ (getExpenses w)) =? length (getExpenses w))%nat eqn:E;
    [|reflexivity].
  exfalso. apply Nat.eqb_eq in E.
  apply in_map_iff in Hin. destruct Hin as (e & He & Hin).
  pose proof (filter_keeps_all _ _ E e Hin) as Hkeep. cbn beta in Hkeep.
  apply negb_true_iff in Hkeep. rewrite <- He in Hkeep.
  assert (eqb (Expense.id e) (Expense.id e) = true) by (apply eqb_true; reflexivity).
  congruence.
Qed.

Lemma deleteExpense_absent (id : list N) (w : World) :
  ~ In id (Expense.id <$> getExpenses w) -> deleteExpense id w = (Return false, w).
Proof.
  intros Hnot. unfold deleteExpense, bind, gets.
  rewrite filter_all_kept.
  - rewrite Nat.eqb_refl. reflexivity.
  - intros e He. apply negb_true_iff. destruct (eqb (Expense.id e) id) eqn:E; [|reflexivity].
    exfalso. apply Hnot. apply eqb_true in E. rewrite <- E.
    apply in_map_iff. exists e. split; [reflexivity | exact He].
Qed.

(** [setBudget] as a function of the world it runs in. *)
Lemma setBudget_unfold (yearMonth : list N) (limitCents : Z)
    (category : option (list N)) (w : World) :
  setBudget yearMonth limitCents category w
  = match findIndex (sameBudgetKey yearMonth category) (getBudgets w) with
    | Some i =>
        let budget :=
          Budget.mk (default [] (Budget.id <$> getBudgets w !! i))
            yearMonth category limitCents in
        if validateBudgetData (<[i := budget]> (getBudgets w)) then
          if ls_quotaExceeded w then (Throw BUDGETS_NOT_SAVED, w)
          else (Return budget, put_budgets (<[i := budget]> (getBudgets w)) w)
        else (Throw INVALID_BUDGET_DATA, w)
    | None =>
        let budget :=
          Budget.mk (formatUUID (entropy w (drawn w)))
            yearMonth category limitCents in
        let w1 := set_drawn w (S (drawn w)) in
        if validateBudgetData (getBudgets w ++ [budget]) then
          if ls_quotaExceeded w then (Throw BUDGETS_NOT_SAVED, w1)
          else (Return budget, put_budgets (getBudgets w ++ [budget]) w1)
        else (Throw INVALID_BUDGET_DATA, w1)
    end.
Proof.
  cbv beta iota zeta delta [setBudget saveBudgets bind gets secureLocalStorageSet
                            randomUUID throw ret].
  destruct (findIndex (sameBudgetKey yearMonth category) (getBudgets w)) as [i|];
    match goal with
    | |- context [validateBudgetData ?bs] => destruct (validateBudgetData bs)
    end; cbn [negb]; try reflexivity;
    cbn [set_drawn ls_quotaExceeded]; destruct (ls_quotaExceeded w); reflexivity.
Qed.

Lemma setBudget_ignores_operationCounts (yearMonth : list N) (limitCents : Z)
    (category : option (list N)) (w : World) (m : gmap (list N) RateEntry) :
  setBudget yearMonth limitCents category (set_operationCounts w m)
  = (fst (setBudget yearMonth limitCents category w),
     set_operationCounts (snd (setBudget yearMonth limitCents category w)) m).
Proof.
  rewrite !setBudget_unfold.
  change (getBudgets (set_operationCounts w m)) with (getBudgets w).
  destruct (findIndex (sameBudgetKey yearMonth category) (getBudgets w)) as [i|];
    cbn [set_drawn set_operationCounts entropy drawn ls_quotaExceeded];
    match goal with
    | |- context [validateBudgetData ?bs] => destruct (validateBudgetData bs)
    end; try reflexivity; destruct (ls_quotaExceeded w); reflexivity.
Qed.

(** C8, as the code has it. [addExpense] and [updateExpense] consult the
    rate limiter first, each under its own kind, and when that limit is
    exceeded throw the rate-limit error and leave the world as it was.
    [deleteExpense] has no kind of its own: removing a stored record is
    limited through the 50-per-window limit of [saveExpenses], and a missing
    id returns [false] whatever the limiter holds. [setBudget] never
    consults the limiter: its result does not depend on the counters and it
    leaves them as they are. The rate-limit messages differ from the
    validation message. *)
Theorem rate_limit_guards (w : World) :
  (limitExceeded (js "addExpense") 100 w ->
   forall expense, addExpense expense w = (Throw TOO_MANY_OPERATIONS, w))
  /\ (limitExceeded (js "updateExpense") 100 w ->
      forall id updates, updateExpense id updates w = (Throw TOO_MANY_OPERATIONS, w))
  /\ (limitExceeded (js "saveExpenses") 50 w ->
      forall id, In id (Expense.id <$> getExpenses w) ->
                 deleteExpense id w = (Throw TOO_MANY_SAVES, w))
  /\ (forall id, ~ In id (Expense.id <$> getExpenses w) ->
                 deleteExpense id w = (Return false, w))
  /\ (forall yearMonth limitCents category m,
        setBudget yearMonth limitCents category (set_operationCounts w m)
        = (fst (setBudget yearMonth limitCents category w),
           set_operationCounts (snd (setBudget yearMonth limitCents category w)) m))
  /\ TOO_MANY_OPERATIONS <> INVALID_EXPENSE_DATA
  /\ TOO_MANY_SAVES <> INVALID_EXPENSE_DATA.
Proof.
  repeat split.
  - intros Hex expense. unfold addExpense, bind, rateLimited.
    rewrite (checkRateLimit_exceeded _ _ _ _ Hex). reflexivity.
  - intros Hex id updates. unfold updateExpense, bind, rateLimited.
    rewrite (checkRateLimit_exceeded _ _ _ _ Hex). reflexivity.
  - intros Hex id Hin. rewrite (deleteExpense_present id w Hin).
    unfold saveExpenses, bind, rateLimited.
    rewrite (checkRateLimit_exceeded _ _ _ _ Hex). reflexivity.
  - intros id Hnot. exact (deleteExpense_absent id w Hnot).
  - intros. apply setBudget_ignores_operationCounts.
  - vm_compute. discriminate.
  - vm_compute. discriminate.
Qed.

Lemma busy_exceeded (operation : list N) (n : Z) :
  operationCounts Sample.busy !! operation = Some (Sample.spent n) ->
  limitExceeded operation n Sample.busy.
Proof.
  intros L. exists (Sample.spent n). split; [exact L|].
  split; [vm_compute; discriminate | cbn; lia].
Qed.

Lemma rate_limit_guards_witness :
  addExpense (NewExpense.mk 1599 (js "EUR") (js "Food") None (js "2024-03-15") None)
    Sample.busy = (Throw TOO_MANY_OPERATIONS, Sample.busy)
  /\ updateExpense (Expense.id Sample.coffee) ExpensePartial.empty Sample.busy
     = (Throw TOO_MANY_OPERATIONS, Sample.busy)
  /\ deleteExpense (Expense.id Sample.coffee) Sample.busy
     = (Throw TOO_MANY_SAVES, Sample.busy)
  /\ deleteExpense (js "no such id") Sample.busy = (Return false, Sample.busy).
Proof.
  destruct (rate_limit_guards Sample.busy) as (Hadd & Hupd & Hdel & Hmiss & _).
  split; [|split; [|split]].
  - apply Hadd. apply busy_exceeded. vm_compute. reflexivity.
  - apply Hupd. apply busy_exceeded. vm_compute. reflexivity.
  - apply Hdel; [apply busy_exceeded; vm_compute; reflexivity|].
    vm_compute. left. reflexivity.
  - apply Hmiss. vm_compute. intros [E|[E|[]]]; discriminate.
Defined.

(** C8 as the specification states it fails for [setBudget] and
    [deleteExpense]: with the windows of the kinds named after them used up,
    [setBudget] still stores a new budget and [deleteExpense] still removes
    a record. *)
Lemma setBudget_deleteExpense_not_limited :
  limitExceeded (js "setBudget") 100 Sample.unguarded
  /\ fst (setBudget (js "2024-04") 70000 None Sample.unguarded)
     = Return (Budget.mk (js "00000000-0000-4000-8000-000000000063")
                 (js "2024-04") None 70000)
  /\ ls_budgets (snd (setBudget (js "2024-04") 70000 None Sample.unguarded))
     = Stored [Sample.march;
               Budget.mk (js "00000000-0000-4000-8000-000000000063")
                 (js "2024-04") None 70000]
  /\ limitExceeded (js "deleteExpense") 100 Sample.unguarded
  /\ fst (deleteExpense (Expense.id Sample.coffee) Sample.unguarded) = Return true
  /\ ls_expenses (snd (deleteExpense (Expense.id Sample.coffee) Sample.unguarded))
     = Stored [Sample.lunch].
Proof.
  assert (Hex : forall operation,
             operationCounts Sample.unguarded !! operation = Some (Sample.spent 100) ->
             limitExceeded operation 100 Sample.unguarded).
  { intros operation L. exists (Sample.spent 100). split; [exact L|].
    split; [vm_compute; discriminate | cbn; lia]. }
  split; [apply Hex; vm_compute; reflexivity|].
  split; [vm_compute; reflexivity|].
  split; [vm_compute; reflexivity|].
  split; [apply Hex; vm_compute; reflexivity|].
  split; vm_compute; reflexivity.
Qed.


(** ** Budgets: one per month and category *)

Lemma isHex_hexDigit (n : N) : isHex (hexDigit n) = true.
Proof.
  unfold hexDigit, isHex, isDigit.
  assert (Hd : (n mod 16 < 16)%N) by (apply N.mod_lt; discriminate).
  generalize dependent (n mod 16)%N. clear n. intros d Hd. cbv zeta.
  destruct (N.ltb_spec d 10) as [Hlt|Hge].
  - replace (48 <=? 48 + d)%N with true by (symmetry; apply N.leb_le; lia).
    replace (48 + d <=? 57)%N with true by (symmetry; apply N.leb_le; lia).
    reflexivity.
  - replace (97 <=? 87 + d)%N with true by (symmetry; apply N.leb_le; lia).
    replace (87 + d <=? 102)%N with true by (symmetry; apply N.leb_le; lia).
    rewrite !orb_true_r. reflexivity.
Qed.

(** What [crypto.randomUUID] returns passes [z.string().uuid()]. *)
Lemma formatUUID_is_uuid (r : N) : is_uuid (formatUUID r) = true.
Proof.
  cbv beta iota zeta delta [is_uuid formatUUID forallb].
  rewrite !isHex_hexDigit. reflexivity.
Qed.

Lemma findIndex_Some {A} (p : A -> bool) (l : list A) (i : nat) :
  findIndex p l = Some i -> exists x, l !! i = Some x /\ p x = true.
Proof.
  revert i. induction l as [|y l IH]; intros i Hf; [discriminate|].
  cbn [findIndex] in Hf. destruct (p y) eqn:Hy.
  - injection Hf as <-. exists y. split; [reflexivity | exact Hy].
  - destruct (findIndex p l) as [j|]; [|discriminate].
    injection Hf as <-. destruct (IH j eq_refl) as (x & Hx & Hp).
    exists x. split; [exact Hx | exact Hp].
Qed.

Lemma findIndex_None {A} (p : A -> bool) (l : list A) :
  findIndex p l = None -> forall x, In x l -> p x = false.
Proof.
  induction l as [|y l IH]; intros Hf x Hin; [destruct Hin|].
  cbn [findIndex] in Hf. destruct (p y) eqn:Hy; [discriminate|].
  destruct (findIndex p l) as [j|]; [discriminate|].
  destruct Hin as [->|Hin]; [exact Hy | exact (IH eq_refl x Hin)].
Qed.

Lemma findIndex_first {A} (p : A -> bool) (l : list A) (i : nat) :
  findIndex p l = Some i ->
  forall j x, (j < i)%nat -> l !! j = Some x -> p x = false.
Proof.
  revert i. induction l as [|y l IH]; intros i Hf j x Hj Hx; [discriminate|].
  cbn [findIndex] in Hf. destruct (p y) eqn:Hy.
  - injection Hf as <-. lia.
  - destruct (findIndex p l) as [k|]; [|discriminate].
    injection Hf as <-. destruct j as [|j].
    + injection Hx as <-. exact Hy.
    + exact (IH k eq_refl j x ltac:(lia) Hx).
Qed.

Lemma sameBudgetKey_true (yearMonth : list N) (category : option (list N))
    (b : Budget.t) :
  sameBudgetKey yearMonth category b = true <-> budgetKey b = (yearMonth, category).
Proof.
  unfold sameBudgetKey, budgetKey. rewrite andb_true_iff, eqb_true, bool_decide_eq_true.
  split; [intros [-> ->]; reflexivity | intros E; injection E; auto].
Qed.

Lemma forallb_insert {A} (p : A -> bool) (l : list A) (i : nat) (x : A) :
  forallb p l = true -> p x = true -> forallb p (<[i := x]> l) = true.
Proof.
  revert i. induction l as [|y l IH]; intros i Hl Hx; [reflexivity|].
  cbn [forallb] in Hl. apply andb_true_iff in Hl. destruct Hl as [Hy Hl].
  destruct i as [|i]; cbn; rewrite ?Hx, ?Hy; cbn; [exact Hl | exact (IH i Hl Hx)].
Qed.

Lemma forallb_lookup {A} (p : A -> bool) (l : list A) (i : nat) (x : A) :
  forallb p l = true -> l !! i = Some x -> p x = true.
Proof.
  intros Hl Hi. rewrite forallb_forall in Hl. apply Hl.
  apply list_elem_of_In. apply list_elem_of_lookup. exists i. exact Hi.
Qed.

Lemma filter_none {A} (p : A -> bool) (l : list A) :
  (forall x, In x l -> p x = false) -> List.filter p l = [].
Proof.
  induction l as [|y l IH]; intros Hall; [reflexivity|].
  cbn [List.filter]. rewrite (Hall y (or_introl eq_refl)).
  apply IH. intros x Hx. apply Hall. right. exact Hx.
Qed.

(** In a collection with unique keys, the budgets of one key are the one
    stored under it. *)
Lemma unique_filter (yearMonth : list N) (category : option (list N))
    (bs : list Budget.t) (i : nat) (b : Budget.t) :
  uniqueKeys bs -> bs !! i = Some b -> budgetKey b = (yearMonth, category) ->
  List.filter (sameBudgetKey yearMonth category) bs = [b].
Proof.
  unfold uniqueKeys. revert i. induction bs as [|y bs IH]; intros i Hu Hi Hk; [discriminate|].
  rewrite fmap_cons in Hu. apply NoDup_cons in Hu. destruct Hu as [Hy Hu].
  cbn [List.filter]. destruct i as [|i]; cbn in Hi.
  - injection Hi as ->.
    rewrite (proj2 (sameBudgetKey_true yearMonth category b) Hk). f_equal.
    apply filter_none. intros x Hx.
    destruct (sameBudgetKey yearMonth category x) eqn:E; [|reflexivity].
    exfalso. apply Hy. apply sameBudgetKey_true in E. rewrite Hk, <- E.
    apply list_elem_of_fmap. exists x. split; [reflexivity|].
    apply list_elem_of_In. exact Hx.
  - destruct (sameBudgetKey yearMonth category y) eqn:E.
    + exfalso. apply Hy. apply sameBudgetKey_true in E. rewrite E, <- Hk.
      apply list_elem_of_fmap. exists b. split; [reflexivity|].
      apply list_elem_of_lookup. exists i. exact Hi.
    + exact (IH i Hu Hi Hk).
Qed.

Lemma getBudgets_valid (w : World) (bs : list Budget.t) :
  ls_budgets w = Stored bs -> validateBudgetData bs = true -> getBudgets w = bs.
Proof. intros Hs Hv. unfold getBudgets. rewrite Hs, Hv. reflexivity. Qed.

Lemma BudgetSchema_id (b : Budget.t) : BudgetSchema b = true -> is_uuid (Budget.id b) = true.
Proof.
  unfold BudgetSchema. rewrite !andb_true_iff. intros [[[[H _] _] _] _]. exact H.
Qed.

Lemma BudgetSchema_intro (id yearMonth : list N) (category : option (list N))
    (limitCents : Z) :
  is_uuid id = true -> is_yearMonth yearMonth = true ->
  optional (maxLen 50) category = true -> 0 <= limitCents <= 100000000 ->
  BudgetSchema (Budget.mk id yearMonth category limitCents) = true.
Proof.
  intros Hid Hym Hcat [Hlo Hhi]. unfold BudgetSchema. cbn [Budget.id Budget.yearMonth
    Budget.category Budget.limitCents]. rewrite Hid, Hym, Hcat. cbn [andb].
  apply andb_true_iff. split; apply Z.leb_le; assumption.
Qed.

Lemma getBudgets_budgetsOf (w : World) :
  validateBudgetData (budgetsOf w) = true -> getBudgets w = budgetsOf w.
Proof.
  unfold getBudgets, budgetsOf. destruct (ls_budgets w) as [| |bs]; try reflexivity.
  intros ->. reflexivity.
Qed.

(** One successful [setBudget] on a valid collection with unique keys. *)
Lemma setBudget_step (w : World) (bs : list Budget.t) (yearMonth : list N)
    (limitCents : Z) (category : option (list N)) :
  getBudgets w = bs -> validateBudgetData bs = true -> uniqueKeys bs ->
  is_yearMonth yearMonth = true -> optional (maxLen 50) category = true ->
  0 <= limitCents <= 100000000 -> ls_quotaExceeded w = false ->
  exists (id : list N) (bs' : list Budget.t),
    let budget := Budget.mk id yearMonth category limitCents in
    let w' := snd (setBudget yearMonth limitCents category w) in
    fst (setBudget yearMonth limitCents category w) = Return budget
    /\ ls_budgets w' = Stored bs'
    /\ validateBudgetData bs' = true
    /\ uniqueKeys bs'
    /\ ls_quotaExceeded w' = false
    /\ is_uuid id = true
    /\ (forall i old, bs !! i = Some old -> budgetKey old = (yearMonth, category) ->
                      bs' = <[i := budget]> bs /\ id = Budget.id old
                      /\ drawn w' = drawn w)
    /\ ((forall old, In old bs -> budgetKey old <> (yearMonth, category)) ->
        bs' = bs ++ [budget] /\ id = formatUUID (entropy w (drawn w))
        /\ drawn w' = S (drawn w))
    /\ List.filter (sameBudgetKey yearMonth category) bs' = [budget].
Proof.
  intros Hs Hv Hu Hym Hcat Hlim Hq.
  rewrite setBudget_unfold, Hs, Hq.
  destruct (findIndex (sameBudgetKey yearMonth category) bs) as [i|] eqn:Hf.
  - destruct (findIndex_Some _ _ _ Hf) as (old & Hi & Hkey).
    apply sameBudgetKey_true in Hkey. rewrite Hi.
    cbn [fmap option_fmap option_map default from_option].
    cbv beta zeta delta [Datatypes.id].
    set (budget := Budget.mk (Budget.id old) yearMonth category limitCents).
    assert (Hb : BudgetSchema budget = true).
    { apply BudgetSchema_intro; try assumption.
      apply BudgetSchema_id. exact (forallb_lookup _ _ _ _ Hv Hi). }
    assert (Hv' : validateBudgetData (<[i := budget]> bs) = true)
      by (apply forallb_insert; assumption).
    assert (Hkeys : budgetKey <$> <[i := budget]> bs = budgetKey <$> bs).
    { rewrite list_fmap_insert. apply list_insert_id.
      rewrite list_lookup_fmap, Hi. cbn. rewrite Hkey. reflexivity. }
    assert (Hu' : uniqueKeys (<[i := budget]> bs))
      by (unfold uniqueKeys; rewrite Hkeys; exact Hu).
    assert (Hi' : <[i := budget]> bs !! i = Some budget).
    { apply list_lookup_insert_eq. apply lookup_lt_Some in Hi. exact Hi. }
    rewrite Hv'. exists (Budget.id old), (<[i := budget]> bs). cbn [fst snd].
    split; [reflexivity|]. split; [reflexivity|]. split; [exact Hv'|].
    split; [exact Hu'|]. split; [exact Hq|].
    split; [apply BudgetSchema_id; exact (forallb_lookup _ _ _ _ Hv Hi)|].
    split; [|split].
    + intros j old' Hj Hk'.
      assert (j = i) as ->.
      { apply (NoDup_lookup (budgetKey <$> bs) j i (yearMonth, category) Hu).
        - rewrite list_lookup_fmap, Hj. cbn. rewrite Hk'. reflexivity.
        - rewrite list_lookup_fmap, Hi. cbn. rewrite Hkey. reflexivity. }
      split; [reflexivity|]. split; [congruence | reflexivity].
    + intros Habs. exfalso. apply (Habs old); [|exact Hkey].
      apply list_elem_of_In. apply list_elem_of_lookup. exists i. exact Hi.
    + exact (unique_filter yearMonth category _ i budget Hu' Hi' eq_refl).
  - pose proof (findIndex_None _ _ Hf) as Hnone. cbv zeta.
    set (budget := Budget.mk (formatUUID (entropy w (drawn w))) yearMonth category
                     limitCents).
    assert (Hb : BudgetSchema budget = true)
      by (apply BudgetSchema_intro; try assumption; apply formatUUID_is_uuid).
    assert (Hv' : validateBudgetData (bs ++ [budget]) = true).
    { unfold validateBudgetData. rewrite forallb_app. cbn [forallb].
      unfold validateBudgetData in Hv. rewrite Hv, Hb. reflexivity. }
    assert (Hfresh : forall old, In old bs -> budgetKey old <> (yearMonth, category)).
    { intros old Hin E. apply sameBudgetKey_true in E.
      rewrite (Hnone old Hin) in E. discriminate. }
    assert (Hu' : uniqueKeys (bs ++ [budget])).
    { unfold uniqueKeys. rewrite fmap_app. apply NoDup_app. split; [exact Hu|].
      split; [|apply NoDup_singleton].
      intros k Hk Hk'. apply list_elem_of_fmap in Hk. destruct Hk as (old & -> & Hin).
      apply list_elem_of_In in Hin. cbn in Hk'. apply list_elem_of_singleton in Hk'.
      exact (Hfresh old Hin Hk'). }
    rewrite Hv'. exists (formatUUID (entropy w (drawn w))), (bs ++ [budget]).
    cbn [fst snd].
    split; [reflexivity|]. split; [reflexivity|]. split; [exact Hv'|].
    split; [exact Hu'|]. split; [exact Hq|].
    split; [apply formatUUID_is_uuid|].
    split; [|split].
    + intros j old Hj Hk. exfalso. apply (Hfresh old); [|exact Hk].
      apply list_elem_of_In. apply list_elem_of_lookup. exists j. exact Hj.
    + intros _. repeat split; reflexivity.
    + rewrite List.filter_app, (filter_none _ bs Hnone). cbn [List.filter app].
      rewrite (proj2 (sameBudgetKey_true yearMonth category budget) eq_refl).
      reflexivity.
Qed.

Lemma uniqueKeys_replace (bs : list Budget.t) (i : nat) (old b : Budget.t) :
  uniqueKeys bs -> bs !! i = Some old -> budgetKey b = budgetKey old ->
  uniqueKeys (<[i := b]> bs).
Proof.
  intros Hu Hi Hk. unfold uniqueKeys.
  replace (budgetKey <$> <[i := b]> bs) with (budgetKey <$> bs); [exact Hu|].
  rewrite list_fmap_insert. symmetry. apply list_insert_id.
  rewrite list_lookup_fmap, Hi. cbn. rewrite Hk. reflexivity.
Qed.

Lemma uniqueKeys_snoc (bs : list Budget.t) (b : Budget.t) :
  uniqueKeys bs -> (forall old, In old bs -> budgetKey old <> budgetKey b) ->
  uniqueKeys (bs ++ [b]).
Proof.
  intros Hu Hfresh. unfold uniqueKeys. rewrite fmap_app. apply NoDup_app.
  split; [exact Hu|]. split; [|apply NoDup_singleton].
  intros k Hk Hk'. apply list_elem_of_fmap in Hk. destruct Hk as (old & -> & Hin).
  apply list_elem_of_In in Hin. cbn in Hk'. apply list_elem_of_singleton in Hk'.
  exact (Hfresh old Hin Hk').
Qed.

Lemma uniqueKeys_getBudgets (w : World) : uniqueStored w -> uniqueKeys (getBudgets w).
Proof.
  unfold uniqueStored, getBudgets.
  destruct (ls_budgets w) as [| |bs]; try (intros _; apply NoDup_nil; exact I).
  intros Hu. destruct (validateBudgetData bs); [exact Hu | apply NoDup_nil; exact I].
Qed.

(** Whatever the arguments and whether or not the call succeeds, [setBudget]
    leaves at most one stored budget per pair. *)
Lemma setBudget_preserves_uniqueStored (yearMonth : list N) (limitCents : Z)
    (category : option (list N)) (w : World) :
  uniqueStored w -> uniqueStored (snd (setBudget yearMonth limitCents category w)).
Proof.
  intros Hw. pose proof (uniqueKeys_getBudgets w Hw) as Hu.
  rewrite setBudget_unfold.
  destruct (findIndex (sameBudgetKey yearMonth category) (getBudgets w)) as [i|] eqn:Hf;
    cbv zeta.
  - destruct (findIndex_Some _ _ _ Hf) as (old & Hi & Hkey).
    apply sameBudgetKey_true in Hkey.
    destruct (validateBudgetData _); [|exact Hw].
    destruct (ls_quotaExceeded w); [exact Hw|].
    cbn [snd]. unfold uniqueStored. cbn [put_budgets ls_budgets].
    apply (uniqueKeys_replace _ i old); [exact Hu | exact Hi |].
    rewrite Hkey. reflexivity.
  - pose proof (findIndex_None _ _ Hf) as Hnone.
    destruct (validateBudgetData _); [|exact Hw].
    destruct (ls_quotaExceeded w); [exact Hw|].
    cbn [snd]. unfold uniqueStored. cbn [put_budgets ls_budgets].
    apply uniqueKeys_snoc; [exact Hu|].
    intros old Hin E.
    apply (proj2 (sameBudgetKey_true yearMonth category old)) in E.
    rewrite (Hnone old Hin) in E. discriminate.
Qed.

(** C5, as the code has it. Take the budget collection of the store (the
    empty one for a store never written to): when it passes the budget
    schema and has at most one budget per [(yearMonth, category)] pair (the
    absent category included), a call of [setBudget] whose arguments pass
    the schema (a YYYY-MM key, a category of at most 50 units, a limit from
    0 to 100000000) and whose write succeeds returns the budget it stores
    and leaves at most one budget per pair: a budget already stored for the
    pair is replaced in place, at its index and with its id, and nothing is
    drawn from the generator; if there is none, a budget is appended whose
    id is the UUID that [crypto.randomUUID] returns on this call, the next
    draw of the generator. The collection then holds exactly that budget
    for the pair, and a second such call for the pair with another limit
    again leaves exactly one, at the same length, with the second limit and
    the id of the first call. *)
Theorem setBudget_upsert (w : World) (bs : list Budget.t) (yearMonth : list N)
    (limitCents limitCents2 : Z) (category : option (list N)) :
  budgetsOf w = bs -> validateBudgetData bs = true -> uniqueKeys bs ->
  is_yearMonth yearMonth = true -> optional (maxLen 50) category = true ->
  0 <= limitCents <= 100000000 -> 0 <= limitCents2 <= 100000000 ->
  ls_quotaExceeded w = false ->
  exists (id : list N) (bs' bs'' : list Budget.t),
    let budget := Budget.mk id yearMonth category limitCents in
    let budget2 := Budget.mk id yearMonth category limitCents2 in
    let w' := snd (setBudget yearMonth limitCents category w) in
    let w'' := snd (setBudget yearMonth limitCents2 category w') in
    fst (setBudget yearMonth limitCents category w) = Return budget
    /\ ls_budgets w' = Stored bs'
    /\ uniqueKeys bs'
    /\ is_uuid id = true
    /\ (forall i old, bs !! i = Some old -> budgetKey old = (yearMonth, category) ->
                      bs' = <[i := budget]> bs /\ id = Budget.id old
                      /\ drawn w' = drawn w)
    /\ ((forall old, In old bs -> budgetKey old <> (yearMonth, category)) ->
        bs' = bs ++ [budget] /\ id = formatUUID (entropy w (drawn w))
        /\ drawn w' = S (drawn w))
    /\ List.filter (sameBudgetKey yearMonth category) bs' = [budget]
    /\ fst (setBudget yearMonth limitCents2 category w') = Return budget2
    /\ ls_budgets w'' = Stored bs''
    /\ uniqueKeys bs''
    /\ length bs'' = length bs'
    /\ List.filter (sameBudgetKey yearMonth category) bs'' = [budget2].
Proof.
  intros Hs Hv Hu Hym Hcat Hlim Hlim2 Hq.
  assert (Hg : getBudgets w = bs).
  { rewrite <- Hs. apply getBudgets_budgetsOf. rewrite Hs. exact Hv. }
  destruct (setBudget_step w bs yearMonth limitCents category
              Hg Hv Hu Hym Hcat Hlim Hq)
    as (id & bs' & Hret & Hs' & Hv' & Hu' & Hq' & Hid & Hrep & Happ & Hone).
  cbv zeta in Hret, Hs', Hq', Hrep, Happ.
  destruct (setBudget_step _ bs' yearMonth limitCents2 category
              (getBudgets_valid _ bs' Hs' Hv') Hv' Hu' Hym Hcat Hlim2 Hq')
    as (id2 & bs'' & Hret2 & Hs'' & _ & Hu'' & _ & _ & Hrep2 & _ & Hone2).
  cbv zeta in Hret2, Hs'', Hrep2.
  assert (Hin : In (Budget.mk id yearMonth category limitCents) bs').
  { apply (filter_In (sameBudgetKey yearMonth category)). rewrite Hone. left. reflexivity. }
  apply list_elem_of_In, list_elem_of_lookup in Hin. destruct Hin as (i & Hi).
  destruct (Hrep2 i _ Hi eq_refl) as (-> & Hid2 & _). cbn in Hid2. subst id2.
  exists id, bs', (<[i := Budget.mk id yearMonth category limitCents2]> bs').
  cbv zeta.
  split; [exact Hret|]. split; [exact Hs'|]. split; [exact Hu'|].
  split; [exact Hid|].
  split; [exact Hrep|]. split; [exact Happ|]. split; [exact Hone|].
  split; [exact Hret2|]. split; [exact Hs''|]. split; [exact Hu''|].
  split; [apply length_insert | exact Hone2].
Qed.

(** Scenario 2 of the specification, from a store never written to: the
    first call appends, the second replaces in place. *)
Lemma setBudget_upsert_witness :
  exists (id : list N) (bs' bs'' : list Budget.t),
    let budget := Budget.mk id (js "2024-03") None 50000 in
    let budget2 := Budget.mk id (js "2024-03") None 60000 in
    let w' := snd (setBudget (js "2024-03") 50000 None Sample.blank) in
    let w'' := snd (setBudget (js "2024-03") 60000 None w') in
    fst (setBudget (js "2024-03") 50000 None Sample.blank) = Return budget
    /\ ls_budgets w' = Stored bs'
    /\ uniqueKeys bs'
    /\ is_uuid id = true
    /\ (forall i old, @nil Budget.t !! i = Some old ->
                      budgetKey old = (js "2024-03", None) ->
                      bs' = <[i := budget]> [] /\ id = Budget.id old
                      /\ drawn w' = drawn Sample.blank)
    /\ ((forall old, In old [] -> budgetKey old <> (js "2024-03", None)) ->
        bs' = [] ++ [budget]
        /\ id = formatUUID (entropy Sample.blank (drawn Sample.blank))
        /\ drawn w' = S (drawn Sample.blank))
    /\ List.filter (sameBudgetKey (js "2024-03") None) bs' = [budget]
    /\ fst (setBudget (js "2024-03") 60000 None w') = Return budget2
    /\ ls_budgets w'' = Stored bs''
    /\ uniqueKeys bs''
    /\ length bs'' = length bs'
    /\ List.filter (sameBudgetKey (js "2024-03") None) bs'' = [budget2].
Proof.
  apply (setBudget_upsert Sample.blank [] (js "2024-03") 50000 60000 None).
  - reflexivity.
  - reflexivity.
  - apply NoDup_nil. exact I.
  - vm_compute. reflexivity.
  - reflexivity.
  - lia.
  - lia.
  - reflexivity.
Defined.


(** C5 as the specification states it fails for calls that the guards of
    [saveBudgets] turn away and for a stored collection that [getBudgets]
    does not accept: a limit above the maximum and a full store each throw
    and leave the budget of the pair with its old limit, and a month key
    that is not of the form YYYY-MM or a category of 51 units throws and
    appends nothing; with a stored record that fails the schema the
    collection is read as empty, so the call stores a single budget with a
    new id in place of the whole collection. Nor does the code compare the
    id it draws with the stored ones: when [crypto.randomUUID] returns the
    id of a stored budget, the appended budget shares it. *)
Lemma setBudget_guarded :
  uniqueKeys [Sample.march]
  /\ budgetKey Sample.march = (js "2024-03", None)
  /\ setBudget (js "2024-03") 150000000 None Sample.world
     = (Throw INVALID_BUDGET_DATA, Sample.world)
  /\ setBudget (js "2024-03") 60000 None Sample.full
     = (Throw BUDGETS_NOT_SAVED, Sample.full)
  /\ fst (setBudget (js "2024-3") 60000 None Sample.world)
     = Throw INVALID_BUDGET_DATA
  /\ ls_budgets (snd (setBudget (js "2024-3") 60000 None Sample.world))
     = Stored [Sample.march]
  /\ fst (setBudget (js "2024-03") 60000 (Some (replicate 51 65%N)) Sample.world)
     = Throw INVALID_BUDGET_DATA
  /\ ls_budgets (snd (setBudget (js "2024-03") 60000 (Some (replicate 51 65%N))
                        Sample.world))
     = Stored [Sample.march]
  /\ uniqueKeys [Sample.march; Sample.crooked]
  /\ fst (setBudget (js "2024-03") 60000 None Sample.tainted)
     = Return (Budget.mk (js "00000000-0000-4000-8000-000000000063")
                 (js "2024-03") None 60000)
  /\ ls_budgets (snd (setBudget (js "2024-03") 60000 None Sample.tainted))
     = Stored [Budget.mk (js "00000000-0000-4000-8000-000000000063")
                 (js "2024-03") None 60000]
  /\ validateBudgetData [Sample.march; Sample.april] = true
  /\ uniqueKeys [Sample.march; Sample.april]
  /\ ls_budgets (snd (setBudget (js "2024-05") 60000 None Sample.repeated))
     = Stored [Sample.march; Sample.april;
               Budget.mk (Budget.id Sample.april) (js "2024-05") None 60000].
Proof.
  split; [apply NoDup_singleton|].
  split; [reflexivity|].
  split; [vm_compute; reflexivity|].
  split; [vm_compute; reflexivity|].
  split; [vm_compute; reflexivity|].
  split; [vm_compute; reflexivity|].
  split; [vm_compute; reflexivity|].
  split; [vm_compute; reflexivity|].
  split.
  { unfold uniqueKeys. rewrite !fmap_cons. apply NoDup_cons.
    split; [|apply NoDup_singleton].
    intros Hin. apply list_elem_of_singleton in Hin. vm_compute in Hin. discriminate. }
  split; [vm_compute; reflexivity|].
  split; [vm_compute; reflexivity|].
  split; [vm_compute; reflexivity|].
  split.
  { unfold uniqueKeys. rewrite !fmap_cons. apply NoDup_cons.
    split; [|apply NoDup_singleton].
    intros Hin. apply list_elem_of_singleton in Hin. vm_compute in Hin. discriminate. }
  vm_compute. reflexivity.
Qed.

(** ** Where the code departs from the specification *)

(** C1 (the code against the claim). Updating the amount and the category
    of a stored expense that has a note and a payment method stores the
    record without them, although the update supplied neither; an update of
    the amount alone is refused with the validation error, because the
    merged record has no category. *)
Theorem updateExpense_drops_unsupplied_fields :
  Expense.note Sample.lunch = Some (js "lunch")
  /\ Expense.paymentMethod Sample.lunch = Some (js "Card")
  /\ (exists updated w',
        updateExpense (Expense.id Sample.lunch) Sample.amountAndCategory Sample.world
        = (Return (Some updated), w')
        /\ Expense.amountCents updated = 3000
        /\ Expense.note updated = None
        /\ Expense.paymentMethod updated = None
        /\ ls_expenses w' = Stored [Sample.coffee; updated])
  /\ (exists w',
        updateExpense (Expense.id Sample.lunch) Sample.amountOnly Sample.world
        = (Throw INVALID_EXPENSE_DATA, w')
        /\ ls_expenses w' = Stored [Sample.coffee; Sample.lunch]).
Proof.
  split; [reflexivity|]. split; [reflexivity|]. split.
  - eexists. eexists. split; [vm_compute; reflexivity|].
    repeat split; reflexivity.
  - eexists. split; [vm_compute; reflexivity | reflexivity].
Qed.

(** C3 (the code against the claim). The row [2024-01-05,12.50,Travel] has
    a date that parses, a positive amount and a category, and the expense
    made from it carries the instant [2024-01-05T00:00:00.000Z] as
    [paidAt]: it fails the stored-expense schema, and a collection that
    holds it cannot be saved. *)
Theorem createExpenseFromCSVRow_fails_schema :
  exists imported w',
    createExpenseFromCSVRow (H := Sample.utc) Sample.travelRow (js "EUR") [] false
      Sample.world = (Return (Some imported), w')
    /\ Expense.amountCents imported = 1250
    /\ Expense.category imported = Some (js "Travel")
    /\ Expense.paidAt imported = js "2024-01-05T00:00:00.000Z"
    /\ is_dateOnly (Expense.paidAt imported) = false
    /\ ExpenseSchema imported = false
    /\ fst (saveExpenses [imported] w') = Throw INVALID_EXPENSE_DATA.
Proof.
  eexists. eexists. split; [vm_compute; reflexivity|].
  repeat split; vm_compute; reflexivity.
Qed.

(** C4 (the code against the claim). The two stored sample expenses are
    valid; exported and imported again with duplicates disallowed, the one
    with a note is recognised as a duplicate, and the one without a note is
    not (its [note] is [undefined], the row's is the empty string): it comes
    back as a new record, and the handler then fails to save. *)
Theorem export_import_reimports_noteless :
  validateExpenseData [Sample.coffee; Sample.lunch] = true
  /\ Expense.note Sample.coffee = None
  /\ exists csv,
       exportToCSV [Sample.coffee; Sample.lunch] = Return csv
       /\ csv = BOM ++ js "date,amount,currency,category,note,payment_method"
                ++ [10%N] ++ js "2024-03-15,15.99,EUR,Food,,"
                ++ [10%N] ++ js "2024-03-31,25.00,EUR,Food,lunch,Card"
       /\ (exists report w',
             importRows (H := Sample.utc) (trim <$> split 44 (hd [] (split 10 csv)))
               (tl (split 10 csv)) (js "EUR") [Sample.coffee; Sample.lunch] false
               {| importedRows := 0; skippedRows := 0; newExpenses := [] |}
               Sample.world = (Return report, w')
             /\ importedRows report = 1
             /\ skippedRows report = 1
             /\ (Expense.amountCents <$> newExpenses report) = [1599]
             /\ (Expense.paidAt <$> newExpenses report) = [js "2024-03-15T00:00:00.000Z"])
       /\ fst (importCSV (H := Sample.utc) csv (js "EUR") false Sample.world)
          = Throw INVALID_EXPENSE_DATA
       /\ parseCSV (H := Sample.utc) csv
          = Return {| imported := 2; skipped := 0; errors := [] |}.
Proof.
  split; [vm_compute; reflexivity|]. split; [reflexivity|].
  eexists. split; [vm_compute; reflexivity|].
  split; [vm_compute; reflexivity|].
  split; [|split; vm_compute; reflexivity].
  eexists. eexists. split; [vm_compute; reflexivity|].
  repeat split; vm_compute; reflexivity.
Qed.

(** C6 (the code against the claim). One hour east of UTC the range of
    March 2024 runs from 29 February to 30 March: the expense of 31 March is
    left out of its month and the expense of 29 February is counted in. At
    UTC the range is the calendar month. *)
Theorem getExpensesForMonth_shifted_east_of_utc :
  getMonthRange (H := Sample.cet) (js "2024-03")
  = Return (js "2024-02-29", js "2024-03-30")
  /\ getExpensesForMonth (H := Sample.cet)
       [Sample.leapDay; Sample.coffee; Sample.lunch] (js "2024-03")
     = Return [Sample.leapDay; Sample.coffee]
  /\ Expense.paidAt Sample.lunch = js "2024-03-31"
  /\ Expense.paidAt Sample.leapDay = js "2024-02-29"
  /\ getMonthRange (H := Sample.utc) (js "2024-03")
     = Return (js "2024-03-01", js "2024-03-31")
  /\ getExpensesForMonth (H := Sample.utc)
       [Sample.leapDay; Sample.coffee; Sample.lunch] (js "2024-03")
     = Return [Sample.coffee; Sample.lunch].
Proof.
  repeat split; vm_compute; reflexivity.
Qed.

(** C9 (the code against the claim). For an entry dated 1 January 2000,
    read on 20 March 2024, [validateExpense] of [lib/expense-utils.ts]
    returns no message at all; the variant of the file that checks the age
    of the date returns the message. *)
Theorem validateExpense_accepts_old_date :
  ExpensePartial.paidAt Sample.ancient = Some (js "2000-01-01")
  /\ date_lt (Date_parse (H := Sample.utc) (js "2000-01-01"))
       (Some (minusYears (H := Sample.utc) 10 (clock Sample.world))) = true
  /\ validateExpense (H := Sample.utc) Sample.ancient Sample.world = []
  /\ Hardened.validateExpense (H := Sample.utc) Sample.ancient Sample.world
     = [Hardened.DATE_TOO_OLD].
Proof.
  repeat split; vm_compute; reflexivity.
Qed.

(** The import codec never builds a record the schema accepts: [paidAt] is
    the 24 or 27 units of an ISO instant, never the 10 of a calendar date. *)
Lemma is_dateOnly_length (s : list N) : is_dateOnly s = true -> length s = 10%nat.
Proof.
  unfold is_dateOnly.
  repeat (match goal with
          | |- context [match ?x with _ => _ end] => is_var x; destruct x
          end; try discriminate).
  reflexivity.
Qed.

Lemma length_pad (w : nat) (n : Z) : (w <= length (pad w n))%nat.
Proof.
  unfold pad, padStart0. rewrite length_app, length_replicate. lia.
Qed.

Lemma length_toISOString (t : Z) : (24 <= length (toISOString t))%nat.
Proof.
  unfold toISOString, isoDate, isoTime.
  destruct (civil_from_days (t / msPerDay)) as [[y m] d].
  rewrite !length_app.
  pose proof (length_pad 4 y). pose proof (length_pad 6 (Z.abs y)).
  pose proof (length_pad 2 m). pose proof (length_pad 2 d).
  pose proof (length_pad 2 (t mod msPerDay / 3600000)).
  pose proof (length_pad 2 (t mod msPerDay / 60000 mod 60)).
  pose proof (length_pad 2 (t mod msPerDay / 1000 mod 60)).
  pose proof (length_pad 3 (t mod msPerDay mod 1000)).
  destruct ((0 <=? y) && (y <=? 9999)); rewrite ?length_app;
    cbn [length js fmap list_fmap list_ascii_of_string]; lia.
Qed.

Lemma is_dateOnly_toISOString (t : Z) : is_dateOnly (toISOString t) = false.
Proof.
  destruct (is_dateOnly (toISOString t)) eqn:E; [|reflexivity].
  apply is_dateOnly_length in E. pose proof (length_toISOString t). lia.
Qed.

Lemma createExpenseFromCSVRow_never_valid `{Host} (row : gmap (list N) (list N))
    (defaultCurrency : list N) (existingExpenses : list Expense.t)
    (allowDuplicates : bool) (w w' : World) (e : Expense.t) :
  createExpenseFromCSVRow row defaultCurrency existingExpenses allowDuplicates w
  = (Return (Some e), w') ->
  is_dateOnly (Expense.paidAt e) = false /\ ExpenseSchema e = false.
Proof.
  unfold createExpenseFromCSVRow.
  destruct (rowFields row) as [[date amount]|]; [|discriminate].
  destruct (negb allowDuplicates && existsb _ existingExpenses); [discriminate|].
  cbv beta iota zeta delta [bind randomUUID Date_now ret].
  intros E. injection E as <- _.
  unfold ExpenseSchema. cbn [Expense.paidAt]. rewrite is_dateOnly_toISOString.
  rewrite !andb_false_r. split; reflexivity.
Qed.


(** ** The expense store: reading, writing, adding, deleting *)

Lemma saveExpenses_unfold (expenses : list Expense.t) (w : World) :
  saveExpenses expenses w
  = let '(ok, w1) := checkRateLimit (js "saveExpenses") 50 60000 w in
    if ok then
      if validateExpenseData expenses then
        if ls_quotaExceeded w1 then (Throw EXPENSES_NOT_SAVED, w1)
        else (Return tt, put_expenses expenses w1)
      else (Throw INVALID_EXPENSE_DATA, w1)
    else (Throw TOO_MANY_SAVES, w1).
Proof.
  cbv beta iota zeta delta [saveExpenses bind rateLimited secureLocalStorageSet
                            throw ret].
  destruct (checkRateLimit (js "saveExpenses") 50 60000 w) as [[|] w1]; cbn [negb];
    [|reflexivity].
  destruct (validateExpenseData expenses); cbn [negb]; [|reflexivity].
  destruct (ls_quotaExceeded w1); reflexivity.
Qed.

Lemma getExpenses_passes_schema (w : World) :
  validateExpenseData (getExpenses w) = true.
Proof.
  unfold getExpenses. destruct (ls_expenses w) as [| |stored]; try reflexivity.
  destruct (validateExpenseData stored) eqn:E; [exact E | reflexivity].
Qed.

(** What [getExpenses] returns always passes the schema: it is the stored
    collection when that passes the schema, and the empty collection when
    the stored one fails it or when nothing readable is stored; it is never
    a part of the stored collection. *)
Lemma getExpenses_degrades (w : World) :
  validateExpenseData (getExpenses w) = true
  /\ (forall stored, ls_expenses w = Stored stored ->
        validateExpenseData stored = true -> getExpenses w = stored)
  /\ (forall stored, ls_expenses w = Stored stored ->
        validateExpenseData stored = false -> getExpenses w = [])
  /\ (ls_expenses w = Missing \/ ls_expenses w = Corrupt -> getExpenses w = []).
Proof.
  split; [apply getExpenses_passes_schema|].
  unfold getExpenses. split; [|split].
  - intros stored -> ->. reflexivity.
  - intros stored -> ->. reflexivity.
  - intros [-> | ->]; reflexivity.
Qed.

Lemma saveExpenses_returns (expenses : list Expense.t) (w w' : World) :
  saveExpenses expenses w = (Return tt, w') ->
  getExpenses w' = expenses
  /\ ls_budgets w' = ls_budgets w /\ ls_settings w' = ls_settings w.
Proof.
  rewrite saveExpenses_unfold.
  pose proof (checkRateLimit_persisted (js "saveExpenses") 50 60000 w) as Hp.
  destruct (checkRateLimit (js "saveExpenses") 50 60000 w) as [[|] w1]; [|discriminate].
  destruct (validateExpenseData expenses) eqn:Hv; [|discriminate].
  destruct (ls_quotaExceeded w1); [discriminate|].
  intros E. injection E as <-. cbn [snd] in Hp. unfold persisted in Hp.
  injection Hp as _ Hb Hs.
  unfold getExpenses. cbn [put_expenses ls_expenses ls_budgets ls_settings].
  rewrite Hv. repeat split; assumption.
Qed.

Lemma saveExpenses_stored (expenses : list Expense.t) (w w' : World) :
  saveExpenses expenses w = (Return tt, w') -> ls_expenses w' = Stored expenses.
Proof.
  rewrite saveExpenses_unfold.
  destruct (checkRateLimit (js "saveExpenses") 50 60000 w) as [[|] w1]; [|discriminate].
  destruct (validateExpenseData expenses); [|discriminate].
  destruct (ls_quotaExceeded w1); [discriminate|].
  intros E. injection E as <-. reflexivity.
Qed.

(** A collection that [saveExpenses] accepts passes the schema and is the
    collection read back, and the other persisted collections are as
    before. *)
Lemma saveExpenses_then_getExpenses (expenses : list Expense.t) (w w' : World) :
  saveExpenses expenses w = (Return tt, w') ->
  validateExpenseData expenses = true
  /\ getExpenses w' = expenses
  /\ ls_budgets w' = ls_budgets w /\ ls_settings w' = ls_settings w.
Proof.
  intros Hsave. split; [|exact (saveExpenses_returns expenses w w' Hsave)].
  apply saveExpenses_returns in Hsave. destruct Hsave as (<- & _).
  apply getExpenses_passes_schema.
Qed.

Lemma saveExpenses_then_getExpenses_witness :
  validateExpenseData [Sample.lunch] = true
  /\ getExpenses (snd (saveExpenses [Sample.lunch] Sample.world)) = [Sample.lunch]
  /\ ls_budgets (snd (saveExpenses [Sample.lunch] Sample.world))
     = ls_budgets Sample.world
  /\ ls_settings (snd (saveExpenses [Sample.lunch] Sample.world))
     = ls_settings Sample.world.
Proof.
  apply (saveExpenses_then_getExpenses [Sample.lunch] Sample.world).
  vm_compute. reflexivity.
Defined.

(** A successful [addExpense] stores, as the whole collection, what
    [getExpenses] read before the call (the stored collection when it
    passes the schema, the empty one otherwise) followed by exactly the
    record it returns: a UUID as id, the category and the free texts
    sanitised, the other fields as given, and one instant for [createdAt]
    and [updatedAt]. *)
Lemma addExpense_appends (expense : NewExpense.t) (w w' : World) (added : Expense.t) :
  addExpense expense w = (Return added, w') ->
  ls_expenses w' = Stored (getExpenses w ++ [added])
  /\ getExpenses w' = getExpenses w ++ [added]
  /\ is_uuid (Expense.id added) = true
  /\ Expense.amountCents added = NewExpense.amountCents expense
  /\ Expense.currency added = NewExpense.currency expense
  /\ Expense.paidAt added = NewExpense.paidAt expense
  /\ Expense.category added = Some (sanitizeCategory (NewExpense.category expense))
  /\ Expense.note added
     = (if truthy_opt (NewExpense.note expense)
        then (fun n => sanitizeText n 500) <$> NewExpense.note expense else None)
  /\ Expense.paymentMethod added
     = (if truthy_opt (NewExpense.paymentMethod expense)
        then (fun n => sanitizeText n 50) <$> NewExpense.paymentMethod expense
        else None)
  /\ Expense.createdAt added = Expense.updatedAt added.
Proof.
  cbv beta iota zeta delta [addExpense bind rateLimited gets Date_now randomUUID
                            throw ret].
  destruct (checkRateLimit (js "addExpense") 100 60000 w) as [[|] w1] eqn:Hc;
    cbn [negb]; [|discriminate].
  assert (Hg : getExpenses w1 = getExpenses w).
  { pose proof (checkRateLimit_persisted (js "addExpense") 100 60000 w) as Hp.
    rewrite Hc in Hp. cbn [snd] in Hp. unfold persisted in Hp.
    injection Hp as He _ _. unfold getExpenses. rewrite He. reflexivity. }
  match goal with
  | |- context [saveExpenses ?l ?w2] => destruct (saveExpenses l w2) as [[[]|msg] w3] eqn:Hsave
  end; [|discriminate].
  intros E. injection E as <- <-.
  pose proof (saveExpenses_stored _ _ _ Hsave) as Hstored.
  apply saveExpenses_returns in Hsave. destruct Hsave as (Hget & _ & _).
  rewrite Hstored, Hget, Hg. cbn [Expense.id Expense.amountCents Expense.currency
    Expense.paidAt Expense.category Expense.note Expense.paymentMethod
    Expense.createdAt Expense.updatedAt].
  repeat split; try reflexivity. apply formatUUID_is_uuid.
Qed.

(** The sample store with its first record spoilt is read as empty, so the
    add leaves the new record alone in the store. *)
Lemma addExpense_appends_witness :
  exists added w',
    let expense :=
      NewExpense.mk 1599 (js "EUR") (js " <Food> ") (Some (js "a  & b"))
        (js "2024-03-15") None in
    let w := put_expenses [Sample.free; Sample.lunch] Sample.world in
    addExpense expense w = (Return added, w')
    /\ getExpenses w = []
    /\ ls_expenses w' = Stored (getExpenses w ++ [added])
    /\ getExpenses w' = getExpenses w ++ [added]
    /\ is_uuid (Expense.id added) = true
    /\ Expense.amountCents added = NewExpense.amountCents expense
    /\ Expense.currency added = NewExpense.currency expense
    /\ Expense.paidAt added = NewExpense.paidAt expense
    /\ Expense.category added = Some (sanitizeCategory (NewExpense.category expense))
    /\ Expense.note added
       = (if truthy_opt (NewExpense.note expense)
          then (fun n => sanitizeText n 500) <$> NewExpense.note expense else None)
    /\ Expense.paymentMethod added
       = (if truthy_opt (NewExpense.paymentMethod expense)
          then (fun n => sanitizeText n 50) <$> NewExpense.paymentMethod expense
          else None)
    /\ Expense.createdAt added = Expense.updatedAt added.
Proof.
  destruct (addExpense
              (NewExpense.mk 1599 (js "EUR") (js " <Food> ") (Some (js "a  & b"))
                 (js "2024-03-15") None)
              (put_expenses [Sample.free; Sample.lunch] Sample.world))
    as [[added|msg] w'] eqn:H.
  - exists added, w'. cbv zeta. split; [exact H|]. split; [vm_compute; reflexivity|].
    exact (addExpense_appends _ _ w' added H).
  - vm_compute in H. discriminate.
Defined.


(** ** The window of the rate limiter *)

Lemma checkRateLimit_counts (operation : list N) (maxOps windowMs : Z) (w : World)
    (entry : RateEntry) :
  operationCounts w !! operation = Some entry ->
  clock w <= resetTime entry -> count entry < maxOps ->
  checkRateLimit operation maxOps windowMs w
  = (true, set_operationCounts w
             (<[operation := {| count := count entry + 1;
                                resetTime := resetTime entry |}]>
                (operationCounts w))).
Proof.
  intros L Hclock Hcount. unfold checkRateLimit. rewrite L.
  destruct (clock w >? resetTime entry) eqn:E1; [lia|].
  destruct (count entry >=? maxOps) eqn:E2; [lia | reflexivity].
Qed.

(** With [left] calls still allowed in the open window, the next [left]
    calls are admitted and the one after is denied. *)
Lemma repeatCheck_open_window (left : nat) (operation : list N)
    (maxOps windowMs : Z) (w : World) (entry : RateEntry) :
  operationCounts w !! operation = Some entry ->
  clock w <= resetTime entry -> count entry + Z.of_nat left = maxOps ->
  fst (repeatCheck (left + 1) operation maxOps windowMs w)
  = replicate left true ++ [false].
Proof.
  revert w entry. induction left as [|left IH]; intros w entry L Hclock Hcount.
  - cbn [Nat.add repeatCheck].
    rewrite (checkRateLimit_exceeded operation maxOps windowMs w); [reflexivity|].
    exists entry. repeat split; [exact L | exact Hclock | lia].
  - cbn [Nat.add repeatCheck].
    rewrite (checkRateLimit_counts operation maxOps windowMs w entry L Hclock); [|lia].
    match goal with
    | |- context [repeatCheck _ _ _ _ ?w1] =>
        specialize (IH w1 {| count := count entry + 1; resetTime := resetTime entry |})
    end.
    destruct (repeatCheck (left + 1) operation maxOps windowMs _) as [rest w2].
    cbn [fst] in *. rewrite IH; [reflexivity | | exact Hclock | cbn [count]; lia].
    cbn [set_operationCounts operationCounts]. apply lookup_insert_eq.
Qed.

(** Scenario 5 of the specification: from a kind with no window yet, and
    within one window, the first [maxOps] calls are admitted and call
    [maxOps + 1] is denied. *)
Lemma checkRateLimit_denies_after_maxOps (operation : list N) (maxOps windowMs : Z)
    (w : World) :
  operationCounts w !! operation = None -> 1 <= maxOps -> 0 <= windowMs ->
  fst (repeatCheck (Z.to_nat maxOps + 1) operation maxOps windowMs w)
  = replicate (Z.to_nat maxOps) true ++ [false].
Proof.
  intros L Hmax Hwin.
  replace (Z.to_nat maxOps) with (S (Z.to_nat (maxOps - 1))) by lia.
  cbn [Nat.add repeatCheck replicate app].
  unfold checkRateLimit at 1. rewrite L.
  match goal with
  | |- context [repeatCheck _ _ _ _ ?w1] =>
      pose proof (repeatCheck_open_window (Z.to_nat (maxOps - 1)) operation maxOps
                    windowMs w1 {| count := 1; resetTime := clock w + windowMs |}) as Hrest
  end.
  destruct (repeatCheck (Z.to_nat (maxOps - 1) + 1) operation maxOps windowMs _)
    as [rest w2].
  cbn [fst] in *. rewrite Hrest; [reflexivity | | cbn; lia | cbn [count]; lia].
  cbn [set_operationCounts operationCounts]. apply lookup_insert_eq.
Qed.

Lemma checkRateLimit_denies_after_maxOps_witness :
  fst (repeatCheck (Z.to_nat 3 + 1) (js "addExpense") 3 60000 Sample.world)
  = replicate (Z.to_nat 3) true ++ [false].
Proof.
  apply (checkRateLimit_denies_after_maxOps (js "addExpense") 3 60000 Sample.world).
  - vm_compute. reflexivity.
  - lia.
  - lia.
Defined.


(** ** Deleting an expense *)




(** ** Scenario 1 of the specification *)

(** Adding 15.99 for Food on 15 March 2024 to a store never written to
    stores one record with that amount and a fresh id; at UTC it is the
    expense of March 2024 and April 2024 has none. *)
Lemma add_to_blank_store :
  exists added w',
    addExpense (NewExpense.mk 1599 (js "EUR") (js "Food") None (js "2024-03-15") None)
      Sample.blank = (Return added, w')
    /\ getExpenses w' = [added]
    /\ Expense.amountCents added = 1599
    /\ Expense.id added = js "00000000-0000-4000-8000-000000000063"
    /\ getExpensesForMonth (H := Sample.utc) (getExpenses w') (js "2024-03")
       = Return [added]
    /\ getExpensesForMonth (H := Sample.utc) (getExpenses w') (js "2024-04")
       = Return [].
Proof.
  eexists. eexists. split; [vm_compute; reflexivity|].
  repeat split; vm_compute; reflexivity.
Qed.


(** ** The range of a month *)

Lemma isDigit_digit (n : N) : isDigit (48 + n mod 10) = true.
Proof.
  unfold isDigit.
  assert (Hd : (n mod 10 < 10)%N) by (apply N.mod_lt; discriminate).
  generalize dependent (n mod 10)%N. intros d Hd.
  replace (48 <=? 48 + d)%N with true by (symmetry; apply N.leb_le; lia).
  replace (48 + d <=? 57)%N with true by (symmetry; apply N.leb_le; lia).
  reflexivity.
Qed.

Lemma digits_fuel_digits (fuel : nat) (n : N) (acc : list N) :
  Forall (fun c => isDigit c = true) acc ->
  Forall (fun c => isDigit c = true) (digits_fuel fuel n acc).
Proof.
  revert n acc. induction fuel as [|fuel IH]; intros n acc Hacc; [exact Hacc|].
  cbn [digits_fuel].
  assert (Hacc' : Forall (fun c => isDigit c = true) ((48 + n mod 10)%N :: acc))
    by (constructor; [apply isDigit_digit | exact Hacc]).
  destruct (n / 10 =? 0)%N; [exact Hacc' | apply IH; exact Hacc'].
Qed.

Lemma pad_digits (w : nat) (n : Z) : Forall (fun c => isDigit c = true) (pad w n).
Proof.
  unfold pad, padStart0. apply Forall_app. split.
  - apply Forall_replicate. reflexivity.
  - apply digits_fuel_digits. constructor.
Qed.

Lemma Forall_not_T (s : list N) :
  Forall (fun c => isDigit c = true \/ c = 45%N \/ c = 43%N) s ->
  Forall (fun c => (c =? 84)%N = false) s.
Proof.
  intros H. eapply Forall_impl; [exact H|].
  intros c [Hd|[->| ->]]; [|reflexivity|reflexivity].
  unfold isDigit in Hd. apply andb_true_iff in Hd. destruct Hd as [_ Hhi].
  apply N.leb_le in Hhi. apply N.eqb_neq. lia.
Qed.

Lemma isoDate_chars (day : Z) :
  Forall (fun c => isDigit c = true \/ c = 45%N \/ c = 43%N) (isoDate day).
Proof.
  assert (Hpad : forall w n, Forall (fun c => isDigit c = true \/ c = 45%N \/ c = 43%N)
                               (pad w n)).
  { intros w n. eapply Forall_impl; [apply pad_digits|]. intros c Hc. left. exact Hc. }
  assert (Hdash : Forall (fun c => isDigit c = true \/ c = 45%N \/ c = 43%N) (js "-"))
    by (constructor; [right; left; reflexivity | constructor]).
  assert (Hplus : Forall (fun c => isDigit c = true \/ c = 45%N \/ c = 43%N) (js "+"))
    by (constructor; [right; right; reflexivity | constructor]).
  unfold isoDate. destruct (civil_from_days day) as [[y m] d].
  apply Forall_app. split;
    [|repeat first [apply Hpad | exact Hdash | apply Forall_app; split]].
  destruct ((0 <=? y) && (y <=? 9999)); [apply Hpad|].
  apply Forall_app. split; [|apply Hpad].
  destruct (y <? 0); assumption.
Qed.

Lemma hd_split (sep : N) (a b : list N) :
  Forall (fun c => (c =? sep)%N = false) a ->
  hd [] (split sep (a ++ sep :: b)) = a.
Proof.
  induction 1 as [|c a Hc _ IH]; cbn [app split].
  - rewrite N.eqb_refl. reflexivity.
  - rewrite Hc. destruct (split sep (a ++ sep :: b)) as [|h t]; cbn [hd] in *.
    + rewrite <- IH. reflexivity.
    + rewrite IH. reflexivity.
Qed.

(** The day that [toISOString().split('T')[0]] names is the UTC day of
    the instant. *)
Lemma isoDay_Some (t : Z) : isoDay (Some t) = Return (isoDate (t / msPerDay)).
Proof.
  unfold isoDay, toISOString. f_equal.
  change (js "T" ++ isoTime (t mod msPerDay)) with (84%N :: isoTime (t mod msPerDay)).
  apply hd_split. apply Forall_not_T. apply isoDate_chars.
Qed.

Lemma year_of_era_shift (y' k : Z) :
  (y' + 400 * k) / 400 = y' / 400 + k.
Proof. replace (y' + 400 * k) with (y' + k * 400) by lia. apply Z.div_add. lia. Qed.

Lemma days_from_civil_era (y m d k : Z) :
  days_from_civil (y + 400 * k) m d = days_from_civil y m d + 146097 * k.
Proof.
  unfold days_from_civil.
  assert (E : (if m <=? 2 then y + 400 * k - 1 else y + 400 * k)
              = (if m <=? 2 then y - 1 else y) + 400 * k)
    by (destruct (m <=? 2); lia).
  rewrite E. generalize (if m <=? 2 then y - 1 else y). intros y'.
  cbv zeta. rewrite year_of_era_shift.
  replace (y' + 400 * k - (y' / 400 + k) * 400) with (y' - y' / 400 * 400) by lia.
  lia.
Qed.

Lemma civil_from_days_era (z k : Z) :
  civil_from_days (z + 146097 * k)
  = let '(y, m, d) := civil_from_days z in (y + 400 * k, m, d).
Proof.
  unfold civil_from_days. cbv zeta.
  replace (z + 146097 * k + 719468) with (z + 719468 + k * 146097) by lia.
  rewrite Z.div_add by lia.
  replace (z + 719468 + k * 146097 - ((z + 719468) / 146097 + k) * 146097)
    with (z + 719468 - (z + 719468) / 146097 * 146097) by lia.
  generalize (z + 719468 - (z + 719468) / 146097 * 146097). intros doe.
  match goal with |- context [if ?c then _ else _] => destruct c end; f_equal; f_equal; lia.
Qed.

Lemma isLeapYear_era (y k : Z) : isLeapYear (y + 400 * k) = isLeapYear y.
Proof.
  unfold isLeapYear.
  replace ((y + 400 * k) mod 4) with (y mod 4)
    by (replace (y + 400 * k) with (y + (100 * k) * 4) by lia; symmetry; apply Z_mod_plus_full).
  replace ((y + 400 * k) mod 100) with (y mod 100)
    by (replace (y + 400 * k) with (y + (4 * k) * 100) by lia; symmetry; apply Z_mod_plus_full).
  replace ((y + 400 * k) mod 400) with (y mod 400)
    by (replace (y + 400 * k) with (y + k * 400) by lia; symmetry; apply Z_mod_plus_full).
  reflexivity.
Qed.

Lemma daysInMonth_era (y m k : Z) : daysInMonth (y + 400 * k) m = daysInMonth y m.
Proof. unfold daysInMonth. rewrite isLeapYear_era. reflexivity. Qed.

Lemma MakeDay_era (y mi d k : Z) :
  MakeDay (y + 400 * k) mi d = MakeDay y mi d + 146097 * k.
Proof.
  unfold MakeDay.
  replace (y + 400 * k + mi / 12) with (y + mi / 12 + 400 * k) by lia.
  rewrite days_from_civil_era. lia.
Qed.

Lemma In_zrange (lo len x : Z) :
  lo <= x < lo + len -> In x (zrange lo len).
Proof.
  intros Hx. unfold zrange. apply in_map_iff. exists (Z.to_nat (x - lo)).
  split; [lia|]. apply in_seq. lia.
Qed.

Lemma civilOk_cycle :
  forallb (fun y => forallb (civilOk y) (zrange 1 12)) (zrange 0 400) = true.
Proof. vm_compute. reflexivity. Qed.

Lemma civilOk_mod (y m : Z) : 1 <= m <= 12 -> civilOk (y mod 400) m = true.
Proof.
  intros Hm.
  refine (proj1 (forallb_forall (civilOk (y mod 400)) (zrange 1 12)) _ m _).
    - refine (proj1 (forallb_forall (fun y => forallb (civilOk y) (zrange 1 12))
                       (zrange 0 400)) civilOk_cycle (y mod 400) _).
      apply In_zrange. pose proof (Z.mod_pos_bound y 400). lia.
    - apply In_zrange. lia.
Qed.

Lemma civilOk_facts (y m : Z) : civilOk y m = true -> civilFacts y m.
Proof.
  unfold civilOk, civilFacts. intros H.
  apply andb_prop in H. destruct H as [H H4].
  apply andb_prop in H. destruct H as [H H3].
  apply andb_prop in H. destruct H as [H1 H2].
  apply bool_decide_eq_true_1 in H1, H2, H3, H4. auto.
Qed.

Lemma civilFacts_era (y0 m k : Z) : civilFacts y0 m -> civilFacts (y0 + 400 * k) m.
Proof.
  unfold civilFacts. intros (H1 & H2 & H3 & H4).
  rewrite !MakeDay_era, !daysInMonth_era.
  replace (MakeDay y0 m 0 + 146097 * k - 1) with (MakeDay y0 m 0 - 1 + 146097 * k) by lia.
  replace (MakeDay y0 (m - 1) 1 + 146097 * k - 1)
    with (MakeDay y0 (m - 1) 1 - 1 + 146097 * k) by lia.
  rewrite !civil_from_days_era, H1, H2, H3, H4.
  repeat split; destruct (m =? 1); f_equal; f_equal; lia.
Qed.

Lemma civilFacts_all (y m : Z) : 1 <= m <= 12 -> civilFacts y m.
Proof.
  intros Hm.
  replace y with (y mod 400 + 400 * (y / 400)) by (pose proof (Z.div_mod y 400); lia).
  apply civilFacts_era, civilOk_facts, civilOk_mod. exact Hm.
Qed.

Lemma MakeDay_bound (y mi d : Z) :
  0 <= y <= 9999 -> 0 <= mi <= 12 -> 0 <= d <= 1 ->
  Z.abs (MakeDay y mi d) <= 99999999.
Proof.
  intros Hy Hmi Hd. unfold MakeDay, days_from_civil.
  destruct (mi mod 12 + 1 <=? 2); destruct (mi mod 12 + 1 >? 2);
    Z.div_mod_to_equations; lia.
Qed.

Lemma isDigit_not_space (c : N) : isDigit c = true -> isWhiteSpace c = false.
Proof.
  unfold isDigit. rewrite andb_true_iff, !N.leb_le. intros [Hlo Hhi].
  destruct (isWhiteSpace c) eqn:E; [|reflexivity].
  unfold isWhiteSpace in E.
  rewrite ?orb_true_iff, ?andb_true_iff, ?N.eqb_eq, ?N.leb_le in E. lia.
Qed.

Lemma trimStart_digits (s : list N) :
  Forall (fun c => isDigit c = true) s -> trimStart s = s.
Proof.
  destruct 1 as [|c s Hc _]; [reflexivity|].
  cbn [trimStart]. rewrite (isDigit_not_space c Hc). reflexivity.
Qed.

Lemma trim_digits (s : list N) :
  Forall (fun c => isDigit c = true) s -> trim s = s.
Proof.
  intros Hs. unfold trim, trimEnd. rewrite (trimStart_digits s Hs).
  rewrite trimStart_digits; [apply rev_involutive|].
  apply Forall_rev. exact Hs.
Qed.

Lemma isDigit_not_dash (c : N) : isDigit c = true -> (c =? 45)%N = false.
Proof.
  unfold isDigit. rewrite andb_true_iff, !N.leb_le. intros [Hlo Hhi].
  apply N.eqb_neq. lia.
Qed.

Lemma split_no_dash (s : list N) :
  Forall (fun c => isDigit c = true) s -> split 45 s = [s].
Proof.
  induction 1 as [|c s Hc _ IH]; [reflexivity|].
  cbn [split]. rewrite (isDigit_not_dash c Hc), IH. reflexivity.
Qed.

Lemma split_monthKey (a b : list N) :
  Forall (fun c => isDigit c = true) a -> Forall (fun c => isDigit c = true) b ->
  split 45 (a ++ 45%N :: b) = [a; b].
Proof.
  intros Ha Hb. induction Ha as [|c a Hc _ IH]; cbn [app split].
  - rewrite (split_no_dash b Hb). reflexivity.
  - rewrite (isDigit_not_dash c Hc), IH. reflexivity.
Qed.

(** A padded number is read back by [Number]: the value of the digits of a
    number is the number, and the zeros in front add nothing. *)

Lemma digitsValue_app (a : Z) (x y : list N) :
  digitsValue a (x ++ y)
  = match digitsValue a x with Some v => digitsValue v y | None => None end.
Proof.
  revert a. induction x as [|c x IH]; intros a; [reflexivity|].
  cbn [app digitsValue]. destruct (isDigit c); [apply IH | reflexivity].
Qed.

Lemma digits_fuel_value (fuel : nat) (n : N) (acc : list N) :
  (n < 10 ^ N.of_nat (S fuel))%N ->
  exists ds, digits_fuel (S fuel) n acc = ds ++ acc
             /\ ds <> []
             /\ Forall (fun c => isDigit c = true) ds
             /\ forall a, digitsValue a ds
                          = Some (a * 10 ^ Z.of_nat (length ds) + Z.of_N n).
Proof.
  revert n acc. induction fuel as [|fuel IH]; intros n acc Hn.
  - assert (Hq : (n / 10 = 0)%N) by (apply N.div_small; exact Hn).
    cbn [digits_fuel]. rewrite Hq. cbn [N.eqb].
    exists [(48 + n mod 10)%N]. split; [reflexivity|]. split; [discriminate|].
    split; [constructor; [apply isDigit_digit | constructor]|].
    intros a. cbn [digitsValue]. rewrite isDigit_digit. f_equal.
    rewrite N.mod_small by exact Hn. cbn [length]. lia.
  - cbn [digits_fuel]. destruct (n / 10 =? 0)%N eqn:E.
    + apply N.eqb_eq in E.
      exists [(48 + n mod 10)%N]. split; [reflexivity|]. split; [discriminate|].
      split; [constructor; [apply isDigit_digit | constructor]|].
      intros a. cbn [digitsValue]. rewrite isDigit_digit. f_equal.
      pose proof (N.div_mod' n 10) as Hdm. rewrite E in Hdm. cbn [length]. lia.
    + assert (Hlt : (n / 10 < 10 ^ N.of_nat (S fuel))%N).
      { apply N.Div0.div_lt_upper_bound.
        replace (N.of_nat (S (S fuel))) with (N.succ (N.of_nat (S fuel))) in Hn by lia.
        rewrite N.pow_succ_r' in Hn. exact Hn. }
      destruct (IH (n / 10)%N ((48 + n mod 10)%N :: acc) Hlt) as (ds & Hds & Hne & HF & Hv).
      exists (ds ++ [(48 + n mod 10)%N]).
      split; [change (digits_fuel (S fuel) (n / 10) ((48 + n mod 10)%N :: acc)
                      = (ds ++ [(48 + n mod 10)%N]) ++ acc);
              rewrite Hds, <- app_assoc; reflexivity|].
      split; [destruct ds; discriminate|].
      split; [apply Forall_app; split; [exact HF | constructor; [apply isDigit_digit | constructor]]|].
      intros a. rewrite digitsValue_app, Hv. cbn [digitsValue].
      rewrite isDigit_digit. f_equal. rewrite length_app. cbn [length].
      replace (Z.of_nat (length ds + 1)) with (Z.succ (Z.of_nat (length ds))) by lia.
      rewrite Z.pow_succ_r by lia.
      pose proof (N.div_mod' n 10) as Hdm.
      assert (Hm : (n mod 10 < 10)%N) by (apply N.mod_lt; discriminate).
      lia.
Qed.

Lemma ofN_value (n : N) :
  ofN n <> []
  /\ Forall (fun c => isDigit c = true) (ofN n)
  /\ forall a, digitsValue a (ofN n)
               = Some (a * 10 ^ Z.of_nat (length (ofN n)) + Z.of_N n).
Proof.
  unfold ofN.
  assert (Hn : (n < 10 ^ N.of_nat (S (N.to_nat (N.log2 n))))%N).
  { destruct (N.eq_dec n 0%N) as [->|Hpos]; [reflexivity|].
    assert (H2 : (n < 2 ^ N.succ (N.log2 n))%N) by (apply N.log2_spec; lia).
    replace (N.of_nat (S (N.to_nat (N.log2 n)))) with (N.succ (N.log2 n)) by lia.
    eapply N.lt_le_trans; [exact H2|].
    apply N.pow_le_mono_l. lia. }
  destruct (digits_fuel_value (N.to_nat (N.log2 n)) n [] Hn) as (ds & Hds & Hne & HF & Hv).
  rewrite Hds, app_nil_r. auto.
Qed.

Lemma digitsValue_zeros (k : nat) (s : list N) :
  digitsValue 0 (replicate k 48%N ++ s) = digitsValue 0 s.
Proof.
  induction k as [|k IH]; [reflexivity|].
  cbn [replicate app digitsValue]. exact IH.
Qed.

Lemma padOk_nonneg (w : nat) (n : Z) : 0 <= n -> padOk w n = true.
Proof.
  intros Hn. unfold padOk, pad, padStart0. apply bool_decide_eq_true_2.
  rewrite digitsValue_zeros.
  destruct (ofN_value (Z.to_N n)) as (_ & _ & Hv). rewrite Hv. f_equal. lia.
Qed.

Lemma zrange_nonneg (lo len y : Z) : In y (zrange lo len) -> lo <= y.
Proof.
  unfold zrange. intros Hy. apply in_map_iff in Hy as (k & <- & _). lia.
Qed.

Lemma padOk_years : forallb (padOk 4) (zrange 0 10000) = true.
Proof.
  apply forallb_forall. intros y Hy. apply padOk_nonneg.
  exact (zrange_nonneg 0 10000 y Hy).
Qed.

Lemma padOk_months : forallb (padOk 2) (zrange 0 100) = true.
Proof.
  apply forallb_forall. intros m Hm. apply padOk_nonneg.
  exact (zrange_nonneg 0 100 m Hm).
Qed.

Lemma Number_pad4 (y : Z) : 0 <= y <= 9999 -> Number_ (pad 4 y) = Some y.
Proof.
  intros Hy. unfold Number_. rewrite (trim_digits _ (pad_digits 4 y)).
  assert (Hok : padOk 4 y = true).
  { refine (proj1 (forallb_forall (padOk 4) (zrange 0 10000)) padOk_years y _).
    apply In_zrange. lia. }
  exact (bool_decide_eq_true_1 _ Hok).
Qed.

Lemma Number_pad2 (m : Z) : 0 <= m <= 99 -> Number_ (pad 2 m) = Some m.
Proof.
  intros Hm. unfold Number_. rewrite (trim_digits _ (pad_digits 2 m)).
  assert (Hok : padOk 2 m = true).
  { refine (proj1 (forallb_forall (padOk 2) (zrange 0 100)) padOk_months m _).
    apply In_zrange. lia. }
  exact (bool_decide_eq_true_1 _ Hok).
Qed.

Lemma monthKey_parts (y m : Z) :
  0 <= y <= 9999 -> 0 <= m <= 99 ->
  Number_ <$> split 45 (monthKey y m) = [Some y; Some m].
Proof.
  intros Hy Hm. unfold monthKey. change (js "-" ++ pad 2 m) with (45%N :: pad 2 m).
  rewrite (split_monthKey _ _ (pad_digits 4 y) (pad_digits 2 m)).
  cbn [fmap list_fmap]. rewrite (Number_pad4 y Hy), (Number_pad2 m Hm). reflexivity.
Qed.

Lemma day_of_instant (D r : Z) :
  0 <= r < msPerDay -> (D * msPerDay + r) / msPerDay = D.
Proof.
  intros Hr. unfold msPerDay in *. symmetry.
  apply (Z.div_unique_pos _ _ D r); lia.
Qed.

(** The UTC day on which a local midnight falls: the local day at UTC and
    west of it, the day before east of it. *)
Lemma isoDay_Date_local `{Host} (y mi d : Z) :
  100 <= y <= 9999 -> 0 <= mi <= 12 -> 0 <= d <= 1 ->
  -1440 < tzOffsetMinutes < 1440 ->
  isoDay (Date_local y mi d)
  = Return (isoDate (MakeDay y mi d - (if 0 <? tzOffsetMinutes then 1 else 0))).
Proof.
  intros Hy Hmi Hd Htz. unfold Date_local, TimeClip, LocalTZA.
  replace ((0 <=? y) && (y <=? 99)) with false
    by (symmetry; apply andb_false_iff; right; apply Z.leb_gt; lia).
  pose proof (MakeDay_bound y mi d ltac:(lia) Hmi Hd) as Hb.
  generalize dependent (MakeDay y mi d). intros D Hb.
  replace (Z.abs (D * msPerDay - tzOffsetMinutes * 60000) <=? 8640000000000000)
    with true by (symmetry; apply Z.leb_le; unfold msPerDay; lia).
  rewrite isoDay_Some. f_equal. f_equal.
  destruct (Z.ltb_spec 0 tzOffsetMinutes) as [Heast|Hwest].
  - replace (D * msPerDay - tzOffsetMinutes * 60000)
      with ((D - 1) * msPerDay + (msPerDay - tzOffsetMinutes * 60000))
      by (unfold msPerDay; lia).
    apply day_of_instant. unfold msPerDay. lia.
  - replace (D * msPerDay - tzOffsetMinutes * 60000)
      with ((D - 0) * msPerDay + (- tzOffsetMinutes * 60000))
      by (unfold msPerDay; lia).
    apply day_of_instant. unfold msPerDay. lia.
Qed.

Lemma getMonthRange_days `{Host} (y m : Z) :
  100 <= y <= 9999 -> 1 <= m <= 12 -> -1440 < tzOffsetMinutes < 1440 ->
  getMonthRange (monthKey y m)
  = Return (isoDate (MakeDay y (m - 1) 1 - (if 0 <? tzOffsetMinutes then 1 else 0)),
            isoDate (MakeDay y m 0 - (if 0 <? tzOffsetMinutes then 1 else 0))).
Proof.
  intros Hy Hm Htz. unfold getMonthRange.
  rewrite (monthKey_parts y m) by lia.
  cbn [lookup list_lookup mjoin option_join mbind option_bind].
  rewrite !isoDay_Date_local by lia. reflexivity.
Qed.

Lemma isoDate_civil (D y m d : Z) :
  civil_from_days D = (y, m, d) -> 0 <= y <= 9999 ->
  isoDate D = pad 4 y ++ js "-" ++ pad 2 m ++ js "-" ++ pad 2 d.
Proof.
  intros Hc Hy. unfold isoDate. rewrite Hc.
  replace ((0 <=? y) && (y <=? 9999)) with true; [reflexivity|].
  symmetry. apply andb_true_iff. split; apply Z.leb_le; lia.
Qed.

Lemma isoDate_firstDay (y m : Z) :
  0 <= y <= 9999 -> 1 <= m <= 12 -> isoDate (MakeDay y (m - 1) 1) = firstDayOf y m.
Proof.
  intros Hy Hm. destruct (civilFacts_all y m Hm) as (H1 & _).
  rewrite (isoDate_civil _ _ _ _ H1 Hy). unfold firstDayOf, monthKey.
  rewrite <- !app_assoc. reflexivity.
Qed.

Lemma isoDate_lastDay (y m : Z) :
  0 <= y <= 9999 -> 1 <= m <= 12 -> isoDate (MakeDay y m 0) = lastDayOf y m.
Proof.
  intros Hy Hm. destruct (civilFacts_all y m Hm) as (_ & H2 & _).
  rewrite (isoDate_civil _ _ _ _ H2 Hy). unfold lastDayOf, monthKey.
  rewrite <- !app_assoc. reflexivity.
Qed.

(** At UTC and west of it (less than a day), the range of a month key with
    a year from 100 to 9999 is the calendar month, whatever its length. *)
Lemma getMonthRange_west_of_utc `{Host} (y m : Z) :
  -1440 < tzOffsetMinutes <= 0 -> 100 <= y <= 9999 -> 1 <= m <= 12 ->
  getMonthRange (monthKey y m) = Return (firstDayOf y m, lastDayOf y m).
Proof.
  intros Htz Hy Hm. rewrite getMonthRange_days by lia.
  replace (0 <? tzOffsetMinutes) with false by (symmetry; apply Z.ltb_ge; lia).
  rewrite !Z.sub_0_r, isoDate_firstDay, isoDate_lastDay by lia. reflexivity.
Qed.

Lemma getMonthRange_west_of_utc_witness :
  getMonthRange (H := Sample.utc) (monthKey 2024 2)
  = Return (firstDayOf 2024 2, lastDayOf 2024 2)
  /\ lastDayOf 2024 2 = js "2024-02-29".
Proof.
  split.
  - apply (getMonthRange_west_of_utc (H := Sample.utc) 2024 2); cbn; lia.
  - vm_compute. reflexivity.
Defined.

Lemma filter_partition {A} (p : A -> bool) (l : list A) :
  Permutation (List.filter p l ++ List.filter (fun x => negb (p x)) l) l.
Proof.
  induction l as [|x l IH]; [constructor|].
  cbn [List.filter]. destruct (p x); cbn [negb app].
  - constructor. exact IH.
  - symmetry. apply Permutation_cons_app. symmetry. exact IH.
Qed.

(** At UTC and west of it, [getExpensesForMonth] returns exactly the
    expenses paid from the first to the last day of the month, in their
    order, and these and the others make up the collection. *)
Lemma getExpensesForMonth_west_of_utc `{Host} (expenses : list Expense.t) (y m : Z) :
  -1440 < tzOffsetMinutes <= 0 -> 100 <= y <= 9999 -> 1 <= m <= 12 ->
  getExpensesForMonth expenses (monthKey y m)
  = Return (List.filter (paidInMonth y m) expenses)
  /\ Permutation
       (List.filter (paidInMonth y m) expenses
        ++ List.filter (fun e => negb (paidInMonth y m e)) expenses)
       expenses.
Proof.
  intros Htz Hy Hm. split; [|apply filter_partition].
  unfold getExpensesForMonth. rewrite getMonthRange_days by lia.
  replace (0 <? tzOffsetMinutes) with false by (symmetry; apply Z.ltb_ge; lia).
  rewrite !Z.sub_0_r, isoDate_firstDay, isoDate_lastDay by lia. reflexivity.
Qed.

Lemma getExpensesForMonth_west_of_utc_witness :
  getExpensesForMonth (H := Sample.utc)
    [Sample.leapDay; Sample.coffee; Sample.lunch] (monthKey 2024 3)
  = Return (List.filter (paidInMonth 2024 3)
              [Sample.leapDay; Sample.coffee; Sample.lunch])
  /\ Permutation
       (List.filter (paidInMonth 2024 3) [Sample.leapDay; Sample.coffee; Sample.lunch]
        ++ List.filter (fun e => negb (paidInMonth 2024 3 e))
             [Sample.leapDay; Sample.coffee; Sample.lunch])
       [Sample.leapDay; Sample.coffee; Sample.lunch].
Proof.
  apply (getExpensesForMonth_west_of_utc (H := Sample.utc)); cbn; lia.
Defined.

Lemma leb_app (p a b : list N) : leb (p ++ a) (p ++ b) = leb a b.
Proof.
  induction p as [|c p IH]; [reflexivity|].
  cbn [app leb]. rewrite N.ltb_irrefl. exact IH.
Qed.

Lemma lastDay_after_eve (y m : Z) :
  leb (lastDayOf y m) (monthKey y m ++ js "-" ++ pad 2 (daysInMonth y m - 1)) = false.
Proof.
  unfold lastDayOf. rewrite leb_app. unfold daysInMonth.
  destruct (m =? 2); [destruct (isLeapYear y); reflexivity|].
  destruct ((m =? 4) || (m =? 6) || (m =? 9) || (m =? 11)); reflexivity.
Qed.

(** East of UTC (less than a day), both ends of the range fall a day
    early, for every month key with a year from 100 to 9999: the range ends
    on the eve of the last day of the month, and an expense paid on the last
    day is never among the expenses of its month. *)
Lemma getExpensesForMonth_east_of_utc `{Host} (e : Expense.t) (y m : Z) :
  0 < tzOffsetMinutes < 1440 -> 100 <= y <= 9999 -> 1 <= m <= 12 ->
  Expense.paidAt e = lastDayOf y m ->
  getMonthRange (monthKey y m)
  = Return (isoDate (MakeDay y (m - 1) 1 - 1),
            monthKey y m ++ js "-" ++ pad 2 (daysInMonth y m - 1))
  /\ getExpensesForMonth [e] (monthKey y m) = Return [].
Proof.
  intros Htz Hy Hm He.
  assert (Hr : getMonthRange (monthKey y m)
               = Return (isoDate (MakeDay y (m - 1) 1 - 1),
                         monthKey y m ++ js "-" ++ pad 2 (daysInMonth y m - 1))).
  { rewrite getMonthRange_days by lia.
    replace (0 <? tzOffsetMinutes) with true by (symmetry; apply Z.ltb_lt; lia).
    destruct (civilFacts_all y m Hm) as (_ & _ & H3 & _).
    rewrite (isoDate_civil _ _ _ _ H3) by lia. unfold monthKey.
    rewrite <- !app_assoc. reflexivity. }
  split; [exact Hr|].
  unfold getExpensesForMonth. rewrite Hr. cbn [List.filter].
  rewrite He, lastDay_after_eve, andb_false_r. reflexivity.
Qed.

Lemma getExpensesForMonth_east_of_utc_witness :
  getMonthRange (H := Sample.cet) (monthKey 2024 3)
  = Return (isoDate (MakeDay 2024 (3 - 1) 1 - 1),
            monthKey 2024 3 ++ js "-" ++ pad 2 (daysInMonth 2024 3 - 1))
  /\ getExpensesForMonth (H := Sample.cet) [Sample.lunch] (monthKey 2024 3)
     = Return [].
Proof.
  apply (getExpensesForMonth_east_of_utc (H := Sample.cet) Sample.lunch 2024 3).
  - cbn. lia.
  - lia.
  - lia.
  - vm_compute. reflexivity.
Defined.


(** ** The order and the keys of the category totals *)

Section SortFacts.
Context {A : Type} (f : A -> Z).

Lemma sortInsert_HdRel (y x : A) (l : list A) :
  f x <= f y -> HdRel (fun a b => f b <= f a) y l ->
  HdRel (fun a b => f b <= f a) y (sortInsert (fun a b => f b - f a) x l).
Proof.
  intros Hyx Hl. destruct l as [|z l]; cbn [sortInsert].
  - constructor. exact Hyx.
  - destruct (f z - f x <=? 0); constructor; [exact Hyx|].
    inversion Hl; assumption.
Qed.

Lemma sortInsert_sorted (x : A) (l : list A) :
  Sorted (fun a b => f b <= f a) l ->
  Sorted (fun a b => f b <= f a) (sortInsert (fun a b => f b - f a) x l).
Proof.
  induction 1 as [|y l Hl IH Hy]; cbn [sortInsert].
  - repeat constructor.
  - destruct (Z.leb_spec (f y - f x) 0) as [Hle|Hgt].
    + constructor; [constructor; assumption|]. constructor. lia.
    + constructor; [exact IH|]. apply sortInsert_HdRel; [lia | exact Hy].
Qed.

Lemma sort_sorted (l : list A) :
  Sorted (fun a b => f b <= f a) (sort (fun a b => f b - f a) l).
Proof.
  induction l as [|x l IH]; [constructor|]. apply sortInsert_sorted. exact IH.
Qed.

Lemma sortInsert_perm (c : A -> A -> Z) (x : A) (l : list A) :
  Permutation (sortInsert c x l) (x :: l).
Proof.
  induction l as [|y l IH]; cbn [sortInsert]; [reflexivity|].
  destruct (c x y <=? 0); [reflexivity|].
  rewrite IH. apply perm_swap.
Qed.

Lemma sort_perm (c : A -> A -> Z) (l : list A) : Permutation (sort c l) l.
Proof.
  induction l as [|x l IH]; [reflexivity|].
  unfold sort in *. cbn [foldr]. rewrite sortInsert_perm, IH. reflexivity.
Qed.
End SortFacts.

Section MapFacts.
Context {K V : Type} `{EqDecision K}.

Lemma set_keys (m : list (K * V)) (k : K) (v : V) (x : K) :
  In x (fst <$> JsMap.set m k v) -> x = k \/ In x (fst <$> m).
Proof.
  induction m as [|[k' v'] m IH]; cbn [JsMap.set].
  - intros [<-|[]]. left. reflexivity.
  - destruct (decide (k' = k)) as [->|Hne]; rewrite !fmap_cons; cbn [fst In].
    + intros [<-|Hin]; [left; reflexivity | right; right; exact Hin].
    + intros [<-|Hin]; [right; left; reflexivity|].
      destruct (IH Hin) as [->|Hin']; [left; reflexivity | right; right; exact Hin'].
Qed.

Lemma set_keys_NoDup (m : list (K * V)) (k : K) (v : V) :
  NoDup (fst <$> m) -> NoDup (fst <$> JsMap.set m k v).
Proof.
  induction m as [|[k' v'] m IH]; cbn [JsMap.set]; intros Hnd.
  - apply NoDup_singleton.
  - rewrite fmap_cons in Hnd. apply NoDup_cons in Hnd. destruct Hnd as [Hk' Hnd].
    destruct (decide (k' = k)) as [->|Hne]; rewrite fmap_cons; cbn [fst].
    + apply NoDup_cons. split; assumption.
    + apply NoDup_cons. split; [|exact (IH Hnd)].
      intros Hin. apply list_elem_of_In in Hin. apply set_keys in Hin.
      destruct Hin as [->|Hin]; [congruence|].
      apply Hk'. apply list_elem_of_In. exact Hin.
Qed.
End MapFacts.

Lemma totals_loop_keys (expenses : list Expense.t)
    (totals : list (option (list N) * (Z * Z))) :
  NoDup (fst <$> totals) ->
  NoDup (fst <$>
         foldl (fun totals expense =>
                  let '(totalCents, expenseCount) :=
                    default (0, 0) (JsMap.get totals (Expense.category expense)) in
                  JsMap.set totals (Expense.category expense)
                    (totalCents + Expense.amountCents expense, expenseCount + 1))
               totals expenses).
Proof.
  revert totals. induction expenses as [|x expenses IH]; intros totals Ht; [exact Ht|].
  cbn [foldl]. apply IH.
  destruct (default (0, 0) (JsMap.get totals (Expense.category x))) as [t c].
  apply set_keys_NoDup. exact Ht.
Qed.

(** The groups of [calculateCategoryTotals] come in descending order of
    their totals, one group per category. *)
Lemma calculateCategoryTotals_sorted_distinct (expenses : list Expense.t) :
  descending (calculateCategoryTotals expenses)
  /\ NoDup (CategoryTotal.category <$> calculateCategoryTotals expenses).
Proof.
  unfold calculateCategoryTotals, JsMap.entries, descending. split.
  - apply (sort_sorted CategoryTotal.totalCents).
  - match goal with
    | |- NoDup (_ <$> sort ?c ?l) =>
        assert (Hp : Permutation (CategoryTotal.category <$> sort c l)
                                 (CategoryTotal.category <$> l))
          by (apply fmap_Permutation, sort_perm)
    end.
    rewrite Hp. rewrite <- list_fmap_compose.
    pose proof (totals_loop_keys expenses [] ltac:(constructor)) as Hk.
    erewrite list_fmap_ext; [exact Hk|]. intros i [k [t c]] _. reflexivity.
Qed.

Lemma setBudget_preserves_uniqueStored_witness :
  uniqueStored (snd (setBudget (js "2024-03") (-1) None Sample.world))
  /\ uniqueStored (snd (setBudget (js "2024-03") 60000 None Sample.world)).
Proof.
  split; apply setBudget_preserves_uniqueStored; cbn; apply NoDup_singleton.
Defined.


(** ** The sanitisers *)

Lemma length_collapseFrom (inRun : bool) (s : list N) :
  (length (collapseFrom inRun s) <= length s)%nat.
Proof.
  revert inRun. induction s as [|c s IH]; intros inRun; [reflexivity|].
  cbn [collapseFrom]. destruct (isWhiteSpace c).
  - destruct inRun; cbn [length]; specialize (IH true); lia.
  - cbn [length]. specialize (IH false). lia.
Qed.

Lemma collapseFrom_Forall (P : N -> Prop) (inRun : bool) (s : list N) :
  P 32%N -> Forall P s -> Forall P (collapseFrom inRun s).
Proof.
  intros Hsp Hs. revert inRun. induction Hs as [|c s Hc _ IH]; intros inRun; [constructor|].
  cbn [collapseFrom]. destruct (isWhiteSpace c).
  - destruct inRun; [apply IH | constructor; [exact Hsp | apply IH]].
  - constructor; [exact Hc | apply IH].
Qed.

Lemma removeAll_Forall (cls : N -> bool) (s : list N) :
  Forall (fun c => cls c = false) (removeAll cls s).
Proof.
  unfold removeAll. induction s as [|c s IH]; [constructor|].
  cbn [List.filter]. destruct (cls c) eqn:E; cbn [negb]; [exact IH|].
  constructor; [exact E | exact IH].
Qed.

(** [sanitizeText] returns at most [maxLength] units, none of them one of
    the characters it strips. *)
Lemma sanitizeText_safe (input : list N) (maxLength : nat) :
  (length (sanitizeText input maxLength) <= maxLength)%nat
  /\ Forall (fun c => isXssChar c = false) (sanitizeText input maxLength).
Proof.
  unfold sanitizeText, collapseSpaces, slice0. split.
  - pose proof (length_collapseFrom false
                  (removeAll isXssChar (take maxLength (trim input)))) as H1.
    pose proof (filter_length_le (fun c => negb (isXssChar c))
                  (take maxLength (trim input))) as H2.
    unfold removeAll in *. rewrite length_take in H2. lia.
  - apply collapseFrom_Forall; [reflexivity | apply removeAll_Forall].
Qed.

(** [sanitizeCategory] returns at most 50 units, all of them letters,
    digits, white space, hyphens or underscores. *)
Lemma sanitizeCategory_safe (category : list N) :
  (length (sanitizeCategory category) <= 50)%nat
  /\ Forall (fun c => isCategoryChar c = true) (sanitizeCategory category).
Proof.
  unfold sanitizeCategory, collapseSpaces, slice0. split.
  - pose proof (length_collapseFrom false
                  (removeAll (fun c => negb (isCategoryChar c))
                     (take 50 (trim category)))) as H1.
    pose proof (filter_length_le (fun c => negb (negb (isCategoryChar c)))
                  (take 50 (trim category))) as H2.
    unfold removeAll in *. rewrite length_take in H2. lia.
  - apply collapseFrom_Forall; [reflexivity|].
    eapply Forall_impl; [apply removeAll_Forall|].
    intros c Hc. cbn beta in Hc. apply negb_false_iff in Hc. exact Hc.
Qed.


(** ** What an update keeps *)



(** ** Settings: what is read and what is saved *)

Lemma length_sanitizeCategory (category : list N) :
  (length (sanitizeCategory category) <= 50)%nat.
Proof.
  unfold sanitizeCategory, collapseSpaces, slice0.
  pose proof (length_collapseFrom false
                (removeAll (fun c => negb (isCategoryChar c))
                   (take 50 (trim category)))) as H1.
  pose proof (filter_length_le (fun c => negb (negb (isCategoryChar c)))
                (take 50 (trim category))) as H2.
  unfold removeAll in *. rewrite length_take in H2. lia.
Qed.

Lemma length_sanitizeText (input : list N) (maxLength : nat) :
  (length (sanitizeText input maxLength) <= maxLength)%nat.
Proof.
  unfold sanitizeText, collapseSpaces, slice0.
  pose proof (length_collapseFrom false
                (removeAll isXssChar (take maxLength (trim input)))) as H1.
  pose proof (filter_length_le (fun c => negb (isXssChar c))
                (take maxLength (trim input))) as H2.
  unfold removeAll in *. rewrite length_take in H2. lia.
Qed.

Lemma getSettings_valid (w : World) :
  validateSettingsData (getSettings w) = true
  /\ exists t, Settings.theme (getSettings w) = Some t.
Proof.
  unfold getSettings. destruct (ls_settings w) as [| |stored];
    [split; [reflexivity | eexists; reflexivity]..|].
  cbv zeta.
  destruct (validateSettingsData (overlaySettings defaultSettings stored)) eqn:E;
    [|split; [reflexivity | eexists; reflexivity]].
  split; [exact E|]. unfold overlaySettings. cbn [Settings.theme].
  destruct (SettingsPartial.theme stored); eexists; reflexivity.
Qed.


(** [saveSettings] spreads a [categories] key over the current settings
    even when its argument has none, so a call without categories (one that
    changes only the currency, say) always throws and writes nothing. *)
Lemma saveSettings_requires_categories (settings : SettingsPartial.t) (w : World) :
  SettingsPartial.categories settings = None ->
  saveSettings settings w = (Throw INVALID_SETTINGS_DATA, w).
Proof.
  intros Hc. unfold saveSettings, bind, gets. rewrite Hc.
  unfold validateSettingsData, SettingsSchema. cbn [Settings.categories fmap option_fmap option_map required].
  rewrite andb_false_r. reflexivity.
Qed.

Lemma saveSettings_requires_categories_witness :
  saveSettings (SettingsPartial.mk (Some (js "USD")) None (Some 50000) None)
    Sample.world = (Throw INVALID_SETTINGS_DATA, Sample.world).
Proof.
  apply (saveSettings_requires_categories
           (SettingsPartial.mk (Some (js "USD")) None (Some 50000) None) Sample.world).
  reflexivity.
Defined.

Lemma forallb_sanitized (cats : list (list N)) :
  forallb (fun c => truthy c && maxLen 50 c)
    (List.filter truthy (sanitizeCategory <$> cats)) = true.
Proof.
  apply forallb_forall. intros c Hin. apply filter_In in Hin as [Hin Ht].
  rewrite Ht. cbn [andb]. apply list_elem_of_In, list_elem_of_fmap in Hin as (c0 & -> & _).
  unfold maxLen. apply Nat.leb_le, length_sanitizeCategory.
Qed.

(** A call of [saveSettings] with categories, at most twenty of them left
    after sanitising, and with a currency code and a budget of the schema
    where it has them, succeeds when the store can be written; [getSettings]
    then returns the current settings with the given keys laid over them,
    the categories sanitised and the empty ones dropped. *)
Lemma saveSettings_then_getSettings (settings : SettingsPartial.t)
    (cats : list (list N)) (w : World) :
  SettingsPartial.categories settings = Some cats ->
  (length (List.filter truthy (sanitizeCategory <$> cats)) <= 20)%nat ->
  optional is_currencyCode (SettingsPartial.currency settings) = true ->
  optional (fun b => (0 <=? b) && (b <=? 100000000))
    (SettingsPartial.monthlyBudget settings) = true ->
  ls_quotaExceeded w = false ->
  exists w',
    saveSettings settings w = (Return tt, w')
    /\ getSettings w'
       = {| Settings.currency :=
              default (Settings.currency (getSettings w))
                (SettingsPartial.currency settings);
            Settings.categories :=
              Some (List.filter truthy (sanitizeCategory <$> cats));
            Settings.monthlyBudget :=
              match SettingsPartial.monthlyBudget settings with
              | Some b => Some b
              | None => Settings.monthlyBudget (getSettings w)
              end;
            Settings.theme :=
              match SettingsPartial.theme settings with
              | Some t => Some t
              | None => Settings.theme (getSettings w)
              end |}
    /\ ls_expenses w' = ls_expenses w /\ ls_budgets w' = ls_budgets w.
Proof.
  intros Hc Hlen Hcur Hbud Hq.
  destruct (getSettings_valid w) as (Hvalid & (t0 & Htheme)).
  set (updated :=
    {| Settings.currency :=
         default (Settings.currency (getSettings w)) (SettingsPartial.currency settings);
       Settings.categories := Some (List.filter truthy (sanitizeCategory <$> cats));
       Settings.monthlyBudget :=
         match SettingsPartial.monthlyBudget settings with
         | Some b => Some b
         | None => Settings.monthlyBudget (getSettings w)
         end;
       Settings.theme :=
         match SettingsPartial.theme settings with
         | Some t => Some t
         | None => Settings.theme (getSettings w)
         end |}).
  assert (Hok : validateSettingsData updated = true).
  { unfold validateSettingsData, SettingsSchema in *. subst updated.
    cbn [Settings.currency Settings.categories Settings.monthlyBudget required].
    apply andb_prop in Hvalid as [Hv1 Hv3]. apply andb_prop in Hv1 as [Hv1 Hv2].
    rewrite forallb_sanitized. cbn [andb].
    apply Nat.leb_le in Hlen. rewrite Hlen.
    destruct (SettingsPartial.currency settings) as [c|];
      unfold default; cbn [from_option optional] in *; cbv delta [id]; cbv beta.
    - rewrite Hcur. cbn [andb].
      destruct (SettingsPartial.monthlyBudget settings); [exact Hbud | exact Hv3].
    - rewrite Hv1. cbn [andb].
      destruct (SettingsPartial.monthlyBudget settings); [exact Hbud | exact Hv3]. }
  exists (put_settings (settingsJSON updated) w).
  split.
  - unfold saveSettings, bind, gets, secureLocalStorageSet, ret. rewrite Hc.
    cbn [fmap option_fmap option_map]. fold updated. rewrite Hok. cbn [negb].
    rewrite Hq. reflexivity.
  - split; [|split; reflexivity].
    unfold getSettings at 1. cbn [put_settings ls_settings].
    assert (Hov : overlaySettings defaultSettings (settingsJSON updated) = updated).
    { subst updated. unfold overlaySettings, settingsJSON.
      cbn [SettingsPartial.currency SettingsPartial.categories
           SettingsPartial.monthlyBudget SettingsPartial.theme
           Settings.currency Settings.categories Settings.monthlyBudget
           Settings.theme default from_option id].
      f_equal.
      - destruct (SettingsPartial.monthlyBudget settings) as [b|]; [reflexivity|].
        destruct (Settings.monthlyBudget (getSettings w)); reflexivity.
      - destruct (SettingsPartial.theme settings) as [t|]; [reflexivity|].
        rewrite Htheme. reflexivity. }
    cbv zeta. rewrite Hov, Hok. reflexivity.
Qed.

Lemma saveSettings_then_getSettings_witness :
  exists w',
    saveSettings
      (SettingsPartial.mk (Some (js "USD")) (Some [js " Rent! "; js "<>"; js "Food"])
         None (Some (js "dark"))) Sample.world = (Return tt, w')
    /\ getSettings w'
       = Settings.mk (js "USD") (Some [js "Rent"; js "Food"]) None (Some (js "dark"))
    /\ ls_expenses w' = ls_expenses Sample.world
    /\ ls_budgets w' = ls_budgets Sample.world.
Proof.
  exact (saveSettings_then_getSettings
           (SettingsPartial.mk (Some (js "USD"))
              (Some [js " Rent! "; js "<>"; js "Food"]) None (Some (js "dark")))
           [js " Rent! "; js "<>"; js "Food"] Sample.world
           eq_refl ltac:(vm_compute; lia) eq_refl eq_refl eq_refl).
Defined.

(** ** What the store operations leave alone *)

Lemma checkRateLimit_fields (operation : list N) (maxOps windowMs : Z) (w : World) :
  let w' := snd (checkRateLimit operation maxOps windowMs w) in
  ls_expenses w' = ls_expenses w /\ ls_budgets w' = ls_budgets w
  /\ ls_settings w' = ls_settings w /\ ls_quotaExceeded w' = ls_quotaExceeded w
  /\ clock w' = clock w /\ entropy w' = entropy w /\ drawn w' = drawn w.
Proof.
  unfold checkRateLimit.
  destruct (operationCounts w !! operation) as [cur|]; [|repeat split].
  destruct (clock w >? resetTime cur); [repeat split|].
  destruct (count cur >=? maxOps); repeat split.
Qed.

Lemma saveExpenses_writes (expenses : list Expense.t) (w : World) :
  writesOnly ls_expenses (fun w => (ls_budgets w, ls_settings w)) w
    (saveExpenses expenses w).
Proof.
  unfold writesOnly. rewrite saveExpenses_unfold.
  pose proof (checkRateLimit_fields (js "saveExpenses") 50 60000 w) as Hf.
  destruct (checkRateLimit (js "saveExpenses") 50 60000 w) as [ok w1].
  cbn [snd] in Hf. cbv zeta in Hf. destruct Hf as (He & Hb & Hs & _).
  destruct ok; [|cbn [fst snd]; rewrite He, Hb, Hs; split; reflexivity].
  destruct (validateExpenseData expenses);
    [|cbn [fst snd]; rewrite He, Hb, Hs; split; reflexivity].
  destruct (ls_quotaExceeded w1); cbn [fst snd put_expenses ls_budgets ls_settings];
    rewrite ?He, Hb, Hs; split; reflexivity.
Qed.

Lemma writesOnly_after {A} (w w1 : World) (r : Outcome A * World) :
  ls_expenses w1 = ls_expenses w -> ls_budgets w1 = ls_budgets w ->
  ls_settings w1 = ls_settings w ->
  writesOnly ls_expenses (fun w => (ls_budgets w, ls_settings w)) w1 r ->
  writesOnly ls_expenses (fun w => (ls_budgets w, ls_settings w)) w r.
Proof.
  unfold writesOnly. intros He Hb Hs [H1 H2]. rewrite H1, Hb, Hs. split; [reflexivity|].
  destruct (fst r); [exact I | rewrite H2; exact He].
Qed.

(** Each store operation changes at most its own key of [localStorage],
    and nothing at all when it throws. *)
Theorem store_operations_frame (w : World) :
  (forall expenses,
     writesOnly ls_expenses (fun w => (ls_budgets w, ls_settings w)) w
       (saveExpenses expenses w))
  /\ (forall expense,
        writesOnly ls_expenses (fun w => (ls_budgets w, ls_settings w)) w
          (addExpense expense w))
  /\ (forall id updates,
        writesOnly ls_expenses (fun w => (ls_budgets w, ls_settings w)) w
          (updateExpense id updates w))
  /\ (forall id,
        writesOnly ls_expenses (fun w => (ls_budgets w, ls_settings w)) w
          (deleteExpense id w))
  /\ (forall yearMonth limitCents category,
        writesOnly ls_budgets (fun w => (ls_expenses w, ls_settings w)) w
          (setBudget yearMonth limitCents category w))
  /\ (forall settings,
        writesOnly ls_settings (fun w => (ls_expenses w, ls_budgets w)) w
          (saveSettings settings w)).
Proof.
  split; [exact (fun expenses => saveExpenses_writes expenses w)|].
  split.
  { intros expense.
    cbv beta iota zeta delta [addExpense bind rateLimited gets Date_now randomUUID
                              throw ret].
    pose proof (checkRateLimit_fields (js "addExpense") 100 60000 w) as Hf.
    destruct (checkRateLimit (js "addExpense") 100 60000 w) as [ok w1].
    cbn [snd] in Hf. cbv zeta in Hf. destruct Hf as (He & Hb & Hs & _).
    destruct ok; cbn [negb];
      [|unfold writesOnly; cbn [fst snd]; rewrite He, Hb, Hs; split; reflexivity].
    match goal with
    | |- context [saveExpenses ?l ?w2] =>
        pose proof (saveExpenses_writes l w2) as Hsave;
        destruct (saveExpenses l w2) as [[[]|msg] w3]
    end; (eapply writesOnly_after; [| | |exact Hsave]); cbn [set_drawn ls_expenses ls_budgets ls_settings]; assumption. }
  split.
  { intros id updates.
    cbv beta iota zeta delta [updateExpense bind rateLimited gets Date_now throw ret].
    pose proof (checkRateLimit_fields (js "updateExpense") 100 60000 w) as Hf.
    destruct (checkRateLimit (js "updateExpense") 100 60000 w) as [ok w1].
    cbn [snd] in Hf. cbv zeta in Hf. destruct Hf as (He & Hb & Hs & _).
    destruct ok; cbn [negb];
      [|unfold writesOnly; cbn [fst snd]; rewrite He, Hb, Hs; split; reflexivity].
    destruct (findIndex (fun e => eqb (Expense.id e) id) (getExpenses w1)) as [index|];
      [|unfold writesOnly; cbn [fst snd]; rewrite Hb, Hs; split; [reflexivity | exact I]].
    destruct (getExpenses w1 !! index) as [existing|];
      [|unfold writesOnly; cbn [fst snd]; rewrite Hb, Hs; split; [reflexivity | exact I]].
    match goal with
    | |- context [saveExpenses ?l ?w2] =>
        pose proof (saveExpenses_writes l w2) as Hsave;
        destruct (saveExpenses l w2) as [[[]|msg] w3]
    end; (eapply writesOnly_after; [| | |exact Hsave]); assumption. }
  split.
  { intros id.
    cbv beta iota zeta delta [deleteExpense bind gets throw ret].
    destruct (length (List.filter (fun e => negb (eqb (Expense.id e) id)) (getExpenses w))
              =? length (getExpenses w))%nat;
      [unfold writesOnly; cbn [fst snd]; split; [reflexivity | exact I]|].
    match goal with
    | |- context [saveExpenses ?l ?w2] =>
        pose proof (saveExpenses_writes l w2) as Hsave;
        destruct (saveExpenses l w2) as [[[]|msg] w3]
    end; exact Hsave. }
  split.
  { intros yearMonth limitCents category. rewrite setBudget_unfold.
    unfold writesOnly.
    destruct (findIndex (sameBudgetKey yearMonth category) (getBudgets w)) as [i|];
      cbv zeta.
    - destruct (validateBudgetData _); [|split; reflexivity].
      destruct (ls_quotaExceeded w); split; reflexivity || exact I.
    - destruct (validateBudgetData _); [|split; reflexivity].
      destruct (ls_quotaExceeded w); split; reflexivity || exact I. }
  { intros settings. unfold writesOnly.
    cbv beta iota zeta delta [saveSettings bind gets secureLocalStorageSet throw ret].
    destruct (validateSettingsData _); cbn [negb]; [|split; reflexivity].
    destruct (ls_quotaExceeded w); split; reflexivity || exact I. }
Qed.

(** ** The rate limiter: a new window, and kinds apart *)

(** Once the clock has passed the end of a window, the next call of the
    kind is admitted whatever the count was, and opens a window with count
    1; a call never touches the entry of another kind. *)
Lemma checkRateLimit_new_window (operation : list N) (maxOps windowMs : Z)
    (w : World) (entry : RateEntry) :
  operationCounts w !! operation = Some entry -> resetTime entry < clock w ->
  fst (checkRateLimit operation maxOps windowMs w) = true
  /\ operationCounts (snd (checkRateLimit operation maxOps windowMs w)) !! operation
     = Some {| count := 1; resetTime := clock w + windowMs |}
  /\ (forall other, other <> operation ->
        operationCounts (snd (checkRateLimit operation maxOps windowMs w)) !! other
        = operationCounts w !! other).
Proof.
  intros L Hlate. unfold checkRateLimit. rewrite L.
  destruct (clock w >? resetTime entry) eqn:E; [|lia].
  cbn [fst snd set_operationCounts operationCounts].
  split; [reflexivity|]. split; [apply lookup_insert_eq|].
  intros other Hne. apply lookup_insert_ne. congruence.
Qed.

Lemma checkRateLimit_new_window_witness :
  fst (checkRateLimit (js "addExpense") 100 60000
         (set_operationCounts Sample.world
            (<[js "addExpense" := {| count := 100; resetTime := Sample.noon - 1 |}]> ∅)))
  = true.
Proof.
  refine (proj1 (checkRateLimit_new_window (js "addExpense") 100 60000
            (set_operationCounts Sample.world
               (<[js "addExpense" := {| count := 100; resetTime := Sample.noon - 1 |}]> ∅))
            {| count := 100; resetTime := Sample.noon - 1 |} _ _)).
  - apply lookup_insert_eq.
  - vm_compute. reflexivity.
Defined.

(** ** The amount field *)

(** [sanitizeAmount] returns at most 20 units, all of them digits, points
    or commas, and leaves its own results as they are. *)
Lemma sanitizeAmount_safe (input : list N) :
  (length (sanitizeAmount input) <= 20)%nat
  /\ Forall (fun c => isAmountChar c = true) (sanitizeAmount input)
  /\ sanitizeAmount (sanitizeAmount input) = sanitizeAmount input.
Proof.
  unfold sanitizeAmount, slice0.
  assert (HF : Forall (fun c => isAmountChar c = true)
                 (take 20 (removeAll (fun c => negb (isDigit c || (c =? 46)%N || (c =? 44)%N)) input))).
  { apply Forall_take. eapply Forall_impl; [apply removeAll_Forall|].
    intros c Hc. cbn beta in Hc. apply negb_false_iff in Hc. exact Hc. }
  split; [rewrite length_take; lia|]. split; [exact HF|].
  assert (Hid : forall l, Forall (fun c => isAmountChar c = true) l ->
            removeAll (fun c => negb (isDigit c || (c =? 46)%N || (c =? 44)%N)) l = l).
  { intros l Hl. unfold removeAll. apply filter_all_kept. intros x Hx.
    rewrite Forall_forall in Hl. apply list_elem_of_In in Hx.
    apply Hl in Hx. unfold isAmountChar in Hx. rewrite Hx. reflexivity. }
  rewrite (Hid _ HF). rewrite take_take. f_equal. 
Qed.

(** ** Decimal numerals with a fraction read back *)

Lemma spanDigits_app (ds rest : list N) :
  Forall (fun c => isDigit c = true) ds ->
  match rest with c :: _ => isDigit c = false | [] => True end ->
  spanDigits (ds ++ rest) = (ds, rest).
Proof.
  intros Hds Hrest. induction Hds as [|c ds Hc _ IH].
  - destruct rest as [|c r]; [reflexivity|]. cbn [app spanDigits]. rewrite Hrest. reflexivity.
  - cbn [app spanDigits]. rewrite Hc, IH. reflexivity.
Qed.

Lemma trimStart_nonblank (c : N) (s : list N) :
  isWhiteSpace c = false -> trimStart (c :: s) = c :: s.
Proof. intros Hc. cbn [trimStart]. rewrite Hc. reflexivity. Qed.

Lemma parseFloat_decimal (ip fp : list N) :
  ip <> [] -> Forall (fun c => isDigit c = true) ip ->
  Forall (fun c => isDigit c = true) fp ->
  parseFloat (ip ++ 46%N :: fp)
  = Some (inject_Z (digitsZ (ip ++ fp))
          * Qpower (10 # 1) (0 - Z.of_nat (length fp)))%Q.
Proof.
  intros Hne Hip Hfp. unfold parseFloat.
  destruct ip as [|c ip]; [congruence|].
  assert (Hc : isDigit c = true) by (inversion Hip; assumption).
  cbn [app]. rewrite (trimStart_nonblank c _ (isDigit_not_space c Hc)).
  assert (Hsign : (let '(neg, s1) :=
             match c :: ip ++ 46%N :: fp with
             | 45%N :: r => (true, r)
             | 43%N :: r => (false, r)
             | _ => (false, c :: ip ++ 46%N :: fp)
             end in (neg, s1)) = (false, c :: ip ++ 46%N :: fp)).
  { unfold isDigit in Hc. apply andb_prop in Hc as [H1 H2].
    apply N.leb_le in H1, H2.
    destruct c as [|p]; [lia|].
    do 6 (destruct p as [p|p|]; try reflexivity; try lia). }
  assert (Hsign' : match c :: ip ++ 46%N :: fp with
             | 45%N :: r => (true, r)
             | 43%N :: r => (false, r)
             | _ => (false, c :: ip ++ 46%N :: fp)
             end = (false, c :: ip ++ 46%N :: fp)).
  { destruct (match c :: ip ++ 46%N :: fp with
             | 45%N :: r => (true, r)
             | 43%N :: r => (false, r)
             | _ => (false, c :: ip ++ 46%N :: fp)
             end) as [neg s1]. exact Hsign. }
  rewrite Hsign'.
  change (c :: ip ++ 46%N :: fp) with ((c :: ip) ++ 46%N :: fp).
  rewrite (spanDigits_app (c :: ip) (46%N :: fp) Hip eq_refl).
  pose proof (spanDigits_app fp [] Hfp I) as Hs. rewrite app_nil_r in Hs. rewrite Hs.
  cbn [app exponentPart]. reflexivity.
Qed.

Lemma centsOk_all : forallb centsOk (zrange 0 100) = true.
Proof. vm_compute. reflexivity. Qed.

Lemma cents_digits (r : N) :
  (r < 100)%N ->
  exists d1 d2, padStart0 2 (ofN r) = [d1; d2]
                /\ isDigit d1 = true /\ isDigit d2 = true
                /\ (Z.of_N d1 - 48) * 10 + (Z.of_N d2 - 48) = Z.of_N r.
Proof.
  intros Hr.
  assert (Hok : centsOk (Z.of_N r) = true).
  { refine (proj1 (forallb_forall centsOk (zrange 0 100)) centsOk_all _ _).
    apply In_zrange. lia. }
  unfold centsOk in Hok. rewrite N2Z.id in Hok.
  destruct (padStart0 2 (ofN r)) as [|d1 [|d2 [|d3 l]]]; try discriminate.
  apply andb_prop in Hok as [Hok H3]. apply andb_prop in Hok as [H1 H2].
  exists d1, d2. repeat split; try assumption. apply Z.eqb_eq. exact H3.
Qed.

(** The numeral that [toFixed(2)] writes for an amount of [cents] reads
    back as that amount. *)
Lemma parseFloat_toFixed2 (cents : Z) :
  0 <= cents ->
  exists ip fp amount,
    toFixed2_of_cents cents = ip ++ 46%N :: fp
    /\ ip <> [] /\ Forall (fun c => isDigit c = true) ip
    /\ Forall (fun c => isDigit c = true) fp
    /\ parseFloat (ip ++ 46%N :: fp) = Some amount
    /\ (amount * (100 # 1) == inject_Z cents)%Q.
Proof.
  intros Hc. unfold toFixed2_of_cents.
  destruct (cents <? 0) eqn:E; [lia|]. cbn [app].
  rewrite Z.abs_eq by exact Hc.
  set (a := Z.to_N cents).
  destruct (ofN_value (a / 100)%N) as (Hne & Hip & Hv).
  assert (Hr : (a mod 100 < 100)%N) by (apply N.mod_lt; discriminate).
  destruct (cents_digits (a mod 100)%N Hr) as (d1 & d2 & Hfp & H1 & H2 & Hval).
  rewrite Hfp.
  assert (HF : Forall (fun c => isDigit c = true) [d1; d2]) by (repeat constructor; assumption).
  eexists (ofN (a / 100)), [d1; d2], _.
  split; [reflexivity|]. split; [exact Hne|]. split; [exact Hip|]. split; [exact HF|].
  split; [apply parseFloat_decimal; assumption|].
  unfold digitsZ. rewrite digitsValue_app, Hv. cbn [digitsValue].
  rewrite H1, H2. cbn [default from_option length].
  assert (Hcents : (10 * (10 * (0 * 10 ^ Z.of_nat (length (ofN (a / 100))) + Z.of_N (a / 100))
                          + (Z.of_N d1 - 48)) + (Z.of_N d2 - 48)) = cents).
  { pose proof (N.div_mod' a 100) as Hdm.
    assert (Ha : Z.of_N a = cents) by (subst a; lia).
    assert (Hz : Z.of_N a = 100 * Z.of_N (a / 100) + Z.of_N (a mod 100)) by lia.
    lia. }
  cbv delta [id]. cbv beta. rewrite Hcents.
  change (0 - Z.of_nat 2) with (-2).
  assert (Hp : Qpower (10 # 1) (-2) = (1 # 100)%Q) by reflexivity.
  rewrite Hp. unfold Qeq, Qmult, inject_Z. cbn [Qnum Qden]. lia.
Qed.

Lemma Math_round_cents (amount : Q) (cents : Z) :
  (amount * (100 # 1) == inject_Z cents)%Q ->
  Math_round (amount * (100 # 1)) = cents.
Proof.
  intros Heq. unfold Math_round.
  rewrite (Qfloor_comp _ (inject_Z cents + (1 # 2))%Q) by (rewrite Heq; reflexivity).
  unfold Qfloor, Qplus, inject_Z. cbn [Qnum Qden].
  change (Z.pos (1 * 2)) with 2. 
  replace (cents * 2 + 1 * 1) with (1 + cents * 2) by lia.
  rewrite Z.div_add by lia. reflexivity.
Qed.

Lemma replaceFirst_absent (c d : N) (s : list N) :
  Forall (fun x => (x =? c)%N = false) s -> replaceFirst c d s = s.
Proof.
  induction 1 as [|x s Hx _ IH]; [reflexivity|].
  cbn [replaceFirst]. rewrite Hx, IH. reflexivity.
Qed.

Lemma replaceFirst_here (c d : N) (a b : list N) :
  Forall (fun x => (x =? c)%N = false) a ->
  replaceFirst c d (a ++ c :: b) = a ++ d :: b.
Proof.
  induction 1 as [|x a Hx _ IH].
  - cbn [app replaceFirst]. rewrite N.eqb_refl. reflexivity.
  - cbn [app replaceFirst]. rewrite Hx, IH. reflexivity.
Qed.

Lemma removeAll_kept (cls : N -> bool) (s : list N) :
  Forall (fun c => cls c = false) s -> removeAll cls s = s.
Proof.
  intros Hs. unfold removeAll. apply filter_all_kept. intros x Hx.
  rewrite Forall_forall in Hs. apply list_elem_of_In in Hx. rewrite (Hs x Hx). reflexivity.
Qed.

Lemma digits_not (k : N) (s : list N) :
  isDigit k = false ->
  Forall (fun c => isDigit c = true) s -> Forall (fun x => (x =? k)%N = false) s.
Proof.
  intros Hk Hs. eapply Forall_impl; [exact Hs|]. intros x Hx. cbn beta.
  destruct (x =? k)%N eqn:E; [|reflexivity]. apply N.eqb_eq in E. congruence.
Qed.

Lemma digits_amountChars (s : list N) :
  Forall (fun c => isDigit c = true) s ->
  Forall (fun c => negb (isDigit c || (c =? 46)%N || (c =? 44)%N) = false) s.
Proof.
  intros Hs. eapply Forall_impl; [exact Hs|]. intros x Hx. cbn beta.
  rewrite Hx. reflexivity.
Qed.

(** An amount written with two decimals, with a point or with a comma,
    is read by [parseCurrency] as the same number of cents. *)
Lemma parseCurrency_toFixed2 (cents : Z) :
  0 <= cents <= 100000000 ->
  parseCurrency (toFixed2_of_cents cents) = cents
  /\ parseCurrency (replaceFirst 46 44 (toFixed2_of_cents cents)) = cents.
Proof.
  intros [Hc _].
  destruct (parseFloat_toFixed2 cents Hc) as (ip & fp & amount & -> & Hne & Hip & Hfp & Hpf & Heq).
  assert (Hclean : forall sep, (sep = 46 \/ sep = 44)%N ->
            removeAll (fun c => negb (isDigit c || (c =? 46)%N || (c =? 44)%N))
              (ip ++ sep :: fp) = ip ++ sep :: fp).
  { intros sep Hsep. apply removeAll_kept, Forall_app. split; [apply digits_amountChars, Hip|].
    constructor; [destruct Hsep as [-> | ->]; reflexivity | apply digits_amountChars, Hfp]. }
  assert (Hdot : replaceFirst 44 46 (ip ++ 46%N :: fp) = ip ++ 46%N :: fp).
  { apply replaceFirst_absent, Forall_app. split; [apply digits_not; [reflexivity | exact Hip]|].
    constructor; [reflexivity | apply digits_not; [reflexivity | exact Hfp]]. }
  split.
  - unfold parseCurrency. rewrite (Hclean 46%N) by (left; reflexivity).
    rewrite Hdot, Hpf. apply Math_round_cents. exact Heq.
  - rewrite (replaceFirst_here 46 44 ip fp) by (apply digits_not; [reflexivity | exact Hip]).
    unfold parseCurrency. rewrite (Hclean 44%N) by (right; reflexivity).
    rewrite (replaceFirst_here 44 46 ip fp) by (apply digits_not; [reflexivity | exact Hip]).
    rewrite Hpf. apply Math_round_cents. exact Heq.
Qed.

Lemma parseCurrency_toFixed2_witness :
  parseCurrency (js "15.99") = 1599 /\ parseCurrency (js "15,99") = 1599.
Proof. exact (parseCurrency_toFixed2 1599 ltac:(lia)). Defined.

(** ** Accounting of the CSV reader *)

Lemma parseRows_counts `{Host} (headers lines : list (list N)) (r : ImportResult) :
  imported (parseRows headers lines r) + skipped (parseRows headers lines r)
  = imported r + skipped r + Z.of_nat (length lines)
  /\ imported r <= imported (parseRows headers lines r)
  /\ skipped r <= skipped (parseRows headers lines r)
  /\ errors (parseRows headers lines r) = errors r.
Proof.
  revert r. induction lines as [|line rest IH]; intros r.
  - cbn [parseRows length]. repeat split; lia.
  - cbn [parseRows length].
    destruct (rowFields (buildRow headers (trim <$> split 44 line))) as [f|];
      match goal with
      | |- context [parseRows headers rest ?r1] =>
          specialize (IH r1); cbn [imported skipped errors] in IH;
          destruct IH as (I1 & I2 & I3 & I4)
      end; repeat split; try lia; exact I4.
Qed.

(** [parseCSV] counts every non-blank line after the header once, as
    imported or as skipped, and records no error message; it throws for a
    file without a non-blank line and for a header line without one of the
    required columns, and only then. *)
Theorem parseCSV_accounts `{Host} (csvContent : list N) :
  let lines := List.filter truthy (trim <$> split 10 csvContent) in
  let headers := (fun h => toLowerCase (trim h)) <$> split 44 (hd [] lines) in
  let missing := List.filter (fun h => negb (includes headers h)) requiredHeaders in
  match parseCSV csvContent with
  | Return result =>
      lines <> [] /\ missing = []
      /\ imported result + skipped result = Z.of_nat (length lines) - 1
      /\ 0 <= imported result /\ 0 <= skipped result
      /\ errors result = []
  | Throw message =>
      (lines = [] /\ message = CSV_FILE_IS_EMPTY)
      \/ (lines <> [] /\ missing <> []
          /\ message = MISSING_COLUMNS ++ join (js ", ") missing)
  end.
Proof.
  cbv zeta. unfold parseCSV.
  destruct (List.filter truthy (trim <$> split 10 csvContent)) as [|first rest].
  - left. split; reflexivity.
  - cbn [hd].
    destruct (List.filter
                (fun h => negb (includes ((fun h0 => toLowerCase (trim h0)) <$> split 44 first) h))
                requiredHeaders) as [|m ms] eqn:E.
    + destruct (parseRows_counts ((fun h => toLowerCase (trim h)) <$> split 44 first) rest
                  {| imported := 0; skipped := 0; errors := [] |}) as (H1 & H2 & H3 & H4).
      cbn [imported skipped errors] in *.
      split; [discriminate|]. split; [reflexivity|].
      cbn [length]. repeat split; try lia. exact H4.
    + right. split; [discriminate|]. split; [discriminate | reflexivity].
Qed.

(** ** The import handler never stores *)

Lemma createExpenseFromCSVRow_fields `{Host} (row : gmap (list N) (list N))
    (defaultCurrency : list N) (existingExpenses : list Expense.t)
    (allowDuplicates : bool) (w : World) :
  let r := createExpenseFromCSVRow row defaultCurrency existingExpenses
             allowDuplicates w in
  (exists o, fst r = Return o)
  /\ ls_expenses (snd r) = ls_expenses w /\ ls_budgets (snd r) = ls_budgets w
  /\ ls_settings (snd r) = ls_settings w
  /\ operationCounts (snd r) = operationCounts w
  /\ ls_quotaExceeded (snd r) = ls_quotaExceeded w.
Proof.
  cbv zeta. unfold createExpenseFromCSVRow.
  destruct (rowFields row) as [[date amount]|]; [|split; [eexists; reflexivity | repeat split]].
  destruct (negb allowDuplicates && existsb (isDuplicate row amount) existingExpenses);
    (split; [eexists; reflexivity | repeat split]).
Qed.

Lemma importRows_invariant `{Host} (headers lines : list (list N))
    (defaultCurrency : list N) (expenses : list Expense.t) (allowDuplicates : bool)
    (report : ImportReport) (w : World) :
  let r := importRows headers lines defaultCurrency expenses allowDuplicates report w in
  (exists report',
     fst r = Return report'
     /\ (forallb (fun e => negb (ExpenseSchema e)) (newExpenses report) = true ->
         forallb (fun e => negb (ExpenseSchema e)) (newExpenses report') = true)
     /\ importedRows report' - Z.of_nat (length (newExpenses report'))
        = importedRows report - Z.of_nat (length (newExpenses report))
     /\ importedRows report' + skippedRows report'
        = importedRows report + skippedRows report
          + Z.of_nat (length (List.filter truthy (trim <$> lines))))
  /\ ls_expenses (snd r) = ls_expenses w /\ ls_budgets (snd r) = ls_budgets w
  /\ ls_settings (snd r) = ls_settings w
  /\ operationCounts (snd r) = operationCounts w
  /\ ls_quotaExceeded (snd r) = ls_quotaExceeded w.
Proof.
  cbv zeta. revert report w. induction lines as [|rawLine rest IH]; intros report w.
  - cbn [importRows]. split; [|repeat split].
    exists report. cbn [fst ret fmap list_fmap List.filter length].
    split; [reflexivity|]. split; [auto|]. split; lia.
  - cbn [importRows fmap list_fmap List.filter].
    destruct (truthy (trim rawLine)) eqn:Et; cbn [negb]; [|exact (IH report w)].
    unfold bind.
    pose proof (createExpenseFromCSVRow_fields
                  (buildRow headers (trim <$> split 44 (trim rawLine)))
                  defaultCurrency expenses allowDuplicates w) as Hf.
    pose proof (createExpenseFromCSVRow_never_valid
                  (buildRow headers (trim <$> split 44 (trim rawLine)))
                  defaultCurrency expenses allowDuplicates w) as Hnv.
    destruct (createExpenseFromCSVRow (buildRow headers (trim <$> split 44 (trim rawLine)))
                defaultCurrency expenses allowDuplicates w) as [[o|msg] w1].
    2:{ cbv zeta in Hf. destruct Hf as ((o & Ho) & _). discriminate. }
    cbv zeta in Hf. cbn [fst snd] in Hf.
    destruct Hf as (_ & He & Hb & Hs & Ho & Hq).
    match goal with
    | |- context [importRows headers rest defaultCurrency expenses allowDuplicates ?r1 w1] =>
        specialize (IH r1 w1)
    end.
    destruct IH as ((report' & Hr & Hinv & Hcount & Htotal) & He' & Hb' & Hs' & Ho' & Hq').
    split.
    + exists report'. split; [exact Hr|].
      destruct o as [e|]; cbn [newExpenses importedRows skippedRows] in *.
      * destruct (Hnv w1 e eq_refl) as [_ Hbad].
        split.
        { intros Hall. apply Hinv. rewrite forallb_app, Hall. cbn [forallb].
          rewrite Hbad. reflexivity. }
        rewrite length_app in Hcount. cbn [length] in *. split; lia.
      * split; [exact Hinv|]. cbn [length] in *. split; lia.
    + rewrite He', Hb', Hs', Ho', Hq'. repeat split; assumption.
Qed.

Lemma validateExpenseData_app_invalid (expenses new : list Expense.t) :
  new <> [] -> forallb (fun e => negb (ExpenseSchema e)) new = true ->
  validateExpenseData (expenses ++ new) = false.
Proof.
  intros Hne Hbad. unfold validateExpenseData. rewrite forallb_app.
  destruct new as [|e new]; [congruence|]. cbn [forallb] in *.
  apply andb_prop in Hbad as [Hbad _]. apply negb_true_iff in Hbad.
  rewrite Hbad. cbn [andb]. apply andb_false_r.
Qed.

(** The import handler never changes what is stored: the expenses it
    creates fail the schema, so an import that accepts a row ends in an
    exception, and an import that completes has accepted none. *)
Theorem importCSV_never_stores `{Host} (csvContent defaultCurrency : list N)
    (allowDuplicates : bool) (w : World) :
  let r := importCSV csvContent defaultCurrency allowDuplicates w in
  persisted (snd r) = persisted w
  /\ match fst r with
     | Return (Completed report) =>
         importedRows report = 0 /\ newExpenses report = []
         /\ skippedRows report
            = Z.of_nat (length (List.filter truthy (trim <$> tl (split 10 csvContent))))
     | Return (InvalidFormat headerError) =>
         Some headerError
         = head (validateCSVHeaders (trim <$> split 44 (hd [] (split 10 csvContent))))
     | Throw message => message = INVALID_EXPENSE_DATA \/ message = TOO_MANY_SAVES
     end.
Proof.
  cbv zeta. cbv beta iota zeta delta [importCSV bind gets ret].
  destruct (validateCSVHeaders (trim <$> split 44 (hd [] (split 10 csvContent))))
    as [|headerError others]; [|split; reflexivity].
  pose proof (importRows_invariant (trim <$> split 44 (hd [] (split 10 csvContent)))
                (tl (split 10 csvContent)) defaultCurrency (getExpenses w)
                allowDuplicates
                {| importedRows := 0; skippedRows := 0; newExpenses := [] |} w) as Hinv.
  cbv zeta in Hinv.
  destruct (importRows (trim <$> split 44 (hd [] (split 10 csvContent)))
              (tl (split 10 csvContent)) defaultCurrency (getExpenses w)
              allowDuplicates
              {| importedRows := 0; skippedRows := 0; newExpenses := [] |} w)
    as [[report|msg] w1].
  2:{ destruct Hinv as ((r' & Hr & _) & _). discriminate. }
  cbn [fst snd importedRows skippedRows newExpenses length] in Hinv.
  destruct Hinv as ((r' & Hr & Hbad & Hcount & Htotal) & He & Hb & Hs & Ho & Hq).
  injection Hr as <-. specialize (Hbad eq_refl).
  destruct (newExpenses report) as [|e new] eqn:En.
  - cbn [fst snd length] in *. unfold persisted. rewrite He, Hb, Hs.
    split; [reflexivity|]. split; [lia|]. split; [exact En | lia].
  - rewrite saveExpenses_unfold.
    pose proof (checkRateLimit_fields (js "saveExpenses") 50 60000 w1) as Hf.
    destruct (checkRateLimit (js "saveExpenses") 50 60000 w1) as [ok w2].
    cbn [snd] in Hf. cbv zeta in Hf. destruct Hf as (He2 & Hb2 & Hs2 & _).
    rewrite (validateExpenseData_app_invalid (getExpenses w) (e :: new))
      by (discriminate || exact Hbad).
    destruct ok; cbn [fst snd]; unfold persisted; rewrite He2, Hb2, Hs2, He, Hb, Hs;
      (split; [reflexivity|]); [left | right]; reflexivity.
Qed.

(** ** Instants written by [toISOString] pass the schema *)

Lemma allFrom_spec (p : Z -> bool) (n : nat) (lo z : Z) :
  allFrom p lo n = true -> lo <= z < lo + Z.of_nat n -> p z = true.
Proof.
  revert lo. induction n as [|n IH]; intros lo Hall Hz; [lia|].
  cbn [allFrom] in Hall. apply andb_prop in Hall as [Hlo Hrest].
  destruct (Z.eq_dec z lo) as [->|Hne]; [exact Hlo|].
  apply (IH (lo + 1)); [exact Hrest | lia].
Qed.

Lemma padShape_4 : allFrom (padShape 4) 0 (Z.to_nat 10000) = true.
Proof. vm_compute. reflexivity. Qed.

Lemma padShape_3 : allFrom (padShape 3) 0 (Z.to_nat 1000) = true.
Proof. vm_compute. reflexivity. Qed.

Lemma padShape_2 : allFrom (padShape 2) 0 (Z.to_nat 100) = true.
Proof. vm_compute. reflexivity. Qed.

Lemma pad4_digits (y : Z) :
  0 <= y <= 9999 ->
  exists a b c d, pad 4 y = [a; b; c; d]
                  /\ forallb isDigit [a; b; c; d] = true.
Proof.
  intros Hy. pose proof (allFrom_spec (padShape 4) (Z.to_nat 10000) 0 y padShape_4 ltac:(lia)) as Hs.
  pose proof (pad_digits 4 y) as Hd. unfold padShape in Hs. apply Nat.eqb_eq in Hs.
  destruct (pad 4 y) as [|a [|b [|c [|d [|e l]]]]]; try discriminate.
  exists a, b, c, d. split; [reflexivity|]. apply forallb_forall.
  intros x Hx. rewrite Forall_forall in Hd. apply Hd, list_elem_of_In, Hx.
Qed.

Lemma pad3_digits (n : Z) :
  0 <= n <= 999 ->
  exists a b c, pad 3 n = [a; b; c] /\ forallb isDigit [a; b; c] = true.
Proof.
  intros Hn. pose proof (allFrom_spec (padShape 3) (Z.to_nat 1000) 0 n padShape_3 ltac:(lia)) as Hs.
  pose proof (pad_digits 3 n) as Hd. unfold padShape in Hs. apply Nat.eqb_eq in Hs.
  destruct (pad 3 n) as [|a [|b [|c [|e l]]]]; try discriminate.
  exists a, b, c. split; [reflexivity|]. apply forallb_forall.
  intros x Hx. rewrite Forall_forall in Hd. apply Hd, list_elem_of_In, Hx.
Qed.

Lemma pad2_digits (n : Z) :
  0 <= n <= 99 ->
  exists a b, pad 2 n = [a; b] /\ forallb isDigit [a; b] = true.
Proof.
  intros Hn. pose proof (allFrom_spec (padShape 2) (Z.to_nat 100) 0 n padShape_2 ltac:(lia)) as Hs.
  pose proof (pad_digits 2 n) as Hd. unfold padShape in Hs. apply Nat.eqb_eq in Hs.
  destruct (pad 2 n) as [|a [|b [|e l]]]; try discriminate.
  exists a, b. split; [reflexivity|]. apply forallb_forall.
  intros x Hx. rewrite Forall_forall in Hd. apply Hd, list_elem_of_In, Hx.
Qed.

Lemma day_of_year_bounds (doe : Z) :
  0 <= doe <= 146096 ->
  let yoe := (doe - doe / 1460 + doe / 36524 - doe / 146096) / 365 in
  let doy := doe - (365 * yoe + yoe / 4 - yoe / 100) in
  0 <= yoe <= 399 /\ 0 <= doy <= 365
  /\ (doe <= 146036 -> yoe = 399 -> doy < 306).
Proof. intros H. cbv zeta. Z.div_mod_to_equations. lia. Qed.

Lemma month_day_bounds (doy : Z) :
  0 <= doy <= 365 ->
  let mp := (5 * doy + 2) / 153 in
  let d := doy - (153 * mp + 2) / 5 + 1 in
  0 <= mp <= 11 /\ 1 <= d <= 31 /\ (10 <= mp -> 306 <= doy).
Proof. intros H. cbv zeta. Z.div_mod_to_equations. lia. Qed.

Lemma civil_from_days_range (z : Z) :
  exists y m d, civil_from_days z = (y, m, d)
                /\ 1 <= m <= 12 /\ 1 <= d <= 31
                /\ (-719468 <= z <= 2932896 -> 0 <= y <= 9999)
                /\ (0 <= z -> 1600 <= y).
Proof.
  unfold civil_from_days. cbv zeta.
  set (era := (z + 719468) / 146097).
  set (doe := z + 719468 - era * 146097).
  assert (Hdoe : 0 <= doe <= 146096).
  { subst doe era. Z.div_mod_to_equations. lia. }
  pose proof (day_of_year_bounds doe Hdoe) as Hy. cbv zeta in Hy.
  set (yoe := (doe - doe / 1460 + doe / 36524 - doe / 146096) / 365) in *.
  set (doy := doe - (365 * yoe + yoe / 4 - yoe / 100)) in *.
  destruct Hy as (Hyoe & Hdoy & Hlast).
  pose proof (month_day_bounds doy Hdoy) as Hm. cbv zeta in Hm.
  set (mp := (5 * doy + 2) / 153) in *.
  destruct Hm as (Hmp & Hd & Hjan).
  eexists _, _, _. split; [reflexivity|].
  split; [destruct (mp <? 10) eqn:E; lia|]. split; [exact Hd|].
  split.
  - intros Hz.
    assert (Hera : 0 <= era <= 24) by (subst era; Z.div_mod_to_equations; lia).
    destruct (mp <? 10) eqn:E.
    + destruct (mp + 3 <=? 2) eqn:E2; lia.
    + destruct (mp - 9 <=? 2) eqn:E2; [|lia].
      split; [lia|].
      destruct (Z.eq_dec era 24) as [He|He]; [|lia].
      destruct (Z.eq_dec yoe 399) as [Hy|Hy]; [|lia].
      assert (doe <= 146036) by (subst doe; lia). specialize (Hlast ltac:(lia) Hy). lia.
  - intros Hz.
    assert (Hera : 4 <= era) by (subst era; Z.div_mod_to_equations; lia).
    destruct (mp <? 10); [destruct (mp + 3 <=? 2) | destruct (mp - 9 <=? 2)]; lia.
Qed.

Lemma is_datetime_toISOString (t : Z) :
  0 <= t <= endOf9999 -> is_datetime (toISOString t) = true.
Proof.
  unfold endOf9999. intros Ht. unfold toISOString, isoDate, isoTime.
  assert (Hday : 0 <= t / msPerDay <= 2932896).
  { unfold msPerDay. split; [apply Z.div_pos; lia|].
    assert (t / 86400000 < 2932897) by (apply Z.div_lt_upper_bound; lia). lia. }
  assert (Hms : 0 <= t mod msPerDay < 86400000).
  { unfold msPerDay. apply Z.mod_pos_bound. lia. }
  destruct (civil_from_days_range (t / msPerDay)) as (y & m & d & -> & Hm & Hd & Hy & _).
  specialize (Hy ltac:(lia)).
  destruct (0 <=? y) eqn:E1; [|lia]. destruct (y <=? 9999) eqn:E2; [|lia]. cbn [andb].
  destruct (pad4_digits y Hy) as (y1 & y2 & y3 & y4 & -> & Hyd).
  destruct (pad2_digits m ltac:(lia)) as (m1 & m2 & -> & Hmd).
  destruct (pad2_digits d ltac:(lia)) as (d1 & d2 & -> & Hdd).
  set (ms := t mod msPerDay) in *.
  assert (H1 : 0 <= ms / 3600000 <= 99).
  { split; [apply Z.div_pos; lia | apply Z.div_le_upper_bound; lia]. }
  assert (H2 : 0 <= ms / 60000 mod 60 <= 99) by (pose proof (Z.mod_pos_bound (ms / 60000) 60); lia).
  assert (H3 : 0 <= ms / 1000 mod 60 <= 99) by (pose proof (Z.mod_pos_bound (ms / 1000) 60); lia).
  assert (H4 : 0 <= ms mod 1000 <= 999) by (pose proof (Z.mod_pos_bound ms 1000); lia).
  destruct (pad2_digits _ H1) as (h1 & h2 & -> & Hhd).
  destruct (pad2_digits _ H2) as (i1 & i2 & -> & Hid).
  destruct (pad2_digits _ H3) as (s1 & s2 & -> & Hsd).
  destruct (pad3_digits _ H4) as (f1 & f2 & f3 & -> & Hfd).
  cbn [forallb] in *.
  repeat match goal with
         | H : _ && _ = true |- _ => apply andb_prop in H as [? ?]
         end.
  cbn [js fmap list_fmap list_ascii_of_string app]. 
  change (N_of_ascii "-") with 45%N. change (N_of_ascii "T") with 84%N.
  change (N_of_ascii ":") with 58%N. change (N_of_ascii ".") with 46%N.
  change (N_of_ascii "Z") with 90%N.
  cbn [is_datetime forallb spanDigits].
  repeat match goal with
         | H : isDigit _ = true |- _ => rewrite H; clear H
         end.
  reflexivity.
Qed.

Lemma checkRateLimit_decision (operation : list N) (maxOps windowMs : Z)
    (w w2 : World) :
  operationCounts w2 !! operation = operationCounts w !! operation ->
  clock w2 = clock w ->
  fst (checkRateLimit operation maxOps windowMs w2)
  = fst (checkRateLimit operation maxOps windowMs w).
Proof.
  intros Ho Hc. unfold checkRateLimit. rewrite Ho, Hc.
  destruct (operationCounts w !! operation) as [cur|]; [|reflexivity].
  destruct (clock w >? resetTime cur); [reflexivity|].
  destruct (count cur >=? maxOps); reflexivity.
Qed.

Lemma checkRateLimit_other (operation other : list N) (maxOps windowMs : Z)
    (w : World) :
  other <> operation ->
  operationCounts (snd (checkRateLimit operation maxOps windowMs w)) !! other
  = operationCounts w !! other.
Proof.
  intros Hne. unfold checkRateLimit.
  destruct (operationCounts w !! operation) as [cur|];
    [|cbn [snd set_operationCounts operationCounts]; apply lookup_insert_ne; congruence].
  destruct (clock w >? resetTime cur);
    [cbn [snd set_operationCounts operationCounts]; apply lookup_insert_ne; congruence|].
  destruct (count cur >=? maxOps); [reflexivity|].
  cbn [snd set_operationCounts operationCounts]. apply lookup_insert_ne. congruence.
Qed.

Lemma sanitized_optional (o : option (list N)) (n : nat) :
  optional (maxLen n)
    (if truthy_opt o then (fun s => sanitizeText s n) <$> o else None) = true.
Proof.
  destruct o as [s|]; [|reflexivity]. cbn [truthy_opt].
  destruct (truthy s); [|reflexivity].
  cbn [fmap option_fmap option_map optional]. unfold maxLen.
  apply Nat.leb_le, length_sanitizeText.
Qed.

(** ** When [addExpense] succeeds *)

Lemma newRecord_passes (expense : NewExpense.t) (id now : list N) :
  is_uuid id = true -> is_datetime now = true ->
  1 <= NewExpense.amountCents expense <= 100000000 ->
  is_currencyCode (NewExpense.currency expense) = true ->
  truthy (sanitizeCategory (NewExpense.category expense)) = true ->
  is_dateOnly (NewExpense.paidAt expense) = true ->
  ExpenseSchema (newRecord expense id now) = true.
Proof.
  intros Hid Hnow Hamount Hcur Hcat Hdate. unfold ExpenseSchema, newRecord.
  cbn [Expense.id Expense.amountCents Expense.currency Expense.category Expense.note
       Expense.paidAt Expense.paymentMethod Expense.createdAt Expense.updatedAt
       required].
  rewrite Hid, Hcur, Hcat, Hdate, !sanitized_optional, Hnow.
  unfold maxLen. rewrite (proj2 (Nat.leb_le _ _) (length_sanitizeCategory _)).
  destruct (1 <=? NewExpense.amountCents expense) eqn:E1; [|lia].
  destruct (NewExpense.amountCents expense <=? 100000000) eqn:E2; [|lia].
  reflexivity.
Qed.

Lemma addExpense_run (expense : NewExpense.t) (w : World) :
  admitted (js "addExpense") 100 w = true ->
  admitted (js "saveExpenses") 50 w = true ->
  ls_quotaExceeded w = false ->
  ExpenseSchema (newRecord expense (formatUUID (entropy w (drawn w)))
                   (toISOString (clock w))) = true ->
  exists w',
    addExpense expense w
    = (Return (newRecord expense (formatUUID (entropy w (drawn w)))
                 (toISOString (clock w))), w')
    /\ ls_expenses w'
       = Stored (getExpenses w
                 ++ [newRecord expense (formatUUID (entropy w (drawn w)))
                       (toISOString (clock w))])
    /\ getExpenses w'
       = getExpenses w ++ [newRecord expense (formatUUID (entropy w (drawn w)))
                             (toISOString (clock w))].
Proof.
  unfold admitted. intros Hadd Hsave Hq Hschema.
  cbv beta iota zeta delta [addExpense bind rateLimited gets Date_now randomUUID
                            throw ret].
  pose proof (checkRateLimit_fields (js "addExpense") 100 60000 w) as Hf.
  pose proof (checkRateLimit_other (js "addExpense") (js "saveExpenses") 100 60000 w
                ltac:(discriminate)) as Hother.
  destruct (checkRateLimit (js "addExpense") 100 60000 w) as [ok w1].
  cbn [fst snd] in *. cbv zeta in Hf. subst ok. cbn [negb].
  destruct Hf as (He & Hb & Hs & Hq1 & Hc1 & Hen & Hdr).
  assert (Hg : getExpenses w1 = getExpenses w) by (unfold getExpenses; rewrite He; reflexivity).
  set (w2 := set_drawn w1 (S (drawn w1))).
  fold (newRecord expense (formatUUID (entropy w1 (drawn w1))) (toISOString (clock w1))).
  rewrite Hen, Hdr, Hc1.
  set (added := newRecord expense (formatUUID (entropy w (drawn w)))
                  (toISOString (clock w))) in *.
  rewrite saveExpenses_unfold.
  pose proof (checkRateLimit_decision (js "saveExpenses") 50 60000 w w2 Hother Hc1) as Hdec.
  pose proof (checkRateLimit_fields (js "saveExpenses") 50 60000 w2) as Hf2.
  destruct (checkRateLimit (js "saveExpenses") 50 60000 w2) as [ok w3].
  cbn [fst snd] in *. cbv zeta in Hf2. rewrite Hsave in Hdec. subst ok.
  destruct Hf2 as (He3 & _ & _ & Hq3 & _).
  assert (Hvalid : validateExpenseData (getExpenses w1 ++ [added]) = true).
  { unfold validateExpenseData. rewrite forallb_app. cbn [forallb].
    rewrite Hschema. pose proof (getExpenses_passes_schema w1) as Hp.
    unfold validateExpenseData in Hp. rewrite Hp. reflexivity. }
  rewrite Hvalid. rewrite Hq3. cbn [w2 set_drawn ls_quotaExceeded]. rewrite Hq1, Hq.
  exists (put_expenses (getExpenses w1 ++ [added]) w3).
  split; [reflexivity|].
  split; [cbn [put_expenses ls_expenses]; rewrite Hg; reflexivity|].
  unfold getExpenses at 1. cbn [put_expenses ls_expenses]. rewrite Hvalid, Hg. reflexivity.
Qed.

(** [addExpense] succeeds whenever the limiter admits the call and the
    save behind it, the store can be written, the clock shows a year up to
    9999, and the entry has an amount and a currency code of the schema, a
    date of the form YYYY-MM-DD and a category that is not empty once
    sanitised; the record it returns passes the schema, and what is stored
    then is the collection that [getExpenses] read before the call followed
    by that record. *)
Lemma addExpense_succeeds (expense : NewExpense.t) (w : World) :
  admitted (js "addExpense") 100 w = true ->
  admitted (js "saveExpenses") 50 w = true ->
  ls_quotaExceeded w = false ->
  0 <= clock w <= endOf9999 ->
  1 <= NewExpense.amountCents expense <= 100000000 ->
  is_currencyCode (NewExpense.currency expense) = true ->
  truthy (sanitizeCategory (NewExpense.category expense)) = true ->
  is_dateOnly (NewExpense.paidAt expense) = true ->
  exists added w',
    addExpense expense w = (Return added, w')
    /\ ExpenseSchema added = true
    /\ ls_expenses w' = Stored (getExpenses w ++ [added])
    /\ getExpenses w' = getExpenses w ++ [added].
Proof.
  intros Hadd Hsave Hq Hclock Hamount Hcur Hcat Hdate.
  assert (Hschema : ExpenseSchema (newRecord expense (formatUUID (entropy w (drawn w)))
                                     (toISOString (clock w))) = true).
  { apply newRecord_passes; try assumption.
    - apply formatUUID_is_uuid.
    - apply is_datetime_toISOString, Hclock. }
  destruct (addExpense_run expense w Hadd Hsave Hq Hschema) as (w' & Hrun & Hst & Hget).
  eexists _, w'. split; [exact Hrun|]. split; [exact Hschema|].
  split; [exact Hst | exact Hget].
Qed.

Lemma addExpense_succeeds_witness :
  exists added w',
    addExpense (NewExpense.mk 1599 (js "EUR") (js "Food") (Some (js "tea & cake"))
                  (js "2024-03-15") None) Sample.world = (Return added, w')
    /\ ExpenseSchema added = true
    /\ ls_expenses w' = Stored (getExpenses Sample.world ++ [added])
    /\ getExpenses w' = getExpenses Sample.world ++ [added].
Proof.
  apply (addExpense_succeeds
           (NewExpense.mk 1599 (js "EUR") (js "Food") (Some (js "tea & cake"))
              (js "2024-03-15") None) Sample.world);
    try reflexivity; split; apply Z.leb_le; reflexivity.
Defined.

(** ** Splitting, joining and trimming *)

Lemma split_app_sep (sep : N) (a b : list N) :
  Forall (fun c => (c =? sep)%N = false) a ->
  split sep (a ++ sep :: b) = a :: split sep b.
Proof.
  induction 1 as [|c a Hc _ IH].
  - cbn [app split]. rewrite N.eqb_refl. reflexivity.
  - cbn [app split]. rewrite Hc, IH. reflexivity.
Qed.

Lemma split_none (sep : N) (a : list N) :
  Forall (fun c => (c =? sep)%N = false) a -> split sep a = [a].
Proof.
  induction 1 as [|c a Hc _ IH]; [reflexivity|].
  cbn [split]. rewrite Hc, IH. reflexivity.
Qed.

Lemma split_join (sep : N) (parts : list (list N)) :
  parts <> [] ->
  Forall (Forall (fun c => (c =? sep)%N = false)) parts ->
  split sep (join [sep] parts) = parts.
Proof.
  intros Hne Hparts. induction Hparts as [|p rest Hp Hrest IH]; [congruence|].
  destruct rest as [|q rest].
  - cbn [join]. apply split_none, Hp.
  - change (join [sep] (p :: q :: rest)) with (p ++ sep :: join [sep] (q :: rest)).
    rewrite (split_app_sep sep p _ Hp), IH by discriminate. reflexivity.
Qed.

Lemma join_prefix (sep p h : list N) (t : list (list N)) :
  p ++ join sep (h :: t) = join sep ((p ++ h) :: t).
Proof. destruct t as [|q t]; cbn [join]; [reflexivity | rewrite app_assoc; reflexivity]. Qed.

Lemma join_snoc (sep : list N) (parts : list (list N)) (last : list N) :
  parts <> [] -> join sep (parts ++ [last]) = join sep parts ++ sep ++ last.
Proof.
  induction parts as [|p parts IH]; [congruence|]. intros _.
  destruct parts as [|q parts].
  - reflexivity.
  - change (join sep ((p :: q :: parts) ++ [last]))
      with (p ++ sep ++ join sep ((q :: parts) ++ [last])).
    rewrite IH by discriminate.
    change (join sep (p :: q :: parts)) with (p ++ sep ++ join sep (q :: parts)).
    rewrite <- !app_assoc. reflexivity.
Qed.

Lemma trimStart_app (x y : list N) (c : N) :
  isWhiteSpace c = false -> trimStart (x ++ c :: y) = trimStart x ++ c :: y.
Proof.
  intros Hc. induction x as [|h x IH].
  - cbn [app trimStart]. rewrite Hc. reflexivity.
  - cbn [app trimStart]. destruct (isWhiteSpace h); [exact IH | reflexivity].
Qed.

Lemma trimEnd_app (a b : list N) (c : N) :
  isWhiteSpace c = false -> trimEnd (a ++ c :: b) = a ++ c :: trimEnd b.
Proof.
  intros Hc. unfold trimEnd. rewrite rev_app_distr. cbn [rev].
  rewrite <- app_assoc. cbn [app]. rewrite (trimStart_app (rev b) (rev a) c Hc).
  rewrite rev_app_distr. cbn [rev]. rewrite rev_involutive, <- app_assoc. reflexivity.
Qed.

Lemma trimEnd_Forall (P : N -> Prop) (s : list N) : Forall P s -> Forall P (trimEnd s).
Proof.
  intros Hs. unfold trimEnd. apply Forall_rev.
  assert (Hr : Forall P (rev s)) by (apply Forall_rev; exact Hs).
  induction Hr as [|c r Hc Hr IH]; [constructor|].
  cbn [trimStart]. destruct (isWhiteSpace c); [exact IH | constructor; assumption].
Qed.

Lemma trim_nonblank (s : list N) :
  Forall (fun c => isWhiteSpace c = false) s -> trim s = s.
Proof.
  intros Hs. unfold trim.
  assert (Hst : forall l, Forall (fun c => isWhiteSpace c = false) l -> trimStart l = l).
  { intros l Hl. destruct Hl as [|c l Hc _]; [reflexivity|]. cbn [trimStart]. rewrite Hc. reflexivity. }
  rewrite (Hst s Hs). unfold trimEnd. rewrite Hst by (apply Forall_rev; exact Hs).
  apply rev_involutive.
Qed.

(** ** An exported row, read back *)

Lemma digit_plain (c : N) :
  isDigit c = true ->
  isWhiteSpace c = false /\ isCsvBreak c = false /\ (c =? 84)%N = false.
Proof.
  unfold isDigit, isWhiteSpace, isCsvBreak. intros H.
  apply andb_prop in H as [H1 H2]. apply N.leb_le in H1, H2.
  repeat split;
    repeat match goal with
           | |- context [(?a =? ?b)%N] => destruct (N.eqb_spec a b); [lia|]
           | |- context [(?a <=? ?b)%N] => destruct (N.leb_spec a b); try lia
           end; reflexivity.
Qed.

Lemma upper_plain (c : N) :
  isUpper c = true -> isWhiteSpace c = false /\ isCsvBreak c = false.
Proof.
  unfold isUpper, isWhiteSpace, isCsvBreak. intros H.
  apply andb_prop in H as [H1 H2]. apply N.leb_le in H1, H2.
  repeat split;
    repeat match goal with
           | |- context [(?a =? ?b)%N] => destruct (N.eqb_spec a b); [lia|]
           | |- context [(?a <=? ?b)%N] => destruct (N.leb_spec a b); try lia
           end; reflexivity.
Qed.

Lemma dateOnly_chars (s : list N) :
  is_dateOnly s = true ->
  Forall (fun c => isDigit c = true \/ c = 45%N) s
  /\ exists c r, s = c :: r /\ isDigit c = true.
Proof.
  intros H. pose proof (is_dateOnly_length s H) as Hlen.
  destruct s as [|y1 [|y2 [|y3 [|y4 [|h1 [|m1 [|m2 [|h2 [|d1 [|d2 [|x s]]]]]]]]]]];
    try discriminate Hlen.
  unfold is_dateOnly in H.
  assert (H1 : h1 = 45%N).
  { destruct h1 as [|p]; [discriminate H|].
    repeat (destruct p as [p|p|]; try discriminate H). reflexivity. }
  subst h1.
  assert (H2 : h2 = 45%N).
  { destruct h2 as [|p]; [discriminate H|].
    repeat (destruct p as [p|p|]; try discriminate H). reflexivity. }
  subst h2.
  cbn [forallb] in H.
  repeat match goal with
         | H : _ && _ = true |- _ => apply andb_prop in H as [? ?]
         end.
  split; [|eexists _, _; split; [reflexivity | assumption]].
  repeat match goal with
         | |- Forall _ (_ :: _) =>
             constructor; [first [left; assumption | right; reflexivity]|]
         end.
  constructor.
Qed.

Lemma dash_plain (c : N) :
  isDigit c = true \/ c = 45%N ->
  isWhiteSpace c = false /\ isCsvBreak c = false /\ (c =? 84)%N = false.
Proof. intros [H | ->]; [apply digit_plain, H | repeat split]. Qed.

Lemma currencyCode_chars (s : list N) :
  is_currencyCode s = true -> Forall (fun c => isUpper c = true) s.
Proof.
  unfold is_currencyCode. intros H.
  destruct s as [|a [|b [|c [|d s]]]]; try discriminate.
  apply Forall_forall. intros x Hx.
  exact (proj1 (forallb_forall _ _) H x (proj1 (list_elem_of_In _ _) Hx)).
Qed.

Lemma unbroken_Forall (s : list N) :
  unbroken s = true -> Forall (fun c => isCsvBreak c = false) s.
Proof.
  unfold unbroken. intros H. apply Forall_forall. intros x Hx.
  pose proof (proj1 (forallb_forall _ _) H x (proj1 (list_elem_of_In _ _) Hx)) as Hc.
  apply negb_true_iff in Hc. exact Hc.
Qed.

Lemma notBreak_split (c : N) :
  isCsvBreak c = false -> (c =? 44)%N = false /\ (c =? 10)%N = false.
Proof. unfold isCsvBreak. intros H. apply orb_false_elim in H. exact H. Qed.

(** The cells of a row built from the six columns of the export. *)
Lemma buildRow_csvHeaders (v0 v1 v2 v3 v4 v5 : list N) :
  let row := buildRow csvHeaders [v0; v1; v2; v3; v4; v5] in
  row !! js "date" = Some v0 /\ row !! js "amount" = Some v1
  /\ row !! js "currency" = Some v2 /\ row !! js "category" = Some v3
  /\ row !! js "note" = Some v4 /\ row !! js "payment_method" = Some v5.
Proof. vm_compute. repeat split. Qed.

Lemma Forall_join (P : N -> Prop) (sep : list N) (parts : list (list N)) :
  Forall P sep -> Forall (Forall P) parts -> Forall P (join sep parts).
Proof.
  intros Hsep Hparts. induction Hparts as [|p rest Hp Hrest IH]; [constructor|].
  destruct rest as [|q rest]; [exact Hp|].
  change (join sep (p :: q :: rest)) with (p ++ sep ++ join sep (q :: rest)).
  apply Forall_app. split; [exact Hp|]. apply Forall_app. split; [exact Hsep | exact IH].
Qed.

Lemma toFixed2_chars (cents : Z) :
  0 <= cents ->
  Forall (fun c => isWhiteSpace c = false /\ isCsvBreak c = false)
    (toFixed2_of_cents cents)
  /\ truthy (toFixed2_of_cents cents) = true.
Proof.
  intros Hc.
  destruct (parseFloat_toFixed2 cents Hc) as (ip & fp & amount & -> & Hne & Hip & Hfp & _).
  split.
  - apply Forall_app. split.
    + eapply Forall_impl; [exact Hip|]. intros c Hd. cbn beta in Hd.
      destruct (digit_plain c Hd) as (H1 & H2 & _). split; assumption.
    + constructor; [split; reflexivity|].
      eapply Forall_impl; [exact Hfp|]. intros c Hd. cbn beta in Hd.
      destruct (digit_plain c Hd) as (H1 & H2 & _). split; assumption.
  - destruct ip; [congruence | reflexivity].
Qed.

Lemma exported_row `{Host} (e : Expense.t) :
  exportable e = true ->
  let line := join (js ",") (exportRow e) in
  let row := buildRow csvHeaders (trim <$> split 44 (trim line)) in
  Forall (fun c => (c =? 10)%N = false) line
  /\ truthy (trim line) = true
  /\ row !! js "date" = Some (Expense.paidAt e)
  /\ row !! js "category" = Some (trim (default [] (Expense.category e)))
  /\ row !! js "note" = Some (trim (default [] (Expense.note e)))
  /\ exists date amount,
       rowFields row = Some (date, amount)
       /\ Math_round (amount * (100 # 1)) = Expense.amountCents e
       /\ hd [] (split 84 (Expense.paidAt e)) = Expense.paidAt e.
Proof.
  unfold exportable. intros Hx.
  repeat match goal with
         | H : _ && _ = true |- _ => apply andb_prop in H as [H ?]
         end.
  rename Hx into Hschema.
  match goal with H : bool_decide _ = true |- _ => apply bool_decide_eq_true_1 in H; destruct H as [t Ht] end.
  unfold ExpenseSchema in Hschema.
  repeat match goal with
         | H : _ && _ = true |- _ => apply andb_prop in H as [H ?]
         end.
  match goal with H : is_dateOnly _ = true |- _ => rename H into Hdo end.
  match goal with H : is_currencyCode _ = true |- _ => rename H into Hcur end.
  match goal with H : (1 <=? _) = true |- _ => apply Z.leb_le in H; rename H into Hamt end.
  set (cat := default [] (Expense.category e)) in *.
  set (note := default [] (Expense.note e)) in *.
  set (pm := default [] (Expense.paymentMethod e)) in *.
  destruct (dateOnly_chars _ Hdo) as (Hdchars & c0 & r0 & Hd0 & Hc0).
  assert (Hd : hd [] (split 84 (Expense.paidAt e)) = Expense.paidAt e).
  { rewrite split_none; [reflexivity|].
    eapply Forall_impl; [exact Hdchars|]. intros c Hc. apply (dash_plain c Hc). }
  destruct (toFixed2_chars (Expense.amountCents e) ltac:(lia)) as (Hachars & Hatruthy).
  destruct (parseFloat_toFixed2 (Expense.amountCents e) ltac:(lia))
    as (ip & fp & amount & Hafix & _ & _ & _ & Hpf & Heq).
  rewrite <- Hafix in Hpf.
  pose proof (currencyCode_chars _ Hcur) as Hcchars.
  assert (Hplain : Forall (Forall (fun c => isCsvBreak c = false))
            [Expense.paidAt e; toFixed2_of_cents (Expense.amountCents e);
             Expense.currency e; cat; note]).
  { repeat match goal with |- Forall _ (_ :: _) => constructor end; [| | | | |constructor].
    - eapply Forall_impl; [exact Hdchars|]. intros c Hc. apply (dash_plain c Hc).
    - eapply Forall_impl; [exact Hachars|]. intros c Hc. apply Hc.
    - eapply Forall_impl; [exact Hcchars|]. intros c Hc. apply (upper_plain c Hc).
    - apply unbroken_Forall. assumption.
    - apply unbroken_Forall. assumption. }
  assert (Hpmplain : Forall (fun c => isCsvBreak c = false) pm)
    by (apply unbroken_Forall; assumption).
  cbv zeta. unfold exportRow. fold cat note pm. rewrite Hd.
  change (js ",") with [44%N].
  change [Expense.paidAt e; toFixed2_of_cents (Expense.amountCents e);
          Expense.currency e; cat; note; pm]
    with ([Expense.paidAt e; toFixed2_of_cents (Expense.amountCents e);
           Expense.currency e; cat; note] ++ [pm]).
  set (parts := [Expense.paidAt e; toFixed2_of_cents (Expense.amountCents e);
                 Expense.currency e; cat; note]) in *.
  assert (Hline : trim (join [44%N] (parts ++ [pm])) = join [44%N] (parts ++ [trimEnd pm])).
  { rewrite !join_snoc by discriminate. unfold trim.
    assert (Hst : trimStart (join [44%N] parts ++ [44%N] ++ pm)
                  = join [44%N] parts ++ [44%N] ++ pm).
    { subst parts. cbn [join app]. rewrite Hd0. cbn [app].
      apply trimStart_nonblank. apply (digit_plain c0 Hc0). }
    rewrite Hst. cbn [app]. rewrite trimEnd_app by reflexivity. reflexivity. }
  split.
  { apply Forall_join; [repeat constructor|]. apply Forall_app. split.
    - eapply Forall_impl; [exact Hplain|]. intros s Hs. cbn beta in Hs.
      eapply Forall_impl; [exact Hs|]. intros c Hc. apply (notBreak_split c Hc).
    - constructor; [|constructor].
      eapply Forall_impl; [exact Hpmplain|]. intros c Hc. apply (notBreak_split c Hc). }
  rewrite Hline.
  split.
  { rewrite join_snoc by discriminate. subst parts. cbn [join app]. rewrite Hd0. reflexivity. }
  rewrite split_join.
  2:{ subst parts. discriminate. }
  2:{ apply Forall_app. split.
      - eapply Forall_impl; [exact Hplain|]. intros s Hs. cbn beta in Hs.
        eapply Forall_impl; [exact Hs|]. intros c Hc. apply (notBreak_split c Hc).
      - constructor; [|constructor]. apply trimEnd_Forall.
        eapply Forall_impl; [exact Hpmplain|]. intros c Hc. apply (notBreak_split c Hc). }
  subst parts. cbn [app fmap list_fmap].
  assert (Htd : trim (Expense.paidAt e) = Expense.paidAt e).
  { apply trim_nonblank. eapply Forall_impl; [exact Hdchars|].
    intros c Hc. apply (dash_plain c Hc). }
  assert (Hta : trim (toFixed2_of_cents (Expense.amountCents e))
                = toFixed2_of_cents (Expense.amountCents e)).
  { apply trim_nonblank. eapply Forall_impl; [exact Hachars|]. intros c Hc. apply Hc. }
  rewrite Htd, Hta.
  destruct (buildRow_csvHeaders (Expense.paidAt e)
              (toFixed2_of_cents (Expense.amountCents e))
              (trim (Expense.currency e)) (trim cat) (trim note) (trim (trimEnd pm)))
    as (L0 & L1 & L2 & L3 & L4 & L5).
  cbv zeta in L0, L1, L2, L3, L4, L5.
  split; [exact L0|]. split; [exact L3|]. split; [exact L4|].
  exists t, amount. split.
  - unfold rowFields. rewrite L0, L1, L3. cbn [truthy_opt default from_option].
    cbv delta [id]. cbv beta.
    rewrite Hatruthy. rewrite Hd0 at 1. cbn [truthy negb orb].
    match goal with H : truthy (trim cat) = true |- _ => rewrite H end. cbn [negb].
    unfold Date_parse. rewrite Ht, Hpf.
    destruct (Qle_bool amount 0) eqn:E; [|reflexivity].
    exfalso. apply Qle_bool_iff in E.
    assert (Hle : (amount * (100 # 1) <= 0 * (100 # 1))%Q)
      by (apply Qmult_le_compat_r; [exact E | discriminate]).
    rewrite Heq in Hle. unfold Qle in Hle. cbn in Hle. lia.
  - split; [apply Math_round_cents; exact Heq | reflexivity].
Qed.

(** ** What is exported is read back *)

Lemma forallb_Forall_false (p : N -> bool) (s : list N) :
  forallb (fun c => negb (p c)) s = true -> Forall (fun c => p c = false) s.
Proof.
  intros H. apply Forall_forall. intros x Hx.
  pose proof (proj1 (forallb_forall _ _) H x (proj1 (list_elem_of_In _ _) Hx)) as Hc.
  apply negb_true_iff in Hc. exact Hc.
Qed.

Lemma exported_lines (expenses : list Expense.t) :
  Forall (fun e => exportable e = true) expenses ->
  split 10 (BOM ++ join [10%N]
                     (join (js ",") csvHeaders
                      :: (join (js ",") <$> (exportRow <$> expenses))))
  = (BOM ++ join (js ",") csvHeaders)
    :: (join (js ",") <$> (exportRow <$> expenses)).
Proof.
  intros Hall. rewrite join_prefix. apply split_join; [discriminate|].
  constructor.
  - apply (forallb_Forall_false (fun c => (c =? 10)%N)). vm_compute. reflexivity.
  - induction Hall as [|e rest He _ IH]; [constructor|].
    cbn [fmap list_fmap]. constructor; [|exact IH].
    pose proof (exported_row (H := Sample.utc) e He) as Hrow. cbv zeta in Hrow.
    apply Hrow.
Qed.

Lemma exported_lines_kept (expenses : list Expense.t) :
  Forall (fun e => exportable e = true) expenses ->
  List.filter truthy (trim <$> (join (js ",") <$> (exportRow <$> expenses)))
  = trim <$> (join (js ",") <$> (exportRow <$> expenses)).
Proof.
  induction 1 as [|e rest He _ IH]; [reflexivity|].
  cbn [fmap list_fmap List.filter].
  pose proof (exported_row (H := Sample.utc) e He) as Hrow. cbv zeta in Hrow.
  destruct Hrow as (_ & Ht & _). rewrite Ht. f_equal. exact IH.
Qed.

Lemma parseRows_exported `{Host} (expenses : list Expense.t) (r : ImportResult) :
  Forall (fun e => exportable e = true) expenses ->
  parseRows csvHeaders (trim <$> (join (js ",") <$> (exportRow <$> expenses))) r
  = {| imported := imported r + Z.of_nat (length expenses);
       skipped := skipped r;
       errors := errors r |}.
Proof.
  intros Hall. revert r. induction Hall as [|e rest He _ IH]; intros r.
  - cbn [fmap list_fmap parseRows length]. destruct r as [i s er].
    cbn [imported skipped errors]. f_equal. lia.
  - cbn [fmap list_fmap parseRows length].
    pose proof (exported_row e He) as Hrow. cbv zeta in Hrow.
    destruct Hrow as (_ & _ & _ & _ & _ & date & amount & Hf & _).
    rewrite Hf, IH. cbn [imported skipped errors]. f_equal. lia.
Qed.

(** A collection of exportable expenses, exported and read by
    [parseCSV], counts every expense as imported and none as skipped. *)
Theorem export_then_parseCSV `{Host} (expenses : list Expense.t) :
  expenses <> [] -> Forall (fun e => exportable e = true) expenses ->
  exists csvContent,
    exportToCSV expenses = Return csvContent
    /\ parseCSV csvContent
       = Return {| imported := Z.of_nat (length expenses);
                   skipped := 0;
                   errors := [] |}.
Proof.
  intros Hne Hall.
  exists (BOM ++ join [10%N]
                   (join (js ",") csvHeaders
                    :: (join (js ",") <$> (exportRow <$> expenses)))).
  split; [destruct expenses; [congruence | reflexivity]|].
  unfold parseCSV. rewrite (exported_lines expenses Hall).
  rewrite fmap_cons.
  assert (Hh : trim (BOM ++ join (js ",") csvHeaders)
               = js "date,amount,currency,category,note,payment_method")
    by (vm_compute; reflexivity).
  rewrite Hh.
  change (List.filter truthy
            (js "date,amount,currency,category,note,payment_method"
             :: (trim <$> (join (js ",") <$> (exportRow <$> expenses)))))
    with (js "date,amount,currency,category,note,payment_method"
          :: List.filter truthy (trim <$> (join (js ",") <$> (exportRow <$> expenses)))).
  rewrite (exported_lines_kept expenses Hall).
  assert (Hs : (fun h => toLowerCase (trim h))
                 <$> split 44 (js "date,amount,currency,category,note,payment_method")
               = csvHeaders) by (vm_compute; reflexivity).
  rewrite Hs.
  assert (Hm : List.filter (fun h => negb (includes csvHeaders h)) requiredHeaders = [])
    by (vm_compute; reflexivity).
  rewrite Hm. rewrite (parseRows_exported expenses _ Hall). reflexivity.
Qed.

Lemma importRows_exported `{Host} (expenses rows : list Expense.t)
    (defaultCurrency : list N) (report : ImportReport) (w : World) :
  Forall (fun e => recognisable e = true /\ In e expenses) rows ->
  importRows csvHeaders (join (js ",") <$> (exportRow <$> rows)) defaultCurrency
    expenses false report w
  = (Return {| importedRows := importedRows report;
               skippedRows := skippedRows report + Z.of_nat (length rows);
               newExpenses := newExpenses report |}, w).
Proof.
  intros Hall. revert report. induction Hall as [|e rest [He Hin] _ IH]; intros report.
  - cbn [fmap list_fmap importRows length ret]. destruct report as [i s n].
    cbn [importedRows skippedRows newExpenses].
    replace (s + Z.of_nat 0) with s by lia. reflexivity.
  - cbn [fmap list_fmap importRows length].
    unfold recognisable in He.
    apply andb_prop in He as [He Hnote]. apply andb_prop in He as [He Hcat].
    pose proof (exported_row e He) as Hrow. cbv zeta in Hrow.
    destruct Hrow as (_ & Ht & Ld & Lc & Ln & date & amount & Hf & Hround & Hhd).
    rewrite Ht. cbn [negb].
    set (row := buildRow csvHeaders
                  (trim <$> split 44 (trim (join (js ",") (exportRow e))))) in *.
    assert (Hdup : isDuplicate row amount e = true).
    { unfold isDuplicate. rewrite Ld, Lc, Ln, Hhd, Hround, Z.eqb_refl.
      destruct (Expense.category e) as [c|]; [|discriminate].
      destruct (Expense.note e) as [n|]; [|discriminate].
      apply eqb_true in Hcat, Hnote. cbn [default from_option] in *. cbv delta [id] in *.
      cbv beta in *. rewrite Hcat, Hnote. cbn [truthy_opt].
      rewrite !bool_decide_eq_true_2 by reflexivity. cbn [andb].
      apply bool_decide_eq_true_2. destruct n; reflexivity. }
    assert (Hcreate : createExpenseFromCSVRow row defaultCurrency expenses false w
                      = (Return None, w)).
    { unfold createExpenseFromCSVRow. rewrite Hf. cbn [negb andb].
      assert (Hex : existsb (isDuplicate row amount) expenses = true).
      { apply existsb_exists. exists e. split; [exact Hin | exact Hdup]. }
      rewrite Hex. reflexivity. }
    unfold bind. rewrite Hcreate. rewrite IH.
    cbn [importedRows skippedRows newExpenses].
    replace (skippedRows report + 1 + Z.of_nat (length rest))
      with (skippedRows report + Z.of_nat (S (length rest))) by lia.
    reflexivity.
Qed.

(** Exported and brought back through the import handler without
    duplicates allowed, the stored expenses that carry a note are all
    recognised: nothing is imported, every row is skipped, and the store
    and the limiter are as before. *)
Theorem export_then_importCSV `{Host} (defaultCurrency : list N) (w : World) :
  getExpenses w <> [] ->
  Forall (fun e => recognisable e = true) (getExpenses w) ->
  exists csvContent,
    exportToCSV (getExpenses w) = Return csvContent
    /\ importCSV csvContent defaultCurrency false w
       = (Return (Completed
                    {| importedRows := 0;
                       skippedRows := Z.of_nat (length (getExpenses w));
                       newExpenses := [] |}), w).
Proof.
  intros Hne Hall.
  exists (BOM ++ join [10%N]
                   (join (js ",") csvHeaders
                    :: (join (js ",") <$> (exportRow <$> getExpenses w)))).
  split; [destruct (getExpenses w); [congruence | reflexivity]|].
  assert (Hexp : Forall (fun e => exportable e = true) (getExpenses w)).
  { eapply Forall_impl; [exact Hall|]. intros e He. cbn beta in He.
    unfold recognisable in He. apply andb_prop in He as [He _].
    apply andb_prop in He as [He _]. exact He. }
  cbv beta iota zeta delta [importCSV bind gets ret].
  rewrite (exported_lines (getExpenses w) Hexp). cbn [hd tl].
  assert (Hh : trim <$> split 44 (BOM ++ join (js ",") csvHeaders) = csvHeaders)
    by (vm_compute; reflexivity).
  rewrite Hh.
  assert (Hv : validateCSVHeaders csvHeaders = []) by (vm_compute; reflexivity).
  rewrite Hv.
  rewrite (importRows_exported (getExpenses w) (getExpenses w)).
  - cbn [newExpenses importedRows skippedRows]. reflexivity.
  - apply Forall_forall. intros e He. split.
    + rewrite Forall_forall in Hall. apply Hall, He.
    + apply list_elem_of_In, He.
Qed.

(** ** Month keys *)

Lemma yearOk_all : allFrom yearOk 1000 (Z.to_nat 9000) = true.
Proof. vm_compute. reflexivity. Qed.

Lemma String_year (y : Z) : 1000 <= y <= 9999 -> String_ y = pad 4 y.
Proof.
  intros Hy. apply eqb_true.
  exact (allFrom_spec yearOk (Z.to_nat 9000) 1000 y yearOk_all ltac:(lia)).
Qed.

Lemma String_month (m : Z) : 0 <= m -> padStart0 2 (String_ m) = pad 2 m.
Proof.
  intros Hm. unfold String_, pad. destruct (m <? 0) eqn:E; [lia|].
  rewrite Z.abs_eq by exact Hm. reflexivity.
Qed.

Lemma yearMonthOf_Date_local `{Host} (y mi y' m' : Z) :
  -1440 < tzOffsetMinutes < 1440 -> 100 <= y <= 9999 -> 0 <= mi <= 12 ->
  civil_from_days (MakeDay y mi 1) = (y', m', 1) ->
  1000 <= y' <= 9999 -> 1 <= m' ->
  yearMonthOf (Date_local y mi 1) = monthKey y' m'.
Proof.
  intros Htz Hy Hmi Hcivil Hy' Hm'. unfold Date_local, TimeClip, LocalTZA.
  replace ((0 <=? y) && (y <=? 99)) with false
    by (symmetry; apply andb_false_iff; right; apply Z.leb_gt; lia).
  pose proof (MakeDay_bound y mi 1 ltac:(lia) Hmi ltac:(lia)) as Hb.
  generalize dependent (MakeDay y mi 1). intros D Hcivil Hb.
  replace (Z.abs (D * msPerDay - tzOffsetMinutes * 60000) <=? 8640000000000000)
    with true by (symmetry; apply Z.leb_le; unfold msPerDay; lia).
  unfold yearMonthOf, getFullYear, getMonth, localCivil, LocalTZA.
  replace (D * msPerDay - tzOffsetMinutes * 60000 + tzOffsetMinutes * 60000)
    with (D * msPerDay + 0) by lia.
  rewrite day_of_instant by (unfold msPerDay; lia).
  rewrite Hcivil. rewrite (String_year y' Hy').
  replace (m' - 1 + 1) with m' by lia. rewrite String_month by lia. reflexivity.
Qed.

Lemma MakeDay_month_before (y m : Z) :
  1 <= m <= 12 ->
  MakeDay y (m - 2) 1 = MakeDay (fst (monthBefore y m)) (snd (monthBefore y m) - 1) 1.
Proof.
  intros Hm. unfold monthBefore. destruct (Z.eqb_spec m 1) as [->|Hne].
  - cbn [fst snd]. unfold MakeDay.
    change ((12 - 1) / 12) with 0. change ((1 - 2) / 12) with (-1).
    change ((12 - 1) mod 12) with 11. change ((1 - 2) mod 12) with 11.
    replace (y - 1 + 0) with (y + -1) by lia. reflexivity.
  - cbn [fst snd]. f_equal. lia.
Qed.

Lemma MakeDay_month_after (y m : Z) :
  1 <= m <= 12 ->
  MakeDay y m 1 = MakeDay (fst (monthAfter y m)) (snd (monthAfter y m) - 1) 1.
Proof.
  intros Hm. unfold monthAfter. destruct (Z.eqb_spec m 12) as [->|Hne].
  - cbn [fst snd]. unfold MakeDay.
    change ((1 - 1) / 12) with 0. change (12 / 12) with 1.
    change ((1 - 1) mod 12) with 0. change (12 mod 12) with 0.
    replace (y + 1 + 0) with (y + 1) by lia. reflexivity.
  - cbn [fst snd]. f_equal. lia.
Qed.

Lemma nextMonth_key `{Host} (y m : Z) :
  -1440 < tzOffsetMinutes < 1440 -> 1000 <= y <= 9998 -> 1 <= m <= 12 ->
  nextMonth (monthKey y m)
  = monthKey (fst (monthAfter y m)) (snd (monthAfter y m)).
Proof.
  intros Htz Hy Hm. unfold nextMonth. rewrite (monthKey_parts y m) by lia.
  cbn [lookup list_lookup mjoin option_join mbind option_bind].
  assert (Ha : 1000 <= fst (monthAfter y m) <= 9999 /\ 1 <= snd (monthAfter y m) <= 12).
  { unfold monthAfter. destruct (m =? 12) eqn:E; cbn [fst snd]; lia. }
  apply yearMonthOf_Date_local; try lia.
  rewrite MakeDay_month_after by exact Hm.
  apply (civilFacts_all (fst (monthAfter y m)) (snd (monthAfter y m))). lia.
Qed.

Lemma previousMonth_key `{Host} (y m : Z) :
  -1440 < tzOffsetMinutes < 1440 -> 1001 <= y <= 9999 -> 1 <= m <= 12 ->
  previousMonth (monthKey y m)
  = monthKey (fst (monthBefore y m)) (snd (monthBefore y m)).
Proof.
  intros Htz Hy Hm. unfold previousMonth. rewrite (monthKey_parts y m) by lia.
  cbn [lookup list_lookup mjoin option_join mbind option_bind].
  assert (Ha : 1000 <= fst (monthBefore y m) <= 9999 /\ 1 <= snd (monthBefore y m) <= 12).
  { unfold monthBefore. destruct (m =? 1) eqn:E; cbn [fst snd]; lia. }
  unfold Date_local.
  replace ((0 <=? y) && (y <=? 99)) with false
    by (symmetry; apply andb_false_iff; right; apply Z.leb_gt; lia).
  rewrite MakeDay_month_before by exact Hm.
  destruct Ha as [Hy' Hm'].
  pose proof (civilFacts_all (fst (monthBefore y m)) (snd (monthBefore y m)) Hm')
    as [Hcivil _].
  assert (Hk : yearMonthOf (Date_local (fst (monthBefore y m))
                              (snd (monthBefore y m) - 1) 1)
               = monthKey (fst (monthBefore y m)) (snd (monthBefore y m)))
    by (apply yearMonthOf_Date_local; try lia; exact Hcivil).
  unfold Date_local in Hk.
  replace ((0 <=? fst (monthBefore y m)) && (fst (monthBefore y m) <=? 99)) with false in Hk
    by (symmetry; apply andb_false_iff; right; apply Z.leb_gt; lia).
  exact Hk.
Qed.

(** The month selector steps through the calendar: [nextMonth] gives the
    key of the following month and [previousMonth] that of the preceding
    one, across the turn of the year, and each undoes the other. *)
Theorem month_navigation `{Host} (y m : Z) :
  -1440 < tzOffsetMinutes < 1440 -> 1001 <= y <= 9998 -> 1 <= m <= 12 ->
  nextMonth (monthKey y m)
  = monthKey (fst (monthAfter y m)) (snd (monthAfter y m))
  /\ previousMonth (monthKey y m)
     = monthKey (fst (monthBefore y m)) (snd (monthBefore y m))
  /\ previousMonth (nextMonth (monthKey y m)) = monthKey y m
  /\ nextMonth (previousMonth (monthKey y m)) = monthKey y m.
Proof.
  intros Htz Hy Hm.
  rewrite (nextMonth_key y m), (previousMonth_key y m) by lia.
  split; [reflexivity|]. split; [reflexivity|].
  assert (Ha : 1001 <= fst (monthAfter y m) <= 9999 /\ 1 <= snd (monthAfter y m) <= 12).
  { unfold monthAfter. destruct (m =? 12) eqn:E; cbn [fst snd]; lia. }
  assert (Hb : 1000 <= fst (monthBefore y m) <= 9998 /\ 1 <= snd (monthBefore y m) <= 12).
  { unfold monthBefore. destruct (m =? 1) eqn:E; cbn [fst snd]; lia. }
  rewrite previousMonth_key, nextMonth_key by lia.
  split.
  - unfold monthAfter, monthBefore.
    destruct (Z.eqb_spec m 12) as [->|H12]; cbn [fst snd].
    + cbn. replace (y + 1 - 1) with y by lia. reflexivity.
    + destruct (Z.eqb_spec (m + 1) 1); [lia|]. cbn [fst snd].
      replace (m + 1 - 1) with m by lia. reflexivity.
  - unfold monthAfter, monthBefore.
    destruct (Z.eqb_spec m 1) as [->|H1]; cbn [fst snd].
    + cbn. replace (y - 1 + 1) with y by lia. reflexivity.
    + destruct (Z.eqb_spec (m - 1) 12); [lia|]. cbn [fst snd].
      replace (m - 1 + 1) with m by lia. reflexivity.
Qed.

Lemma month_navigation_witness :
  nextMonth (H := Sample.cet) (js "2024-12") = js "2025-01"
  /\ previousMonth (H := Sample.cet) (js "2024-12") = js "2024-11"
  /\ previousMonth (H := Sample.cet) (nextMonth (H := Sample.cet) (js "2024-12"))
     = js "2024-12"
  /\ nextMonth (H := Sample.cet) (previousMonth (H := Sample.cet) (js "2024-12"))
     = js "2024-12".
Proof.
  exact (month_navigation (H := Sample.cet) 2024 12 ltac:(cbn; lia) ltac:(lia) ltac:(lia)).
Defined.

Lemma is_yearMonth_monthKey (y m : Z) :
  0 <= y <= 9999 -> 0 <= m <= 99 -> is_yearMonth (monthKey y m) = true.
Proof.
  intros Hy Hm. unfold monthKey.
  destruct (pad4_digits y Hy) as (y1 & y2 & y3 & y4 & -> & Hyd).
  destruct (pad2_digits m Hm) as (m1 & m2 & -> & Hmd).
  cbn [forallb] in *.
  repeat match goal with
         | H : _ && _ = true |- _ => apply andb_prop in H as [? ?]
         end.
  change (js "-") with [45%N]. cbn [app is_yearMonth forallb].
  repeat match goal with
         | H : isDigit _ = true |- _ => rewrite H; clear H
         end.
  reflexivity.
Qed.

(** [getCurrentMonth] gives the key of the local month: four digits of
    the year and two of the month, a key that the budget schema accepts
    and that [getMonthRange] turns into a range. *)
Theorem getCurrentMonth_key `{Host} (w : World) :
  -1440 < tzOffsetMinutes < 1440 ->
  msPerDay <= clock w <= endOf9999 - msPerDay ->
  exists y m d,
    localCivil (clock w) = (y, m, d)
    /\ 1600 <= y <= 9999 /\ 1 <= m <= 12
    /\ getCurrentMonth w = monthKey y m
    /\ is_yearMonth (getCurrentMonth w) = true
    /\ exists start end_, getMonthRange (getCurrentMonth w) = Return (start, end_).
Proof.
  unfold endOf9999, msPerDay. intros Htz Hclock.
  unfold getCurrentMonth, yearMonthOf, getFullYear, getMonth, localCivil, LocalTZA.
  set (z := (clock w + tzOffsetMinutes * 60000) / msPerDay).
  assert (Hz : 0 <= z <= 2932896).
  { subst z. unfold msPerDay. Z.div_mod_to_equations. lia. }
  destruct (civil_from_days_range z) as (y & m & d & -> & Hm & Hd & Hy & Hy').
  specialize (Hy ltac:(lia)). specialize (Hy' ltac:(lia)).
  exists y, m, d. split; [reflexivity|]. split; [lia|]. split; [exact Hm|].
  assert (Hkey : String_ y ++ js "-" ++ padStart0 2 (String_ (m - 1 + 1)) = monthKey y m).
  { rewrite (String_year y) by lia. replace (m - 1 + 1) with m by lia.
    rewrite String_month by lia. reflexivity. }
  rewrite Hkey. split; [reflexivity|].
  split; [apply is_yearMonth_monthKey; lia|].
  rewrite (getMonthRange_days y m) by lia. eexists _, _. reflexivity.
Qed.

Lemma getCurrentMonth_key_witness :
  getCurrentMonth (H := Sample.cet) Sample.world = js "2024-03".
Proof.
  destruct (getCurrentMonth_key (H := Sample.cet) Sample.world)
    as (y & m & d & Hcivil & _ & _ & Hkey & _).
  - cbn. lia.
  - split; apply Z.leb_le; reflexivity.
  - rewrite Hkey. vm_compute in Hcivil. injection Hcivil as <- <- <-. reflexivity.
Defined.

(** ** The slices of the pie chart *)

Lemma foldl_sum {A} (f : A -> Z) (l : list A) (acc : Z) :
  foldl (fun sum x => sum + f x) acc l = acc + sumZ f l.
Proof.
  revert acc. induction l as [|x l IH]; intros acc; cbn [foldl].
  - unfold sumZ. cbn [foldr]. lia.
  - rewrite IH, sumZ_cons. lia.
Qed.

(** The chart shows at most eight slices, the first seven groups among
    them, and its slices add up to the groups: no amount and no expense is
    lost when the smaller groups are merged. *)
Theorem chartData_conserves (categoryTotals : list CategoryTotal.t) :
  (length (chartData categoryTotals) <= 8)%nat
  /\ take 7 (chartData categoryTotals) = take 7 categoryTotals
  /\ sumZ CategoryTotal.totalCents (chartData categoryTotals)
     = sumZ CategoryTotal.totalCents categoryTotals
  /\ sumZ CategoryTotal.expenseCount (chartData categoryTotals)
     = sumZ CategoryTotal.expenseCount categoryTotals
  /\ ((length categoryTotals <= 8)%nat -> chartData categoryTotals = categoryTotals).
Proof.
  unfold chartData. destruct categoryTotals as [|c0 rest] eqn:E.
  - repeat split; cbn [length]; lia.
  - rewrite <- E. clear E c0 rest.
    destruct (8 <? length categoryTotals)%nat eqn:E8.
    + apply Nat.ltb_lt in E8. cbv zeta.
      split; [rewrite length_app, length_take; cbn [length]; lia|].
      split; [rewrite take_app_le by (rewrite length_take; lia);
              rewrite take_take; reflexivity|].
      assert (Hsplit : forall f : CategoryTotal.t -> Z,
                sumZ f categoryTotals
                = sumZ f (take 7 categoryTotals) + sumZ f (drop 7 categoryTotals)).
      { intros f. rewrite <- sumZ_app, take_drop. reflexivity. }
      rewrite !sumZ_app, !sumZ_cons, !foldl_sum.
      cbn [CategoryTotal.totalCents CategoryTotal.expenseCount].
      rewrite (Hsplit CategoryTotal.totalCents), (Hsplit CategoryTotal.expenseCount).
      assert (Hnil : forall f : CategoryTotal.t -> Z, sumZ f [] = 0) by reflexivity.
      rewrite !Hnil.
      split; [lia|]. split; [lia|]. intros Hle. lia.
    + apply Nat.ltb_ge in E8.
      split; [exact E8|]. repeat split; reflexivity.
Qed.

(** ** Quoted CSV values *)

Lemma doubleQuotes_plain (s : list N) :
  Forall (fun c => (c =? 34)%N = false) s -> doubleQuotes s = s.
Proof.
  unfold doubleQuotes. induction 1 as [|c s Hc _ IH]; [reflexivity|].
  cbn [mbind list_bind]. rewrite Hc, IH. reflexivity.
Qed.

Lemma stripQuoteStart_plain (s : list N) :
  head s <> Some 39%N -> Forall (fun c => (c =? 34)%N = false) s ->
  stripQuoteStart s = s.
Proof.
  intros Hh Hs. destruct s as [|c s]; [reflexivity|].
  cbn [stripQuoteStart]. unfold isQuote.
  inversion Hs as [|? ? Hc _]; subst. rewrite Hc.
  destruct (N.eqb_spec c 39) as [->|]; [cbn in Hh; congruence | reflexivity].
Qed.

Lemma head_rev {A} (s : list A) : head (rev s) = last s.
Proof.
  induction s as [|c s IH]; [reflexivity|].
  cbn [rev]. destruct s as [|d s]; [reflexivity|].
  change (last (c :: d :: s)) with (last (d :: s)). rewrite <- IH.
  destruct (rev (d :: s)) as [|x r] eqn:E; [|reflexivity].
  apply (f_equal (@length A)) in E. rewrite length_rev in E. discriminate.
Qed.

(** A value without a double quote that neither starts nor ends with an
    apostrophe comes back from [escapeCSVValue] and [sanitizeCSVValue] as
    itself, trimmed, whether or not it had to be quoted. *)
Theorem escape_then_sanitize (value : list N) :
  Forall (fun c => (c =? 34)%N = false) value ->
  head value <> Some 39%N -> last value <> Some 39%N ->
  sanitizeCSVValue (escapeCSVValue value) = trim value.
Proof.
  intros Hq Hh Hl. unfold escapeCSVValue, sanitizeCSVValue.
  assert (Hno : existsb (fun c => (c =? 34)%N) value = false).
  { apply not_true_is_false. intros Hex. apply existsb_exists in Hex as (c & Hin & Hc).
    rewrite Forall_forall in Hq. apply list_elem_of_In in Hin. rewrite (Hq c Hin) in Hc.
    discriminate. }
  rewrite Hno, orb_false_r.
  destruct (existsb (fun c => (c =? 44)%N) value || existsb (fun c => (c =? 10)%N) value).
  - rewrite (doubleQuotes_plain value Hq).
    change (stripQuoteStart ([34%N] ++ value ++ [34%N])) with (value ++ [34%N]).
    unfold stripQuoteEnd. rewrite rev_app_distr.
    change (stripQuoteStart (rev [34%N] ++ rev value)) with (rev value).
    rewrite rev_involutive. reflexivity.
  - rewrite (stripQuoteStart_plain value Hh Hq). unfold stripQuoteEnd.
    rewrite stripQuoteStart_plain, rev_involutive; [reflexivity| |apply Forall_rev, Hq].
    rewrite head_rev. exact Hl.
Qed.

Lemma escape_then_sanitize_witness :
  escapeCSVValue (js "tea, milk") = [34%N] ++ js "tea, milk" ++ [34%N]
  /\ sanitizeCSVValue (escapeCSVValue (js "tea, milk")) = trim (js "tea, milk").
Proof.
  split; [reflexivity|].
  apply (escape_then_sanitize (js "tea, milk")).
  - repeat constructor.
  - discriminate.
  - discriminate.
Defined.

(** ** The two validators of the entry form *)

Lemma stage_nil (c : bool) (errors : list (list N)) (m : list N) :
  (if c then errors ++ [m] else errors) = [] -> c = false /\ errors = [].
Proof.
  destruct c; intros H; [|split; [reflexivity | exact H]].
  destruct errors; discriminate H.
Qed.

(** An entry that the stricter [validateExpense] accepts is accepted by
    the plain one, and its amount and its texts are within the bounds of
    the expense schema. *)
Theorem hardened_validateExpense_accepts `{Host} (expense : ExpensePartial.t)
    (w : World) :
  Hardened.validateExpense expense w = [] ->
  validateExpense expense w = []
  /\ (exists a, ExpensePartial.amountCents expense = Some a /\ 1 <= a <= 100000000)
  /\ (exists c, ExpensePartial.category expense = Some c
                /\ truthy (trim c) = true /\ (length c <= 50)%nat)
  /\ optional (maxLen 500) (ExpensePartial.note expense) = true
  /\ optional (maxLen 50) (ExpensePartial.paymentMethod expense) = true.
Proof.
  unfold Hardened.validateExpense. cbv zeta. intros Hnil.
  assert (Hall :
    Hardened.tooLong 50 (ExpensePartial.paymentMethod expense) = false
    /\ Hardened.tooLong 500 (ExpensePartial.note expense) = false
    /\ Hardened.tooLong 50 (ExpensePartial.category expense) = false
    /\ (exists c, ExpensePartial.category expense = Some c
                  /\ negb (truthy c) || (length (trim c) =? 0)%nat = false)
    /\ (exists a, ExpensePartial.amountCents expense = Some a
                  /\ negb (a =? 0) && (a >? 100000000) = false
                  /\ (a =? 0) || (a <=? 0) = false)
    /\ match ExpensePartial.paidAt expense with
       | Some paidAt =>
           truthy paidAt = true ->
           date_gt (Date_parse paidAt) (Some (endOfLocalDay (clock w))) = false
       | None => True
       end).
  { assert (Hgt :
      match ExpensePartial.paidAt expense with
      | Some paidAt =>
          truthy paidAt = true ->
          date_gt (Date_parse paidAt) (Some (endOfLocalDay (clock w))) = false
      | None => True
      end).
    { destruct (ExpensePartial.paidAt expense) as [p|]; [|exact I].
      intros Ht. rewrite Ht in Hnil. apply stage_nil in Hnil as [_ Hnil].
      destruct (Date_parse p) as [t|].
      - apply stage_nil in Hnil as [Hgt _]. exact Hgt.
      - apply app_eq_nil in Hnil as [_ Hnil]. discriminate Hnil. }
    eassert (Hrest : _ = @nil (list N)).
    { destruct (ExpensePartial.paidAt expense) as [p|]; [|exact Hnil].
      destruct (truthy p); [|exact Hnil].
      apply stage_nil in Hnil as [_ Hnil].
      destruct (Date_parse p) as [t|].
      - apply stage_nil in Hnil as [_ Hnil]. exact Hnil.
      - apply app_eq_nil in Hnil as [_ Hnil]. discriminate Hnil. }
    clear Hnil.
    apply stage_nil in Hrest as [Hpm Hrest].
    apply stage_nil in Hrest as [Hnote Hrest].
    apply stage_nil in Hrest as [Hlong Hrest].
    split; [exact Hpm|]. split; [exact Hnote|]. split; [exact Hlong|].
    destruct (ExpensePartial.category expense) as [c|];
      [|apply app_eq_nil in Hrest as [_ Hrest]; discriminate Hrest].
    apply stage_nil in Hrest as [Hcat Hrest].
    split; [exists c; split; [reflexivity | exact Hcat]|].
    destruct (ExpensePartial.amountCents expense) as [a|];
      [|apply app_eq_nil in Hrest as [_ Hrest]; discriminate Hrest].
    apply stage_nil in Hrest as [Hmax Hrest].
    apply stage_nil in Hrest as [Hmin _].
    split; [exists a; split; [reflexivity | split; assumption]|].
    exact Hgt. }
  clear Hnil.
  destruct Hall as (Hpm & Hnote & Hlong & (c & Hc & Hcat) & (a & Ha & Hmax & Hmin) & Hdate).
  apply orb_false_elim in Hmin as [Hmin1 Hmin2], Hcat as [Hcat1 Hcat2].
  apply negb_false_iff in Hcat1.
  rewrite Hmin1 in Hmax. cbn [negb andb] in Hmax.
  unfold Hardened.tooLong in Hlong, Hnote, Hpm. rewrite Hc in Hlong.
  rewrite Hcat1 in Hlong. cbn [andb] in Hlong.
  split.
  - unfold validateExpense. cbv zeta. rewrite Ha, Hc, Hmin1, Hmin2.
    cbn [orb truthy_opt]. rewrite Hcat1. cbn [negb].
    destruct (ExpensePartial.paidAt expense) as [p|]; [|reflexivity].
    destruct (truthy p); [|reflexivity]. rewrite (Hdate eq_refl). reflexivity.
  - split; [exists a; split; [exact Ha | lia]|].
    split.
    { exists c. split; [exact Hc|]. split.
      - apply Nat.eqb_neq in Hcat2.
        destruct (trim c); [exfalso; apply Hcat2; reflexivity | reflexivity].
      - apply Nat.ltb_ge in Hlong. exact Hlong. }
    unfold maxLen. split.
    + destruct (ExpensePartial.note expense) as [n|]; [|reflexivity]. cbn [optional].
      destruct n as [|x n]; [reflexivity|]. cbn [truthy andb] in Hnote.
      apply Nat.leb_le. apply Nat.ltb_ge in Hnote. exact Hnote.
    + destruct (ExpensePartial.paymentMethod expense) as [n|]; [|reflexivity].
      cbn [optional]. destruct n as [|x n]; [reflexivity|]. cbn [truthy andb] in Hpm.
      apply Nat.leb_le. apply Nat.ltb_ge in Hpm. exact Hpm.
Qed.

Lemma hardened_validateExpense_accepts_witness :
  validateExpense (H := Sample.utc)
    (ExpensePartial.mk None (Some 1599) None (Some (js "Food")) (Some (js "tea"))
       (Some (js "2024-03-15")) None None None) Sample.world = [].
Proof.
  refine (proj1 (hardened_validateExpense_accepts (H := Sample.utc)
            (ExpensePartial.mk None (Some 1599) None (Some (js "Food")) (Some (js "tea"))
               (Some (js "2024-03-15")) None None None) Sample.world _)).
  vm_compute. reflexivity.
Defined.

(** ** The entry form, submitted *)

Lemma updateExpense_run (id : list N) (updates : ExpensePartial.t) (w : World)
    (index : nat) (existing : Expense.t) :
  admitted (js "updateExpense") 100 w = true ->
  admitted (js "saveExpenses") 50 w = true ->
  ls_quotaExceeded w = false ->
  findIndex (fun e => eqb (Expense.id e) id) (getExpenses w) = Some index ->
  getExpenses w !! index = Some existing ->
  ExpenseSchema (mergeUpdates existing updates (toISOString (clock w))) = true ->
  exists w',
    updateExpense id updates w
    = (Return (Some (mergeUpdates existing updates (toISOString (clock w)))), w')
    /\ ls_expenses w'
       = Stored (<[index := mergeUpdates existing updates (toISOString (clock w))]>
                   (getExpenses w))
    /\ getExpenses w'
       = <[index := mergeUpdates existing updates (toISOString (clock w))]>
           (getExpenses w).
Proof.
  unfold admitted. intros Hupd Hsave Hq Hfind Hlook Hschema.
  cbv beta iota zeta delta [updateExpense bind rateLimited gets Date_now throw ret].
  pose proof (checkRateLimit_fields (js "updateExpense") 100 60000 w) as Hf.
  pose proof (checkRateLimit_other (js "updateExpense") (js "saveExpenses") 100 60000 w
                ltac:(discriminate)) as Hother.
  destruct (checkRateLimit (js "updateExpense") 100 60000 w) as [ok w1].
  cbn [fst snd] in *. cbv zeta in Hf. subst ok. cbn [negb].
  destruct Hf as (He & Hb & Hs & Hq1 & Hc1 & Hen & Hdr).
  assert (Hg : getExpenses w1 = getExpenses w) by (unfold getExpenses; rewrite He; reflexivity).
  rewrite Hg, Hfind, Hlook, Hc1.
  set (updated := mergeUpdates existing updates (toISOString (clock w))) in *.
  rewrite saveExpenses_unfold.
  pose proof (checkRateLimit_decision (js "saveExpenses") 50 60000 w w1 Hother Hc1) as Hdec.
  pose proof (checkRateLimit_fields (js "saveExpenses") 50 60000 w1) as Hf2.
  destruct (checkRateLimit (js "saveExpenses") 50 60000 w1) as [ok w3].
  cbn [fst snd] in *. cbv zeta in Hf2. rewrite Hsave in Hdec. subst ok.
  destruct Hf2 as (He3 & _ & _ & Hq3 & _).
  assert (Hvalid : validateExpenseData (<[index := updated]> (getExpenses w)) = true).
  { apply forallb_insert; [apply getExpenses_passes_schema | exact Hschema]. }
  rewrite Hvalid, Hq3, Hq1, Hq.
  exists (put_expenses (<[index := updated]> (getExpenses w)) w3).
  split; [reflexivity|]. split; [reflexivity|].
  unfold getExpenses at 1. cbn [put_expenses ls_expenses]. rewrite Hvalid. reflexivity.
Qed.

Lemma sanitizeCategory_truthy (category : list N) :
  truthy (sanitizeCategory category) = true -> truthy category = true.
Proof. destruct category; [discriminate | reflexivity]. Qed.

Lemma findIndex_In (id : list N) (expenses : list Expense.t) (e : Expense.t) :
  In e expenses -> Expense.id e = id ->
  exists index existing,
    findIndex (fun x => eqb (Expense.id x) id) expenses = Some index
    /\ expenses !! index = Some existing /\ Expense.id existing = id.
Proof.
  intros Hin Hid.
  destruct (findIndex (fun x => eqb (Expense.id x) id) expenses) as [index|] eqn:E.
  - destruct (findIndex_Some _ _ _ E) as (x & Hx & Hp). apply eqb_true in Hp.
    exists index, x. auto.
  - pose proof (findIndex_None _ _ E e Hin) as Hp. cbn beta in Hp.
    rewrite Hid in Hp. unfold eqb in Hp. rewrite bool_decide_eq_true_2 in Hp by reflexivity.
    discriminate.
Qed.

(** A form with an amount written with at most two decimals (where the
    cents of [parseCurrency] are those that the code computes) that comes
    to 1 to 100000000 cents, a category that is not empty once sanitised
    and a date of the form YYYY-MM-DD that is not after today is saved
    whenever the limiter and the store allow it. What is stored then is the
    collection that [getExpenses] read before, with the new record at its
    end or, when an expense of that collection is being edited, with the
    merged record in place of the first record that has its id; that
    record's id and creation instant are kept, and the amount is the one of
    the form. *)
Theorem handleSubmit_saves `{Host} (formData : FormData.t) (w : World) :
  let data := expenseData (getSettings w) formData in
  plainAmount (FormData.amount formData) = true ->
  1 <= parseCurrency (FormData.amount formData) <= 100000000 ->
  truthy (sanitizeCategory (FormData.category formData)) = true ->
  is_dateOnly (FormData.paidAt formData) = true ->
  date_gt (Date_parse (FormData.paidAt formData))
    (Some (endOfLocalDay (clock w))) = false ->
  admitted (js "saveExpenses") 50 w = true ->
  ls_quotaExceeded w = false ->
  0 <= clock w <= endOf9999 ->
  (admitted (js "addExpense") 100 w = true ->
   exists w',
     handleSubmit None formData w = (Saved, w')
     /\ ls_expenses w'
        = Stored (getExpenses w
                  ++ [newRecord data (formatUUID (entropy w (drawn w)))
                        (toISOString (clock w))])
     /\ getExpenses w'
        = getExpenses w ++ [newRecord data (formatUUID (entropy w (drawn w)))
                              (toISOString (clock w))])
  /\ (admitted (js "updateExpense") 100 w = true ->
      forall editing, In editing (getExpenses w) ->
      exists w' index existing,
        handleSubmit (Some editing) formData w = (Saved, w')
        /\ getExpenses w !! index = Some existing
        /\ Expense.id existing = Expense.id editing
        /\ (forall j other, (j < index)%nat -> getExpenses w !! j = Some other ->
                            Expense.id other <> Expense.id editing)
        /\ ls_expenses w'
           = Stored (<[index := mergeUpdates existing (asPartial data)
                                  (toISOString (clock w))]> (getExpenses w))
        /\ getExpenses w'
           = <[index := mergeUpdates existing (asPartial data)
                          (toISOString (clock w))]> (getExpenses w)
        /\ Expense.id (mergeUpdates existing (asPartial data) (toISOString (clock w)))
           = Expense.id editing
        /\ Expense.createdAt
             (mergeUpdates existing (asPartial data) (toISOString (clock w)))
           = Expense.createdAt existing
        /\ Expense.amountCents
             (mergeUpdates existing (asPartial data) (toISOString (clock w)))
           = parseCurrency (FormData.amount formData)).
Proof.
  cbv zeta. intros _ Hamount Hcat Hdate Hfuture Hsave Hq Hclock.
  set (data := expenseData (getSettings w) formData).
  destruct (getSettings_valid w) as (Hsettings & _).
  assert (Hcur : is_currencyCode (NewExpense.currency data) = true).
  { unfold validateSettingsData, SettingsSchema in Hsettings.
    apply andb_prop in Hsettings as [Hsettings _].
    apply andb_prop in Hsettings as [Hsettings _]. exact Hsettings. }
  pose proof (sanitizeCategory_truthy _ Hcat) as Hcat0.
  assert (Hvalid : validateExpense (asPartial data) w = []).
  { unfold validateExpense, asPartial, data, expenseData. cbv zeta.
    cbn [ExpensePartial.amountCents ExpensePartial.category ExpensePartial.paidAt
         NewExpense.amountCents NewExpense.category NewExpense.paidAt truthy_opt].
    destruct (parseCurrency (FormData.amount formData) =? 0) eqn:E0; [lia|].
    destruct (parseCurrency (FormData.amount formData) <=? 0) eqn:E1; [lia|].
    cbn [orb]. rewrite Hcat0. cbn [negb].
    destruct (truthy (FormData.paidAt formData)); [|reflexivity].
    rewrite Hfuture. reflexivity. }
  assert (Hnow : is_datetime (toISOString (clock w)) = true)
    by (apply is_datetime_toISOString, Hclock).
  split.
  - intros Hadd.
    assert (Hschema : ExpenseSchema (newRecord data (formatUUID (entropy w (drawn w)))
                                       (toISOString (clock w))) = true).
    { apply newRecord_passes; try assumption. apply formatUUID_is_uuid. }
    destruct (addExpense_run data w Hadd Hsave Hq Hschema) as (w' & Hrun & Hst & Hget).
    exists w'. unfold handleSubmit. cbv zeta. fold data. rewrite Hvalid, Hrun.
    split; [reflexivity|]. split; [exact Hst | exact Hget].
  - intros Hupd editing Hin.
    destruct (findIndex_In (Expense.id editing) (getExpenses w) editing Hin eq_refl)
      as (index & existing & Hfind & Hlook & Hid).
    pose proof (findIndex_first _ _ _ Hfind) as Hfirst.
    pose proof (forallb_lookup _ _ _ _ (getExpenses_passes_schema w) Hlook) as Hex.
    unfold ExpenseSchema in Hex.
    repeat match goal with
           | H : _ && _ = true |- _ => apply andb_prop in H as [H ?]
           end.
    assert (Hschema : ExpenseSchema (mergeUpdates existing (asPartial data)
                                       (toISOString (clock w))) = true).
    { unfold ExpenseSchema, mergeUpdates, asPartial.
      cbn [Expense.id Expense.amountCents Expense.currency Expense.category Expense.note
           Expense.paidAt Expense.paymentMethod Expense.createdAt Expense.updatedAt
           ExpensePartial.id ExpensePartial.amountCents ExpensePartial.currency
           ExpensePartial.category ExpensePartial.note ExpensePartial.paidAt
           ExpensePartial.paymentMethod ExpensePartial.createdAt
           ExpensePartial.updatedAt default from_option truthy_opt
           fmap option_fmap option_map required].
      cbv delta [id]. cbv beta.
      change (NewExpense.category data) with (FormData.category formData).
      change (NewExpense.paidAt data) with (FormData.paidAt formData).
      change (NewExpense.amountCents data) with (parseCurrency (FormData.amount formData)).
      rewrite Hcat0. cbn [required]. rewrite Hex, Hcur, Hcat, Hdate, !sanitized_optional, Hnow.
      match goal with H : is_datetime (Expense.createdAt existing) = true |- _ => rewrite H end.
      unfold maxLen. rewrite (proj2 (Nat.leb_le _ _) (length_sanitizeCategory _)).
      destruct (1 <=? parseCurrency (FormData.amount formData)) eqn:E1; [|lia].
      destruct (parseCurrency (FormData.amount formData) <=? 100000000) eqn:E2; [|lia].
      reflexivity. }
    destruct (updateExpense_run (Expense.id editing) (asPartial data) w index existing
                Hupd Hsave Hq Hfind Hlook Hschema) as (w' & Hrun & Hst & Hget).
    exists w', index, existing. unfold handleSubmit. cbv zeta. fold data.
    rewrite Hvalid, Hrun.
    split; [reflexivity|]. split; [exact Hlook|]. split; [exact Hid|].
    split.
    { intros j other Hj Hother Heq. specialize (Hfirst j other Hj Hother).
      cbn beta in Hfirst. apply (proj2 (eqb_true _ _)) in Heq. congruence. }
    split; [exact Hst|].
    split; [exact Hget|]. split; [exact Hid|]. split; reflexivity.
Qed.

Lemma export_then_parseCSV_witness :
  exists csvContent,
    exportToCSV [Sample.coffee; Sample.lunch] = Return csvContent
    /\ parseCSV (H := Sample.utc) csvContent
       = Return {| imported := 2; skipped := 0; errors := [] |}.
Proof.
  apply (export_then_parseCSV (H := Sample.utc) [Sample.coffee; Sample.lunch]).
  - discriminate.
  - repeat constructor.
Defined.

Lemma export_then_importCSV_witness :
  exists csvContent,
    exportToCSV [Sample.lunch] = Return csvContent
    /\ importCSV (H := Sample.utc) csvContent (js "EUR") false Sample.noted
       = (Return (Completed {| importedRows := 0;
                               skippedRows := 1;
                               newExpenses := [] |}), Sample.noted).
Proof.
  apply (export_then_importCSV (H := Sample.utc) (js "EUR") Sample.noted).
  - discriminate.
  - repeat constructor.
Defined.

(** The sample form submitted as a new entry, and submitted while the
    second stored expense is being edited. *)
Lemma handleSubmit_saves_witness :
  (exists w',
     handleSubmit (H := Sample.utc) None Sample.form Sample.world = (Saved, w')
     /\ ls_expenses w'
        = Stored
            [Sample.coffee; Sample.lunch;
             {| Expense.id := js "00000000-0000-4000-8000-000000000063";
                Expense.amountCents := 1599;
                Expense.currency := js "EUR";
                Expense.category := Some (js "Food");
                Expense.note := None;
                Expense.paidAt := js "2024-03-15";
                Expense.paymentMethod := None;
                Expense.createdAt := js "2024-03-20T12:00:00.000Z";
                Expense.updatedAt := js "2024-03-20T12:00:00.000Z" |}])
  /\ (exists w',
        handleSubmit (H := Sample.utc) (Some Sample.lunch) Sample.form Sample.world
        = (Saved, w')
        /\ ls_expenses w'
           = Stored
               [Sample.coffee;
                {| Expense.id := Expense.id Sample.lunch;
                   Expense.amountCents := 1599;
                   Expense.currency := js "EUR";
                   Expense.category := Some (js "Food");
                   Expense.note := None;
                   Expense.paidAt := js "2024-03-15";
                   Expense.paymentMethod := None;
                   Expense.createdAt := Expense.createdAt Sample.lunch;
                   Expense.updatedAt := js "2024-03-20T12:00:00.000Z" |}]).
Proof.
  assert (Hclock : 0 <= clock Sample.world <= endOf9999)
    by (split; apply Z.leb_le; reflexivity).
  assert (Hamount : 1 <= parseCurrency (FormData.amount Sample.form) <= 100000000)
    by (split; apply Z.leb_le; reflexivity).
  destruct (handleSubmit_saves (H := Sample.utc) Sample.form Sample.world
              eq_refl Hamount eq_refl eq_refl eq_refl eq_refl eq_refl Hclock)
    as [Hadd Hedit].
  split.
  - destruct (Hadd eq_refl) as (w' & Hrun & Hst & _).
    exists w'. split; [exact Hrun | exact Hst].
  - destruct (Hedit eq_refl Sample.lunch ltac:(right; left; reflexivity))
      as (w' & index & existing & Hrun & Hlook & Hid & Hfirst & Hst & _).
    exists w'. split; [exact Hrun|].
    destruct index as [|[|index]].
    + injection Hlook as <-. vm_compute in Hid. discriminate.
    + injection Hlook as <-. exact Hst.
    + discriminate.
Defined.
